(** * JSON-to-workbook service: a shallow embedding of [python_agent_api/main.py]

    The development follows the Python module function by function:
    - [direct_json_to_excel], the deterministic structuring of a JSON value
      into named sheets (with the filename policy it applies);
    - [convert_json_with_agno], the size-tiered choice between the direct
      path and the delegated producer;
    - [process_json_data], the request handler with its fallbacks;
    - [download_file], [list_files], [cleanup_all_files] and
      [cleanup_expired_files], the operations on the [temp_files] registry.

    Python exceptions are results of type [Outcome]; the module-level state
    (the [temp_files] dict, the files on disk, the clock and the uuid
    generator) is an explicit [World] threaded through every call.  What the
    module obtains from libraries whose behaviour is not fixed by the module
    itself ([json.loads], [str.isalnum], the producer agent, ...) is
    collected in the record [Env] and passed explicitly. *)

From Stdlib Require Import ZArith Ascii String List Bool Lia.
From stdpp Require Import base option list strings pretty gmap.

Local Open Scope Z_scope.
Local Set Warnings "-register-all".

(** ** Python dicts

    A Python [dict] keeps insertion order and has unique keys; it is an
    association list updated in place.  [cleanup_all_files] and [list_files]
    walk [temp_files] in that order. *)
Module PyDict.
Section WithValue.
Context {V : Type}.

Fixpoint get (k : string) (d : list (string * V)) : option V :=
  match d with
  | [] => None
  | (k', v) :: d' => if decide (k' = k) then Some v else get k d'
  end.

(** [d[k] = v]: overwrite in place when [k] is present, append otherwise. *)
Fixpoint set (k : string) (v : V) (d : list (string * V)) : list (string * V) :=
  match d with
  | [] => [(k, v)]
  | (k', v') :: d' =>
      if decide (k' = k) then (k', v) :: d' else (k', v') :: set k v d'
  end.

(** [del d[k]] *)
Fixpoint del (k : string) (d : list (string * V)) : list (string * V) :=
  match d with
  | [] => []
  | (k', v') :: d' => if decide (k' = k) then del k d' else (k', v') :: del k d'
  end.

Definition keys (d : list (string * V)) : list string := d.*1.

(** [d1.update(d2)], also [{**d1, **d2}] *)
Definition update (d1 d2 : list (string * V)) : list (string * V) :=
  fold_left (fun acc kv => set kv.1 kv.2 acc) d2 d1.
End WithValue.
End PyDict.

(** ** JSON values, as [json.loads] returns them *)

Inductive Scalar :=
| SNull
| SBool (b : bool)
| SInt (n : Z)
| SFloat (literal : string)
| SStr (s : string).

(** [JList] is a Python [list], [JDict] a Python [dict], everything else
    falls in the [else] branches of the [isinstance] tests. *)
Inductive JsonValue :=
| JScalar (s : Scalar)
| JList (items : list JsonValue)
| JDict (items : list (string * JsonValue)).

Definition is_dict (v : JsonValue) : bool :=
  match v with JDict _ => true | _ => false end.

(** ** Strings

    A Python [str] is a sequence of code points and [len] counts them; here
    a string is a sequence of 8-bit characters, which covers payloads and
    names written in that range. *)

Definition slen (s : string) : Z := Z.of_nat (String.length s).

(** [s[:n]] *)
Definition str_take (n : nat) (s : string) : string := String.substring 0 n s.

Fixpoint str_filter (p : ascii -> bool) (s : string) : string :=
  match s with
  | EmptyString => EmptyString
  | String c s' => if p c then String c (str_filter p s') else str_filter p s'
  end.

Fixpoint drop_blanks (l : list ascii) : list ascii :=
  match l with
  | c :: l' => if Ascii.eqb c " " then drop_blanks l' else l
  | [] => []
  end.

(** [s.strip()].  It is only applied to strings that went through the
    filter of [safe_filename], where the blank is the one whitespace
    character that can be left. *)
Definition strip (s : string) : string :=
  string_of_list_ascii
    (reverse (drop_blanks (reverse (drop_blanks (list_ascii_of_string s))))).

Fixpoint str_all (p : ascii -> bool) (s : string) : bool :=
  match s with
  | EmptyString => true
  | String c s' => p c && str_all p s'
  end.

Fixpoint strip_prefix (p s : string) : option string :=
  match p, s with
  | EmptyString, _ => Some s
  | String a p', String b s' => if Ascii.eqb a b then strip_prefix p' s' else None
  | String _ _, EmptyString => None
  end.

Definition ends_with (suffix s : string) : bool :=
  bool_decide (is_Some (strip_prefix (String.rev suffix) (String.rev s))).

(** [os.path.basename]: what follows the last slash. *)
Fixpoint basename_go (cur s : string) : string :=
  match s with
  | EmptyString => String.rev cur
  | String c s' => if Ascii.eqb c "/" then basename_go "" s' else basename_go (String c cur) s'
  end.
Definition basename (p : string) : string := basename_go "" p.

(** ** Exceptions *)

Inductive ExnClass := JSONDecodeError | RecursionError | OtherException.

(** An exception object: its class, as far as an [except] clause of the
    module tells classes apart, and [str(e)]. *)
Record Exn := { exn_class : ExnClass; exn_str : string }.

Inductive Outcome (A : Type) :=
| Returned (a : A)
| Raised (e : Exn).
Arguments Returned {A} a.
Arguments Raised {A} e.

(** [raise Exception(msg)] *)
Definition raise_Exception {A} (msg : string) : Outcome A :=
  Raised {| exn_class := OtherException; exn_str := msg |}.

Definition bind {A B} (m : Outcome A) (k : A -> Outcome B) : Outcome B :=
  match m with
  | Returned a => k a
  | Raised e => Raised e
  end.

Declare Scope outcome_scope.
Delimit Scope outcome_scope with outcome.
Notation "x <- m ;; k" := (bind m (fun x => k))
  (at level 100, m at next level, right associativity) : outcome_scope.

(** ** Data frames and workbooks (pandas with the openpyxl engine)

    A frame built from a list of records has one row per record and the
    union of the records' keys as columns, in order of first appearance; a
    record that lacks a column has a missing value there. *)

Record DataFrame := {
  columns : list string;
  records : list (list (string * JsonValue))
}.

Definition add_column (cols : list string) (k : string) : list string :=
  if decide (k ∈ cols) then cols else cols ++ [k].

Definition union_keys (rs : list (list (string * JsonValue))) : list string :=
  fold_left (fun cols r => fold_left add_column (PyDict.keys r) cols) rs [].

(** [pd.DataFrame(rs)] for a list of dicts *)
Definition DataFrame_of_records (rs : list (list (string * JsonValue))) : DataFrame :=
  {| columns := union_keys rs; records := rs |}.

(** [pd.DataFrame()] *)
Definition empty_frame : DataFrame := {| columns := []; records := [] |}.

(** The name of the key [k] below the path named [key_string]
    ([sep = "."]): the two joined by the separator, which is left out when
    nothing precedes it. *)
Definition join_key (key_string k : string) : string :=
  if decide (key_string = "") then k else key_string +:+ "." +:+ k.

(** Flattening of nested mappings.  A value that is not a mapping ends the
    descent and is stored under the joined path; nested lists are kept as
    they are and only stringified when the cell is written. *)
Fixpoint flatten_into (key_string : string) (v : JsonValue)
    (acc : list (string * JsonValue)) : list (string * JsonValue) :=
  match v with
  | JDict items =>
      (fix go (items : list (string * JsonValue)) (acc : list (string * JsonValue)) :=
         match items with
         | [] => acc
         | (k, v') :: rest => go rest (flatten_into (join_key key_string k) v' acc)
         end) items acc
  | _ => PyDict.set key_string v acc
  end.

(** One top-level record: the entries that are not mappings come first, then
    the flattened mappings, each under its own key; a flattened key that
    repeats an earlier one overwrites it in place. *)
Definition flatten_record (items : list (string * JsonValue)) : list (string * JsonValue) :=
  let top := fold_left (fun acc kv => if is_dict kv.2 then acc else PyDict.set kv.1 kv.2 acc)
                       items [] in
  let nested := fold_left (fun acc kv => if is_dict kv.2 then flatten_into kv.1 kv.2 acc else acc)
                          items [] in
  PyDict.update top nested.

Fixpoint all_dicts (data : list JsonValue) : option (list (list (string * JsonValue))) :=
  match data with
  | [] => Some []
  | JDict items :: rest => cons items <$> all_dicts rest
  | _ :: _ => None
  end.

(** A cell of a written sheet. *)
Inductive Cell :=
| CHeader (name : string)
| CValue (v : JsonValue)
| CBlank.

Definition cell_of (r : list (string * JsonValue)) (c : string) : Cell :=
  match PyDict.get c r with
  | Some v => CValue v
  | None => CBlank
  end.

(** The cells [to_excel(index=False)] writes: the header row, then one row
    per record. *)
Definition frame_cells (df : DataFrame) : list (list Cell) :=
  map CHeader (columns df) :: map (fun r => map (cell_of r) (columns df)) (records df).

Fixpoint overlay_row (new old : list Cell) : list Cell :=
  match new, old with
  | [], _ => old
  | c :: new', [] => c :: new'
  | c :: new', _ :: old' => c :: overlay_row new' old'
  end.

(** Writing cells onto a sheet that already has some: written positions are
    overwritten, the others stay. *)
Fixpoint overlay (new old : list (list Cell)) : list (list Cell) :=
  match new, old with
  | [], _ => old
  | r :: new', [] => r :: new'
  | r :: new', o :: old' => overlay_row r o :: overlay new' old'
  end.

(** A sheet is its title and its cells; a workbook lists its sheets in the
    order they were created, titles being unique. *)
Definition Workbook : Type := list (string * list (list Cell)).

(** ** Files, the registry and the rest of the module state *)

Inductive FileContent :=
| TextFile (text : string)
| XlsxFile (book : Workbook)
| OtherFile.

(** [protected]: [os.remove] on this file raises (a permission error). *)
Record File := { content : FileContent; mtime : Z; protected : bool }.

(** A value of [temp_files]: the dict with the keys ['path'], ['filename'],
    ['created_at'] and ['original_json']. *)
Module FileInfo.
Record t := { path : string; filename : string; created_at : Z; original_json : string }.
End FileInfo.

(** [clock] is what [datetime.now()] reads, in seconds; [uuids_drawn] counts
    the calls of [uuid.uuid4()] so far. *)
Record World := {
  fs : gmap string File;
  temp_files : list (string * FileInfo.t);
  clock : Z;
  uuids_drawn : nat
}.

Definition set_fs (f : gmap string File) (w : World) : World :=
  {| fs := f; temp_files := temp_files w; clock := clock w; uuids_drawn := uuids_drawn w |}.

Definition set_temp_files (t : list (string * FileInfo.t)) (w : World) : World :=
  {| fs := fs w; temp_files := t; clock := clock w; uuids_drawn := uuids_drawn w |}.

Definition set_uuids_drawn (n : nat) (w : World) : World :=
  {| fs := fs w; temp_files := temp_files w; clock := clock w; uuids_drawn := n |}.

(** The instruction handed to the producer: the two templates of
    [convert_json_with_agno], with the values they interpolate. *)
Inductive Prompt :=
| PromptFromFile (file_name description : option string) (json_file_path : string)
| PromptInline (json_data : string) (file_name description : option string).

(** [agent.run(prompt)]: the producer may write files and returns
    [response.content], or raises. *)
Definition Agent : Type :=
  Prompt -> gmap string File -> Outcome (option string) * gmap string File.

(** ** What the module takes from its libraries and its environment *)
Record Env := {
  (** the directory made by [tempfile.mkdtemp] at import time *)
  TEMP_DIR : string;
  (** [json.loads] *)
  json_loads : string -> Outcome JsonValue;
  (** [c.isalnum()] on one character *)
  isalnum : ascii -> bool;
  (** [str(uuid.uuid4())], by the number of tokens drawn before *)
  uuid4 : nat -> string;
  (** the workbook library refusing a sheet title: [Some msg] is the error *)
  sheet_title_error : string -> option string;
  (** the workbook library's [avoid_duplicate_name(names, value)]: [value]
      itself, unless one of [names] equals it up to case, and then [value]
      with a number appended *)
  avoid_duplicate_name : list string -> string -> string;
  (** [to_excel] refusing a frame that has more rows or columns than a
      sheet can hold *)
  frame_size_error : DataFrame -> option string;
  (** the workbook library refusing the value of a cell (a control
      character in a text or in a column name): the error, and the cells
      written before the refused one *)
  cell_error : DataFrame -> option (string * list (list Cell));
  (** the file system refusing to create the workbook file at a path,
      whose name carries the file name of the caller (a name that is too
      long, for one) *)
  open_error : string -> option string;
  (** [pd.json_normalize] on a non-empty list whose elements are not all
      mappings; what it does there differs between pandas releases *)
  normalize_irregular : list JsonValue -> Outcome DataFrame;
  (** [create_agno_agent(api_key, model)] *)
  create_agno_agent : string -> option string -> Outcome Agent
}.

(** [os.path.join(TEMP_DIR, name)] *)
Definition temp_path (env : Env) (name : string) : string :=
  TEMP_DIR env +:+ "/" +:+ name.

(** [pd.json_normalize(data)] for a list [data] *)
Definition json_normalize (env : Env) (data : list JsonValue) : Outcome DataFrame :=
  match data with
  | [] => Returned empty_frame
  | _ :: _ =>
      match all_dicts data with
      | Some rs => Returned (DataFrame_of_records (map flatten_record rs))
      | None => normalize_irregular env data
      end
  end.

(** The title of a sheet that is created in a book with the sheets
    [names] and then named [value]: [book.create_sheet()] gives it the
    default title, made distinct from [names], and the assignment
    [wks.title = value] makes [value] distinct from all titles of the
    book, unless it is the title the sheet already has. *)
Definition new_sheet_title (env : Env) (names : list string) (value : string) : string :=
  let default_title := avoid_duplicate_name env names "Sheet" in
  if decide (default_title = value) then value
  else avoid_duplicate_name env (names ++ [default_title]) value.

(** The cells of a frame as far as they get written: all of
    [frame_cells], or the cells before the one that is refused. *)
Definition cells_written (env : Env) (df : DataFrame) : Outcome unit * list (list Cell) :=
  match cell_error env df with
  | Some (msg, written) => (raise_Exception msg, written)
  | None => (Returned tt, frame_cells df)
  end.

(** [df.to_excel(writer, sheet_name=..., index=False)].  The writer's book
    is changed in place, so it is returned also when the call raises.  A
    frame that is too large is refused before anything is written.  A sheet
    of the book with exactly this name is reused and its cells are
    overwritten; otherwise a sheet is created, with the default title
    until it is given its own, which the workbook library may refuse.  The
    cells are written one by one. *)
Definition to_excel (env : Env) (df : DataFrame) (sheet_name : string)
    (writer : Workbook) : Outcome unit * Workbook :=
  match frame_size_error env df with
  | Some msg => (raise_Exception msg, writer)
  | None =>
      match PyDict.get sheet_name writer with
      | Some old =>
          let '(r, cells) := cells_written env df in
          (r, PyDict.set sheet_name (overlay cells old) writer)
      | None =>
          match sheet_title_error env sheet_name with
          | Some msg =>
              (raise_Exception msg,
               writer ++ [(avoid_duplicate_name env (PyDict.keys writer) "Sheet", [])])
          | None =>
              let '(r, cells) := cells_written env df in
              (r, writer ++ [(new_sheet_title env (PyDict.keys writer) sheet_name, cells)])
          end
      end
  end.

(** [book.save(...)], which the workbook library (openpyxl) refuses with an
    [IndexError] when the book has no sheet. *)
Definition save (writer : Workbook) : Outcome Workbook :=
  match writer with
  | [] => Raised {| exn_class := OtherException;
                    exn_str := "At least one sheet must be visible" |}
  | _ :: _ => Returned writer
  end.

(** How a [with pd.ExcelWriter(file_path, engine='openpyxl') as writer]
    block ends: with the book saved at [file_path], or with an exception;
    [remains] is then what the block leaves at [file_path], if anything. *)
Inductive Conversion :=
| Saved (book : Workbook)
| Failed (e : Exn) (remains : option FileContent).

(** The file is created when the writer is made, before the body runs.
    Leaving the block saves the book and closes the file, also when the
    body has raised: the file then holds the sheets written so far.  When
    the save itself raises, its exception is the one that leaves the block,
    and the file stays behind unfinished. *)
Definition with_writer (env : Env) (file_path : string)
    (body : Workbook -> Outcome unit * Workbook) : Conversion :=
  match open_error env file_path with
  | Some msg => Failed {| exn_class := OtherException; exn_str := msg |} None
  | None =>
      let '(r, book) := body [] in
      match save book with
      | Raised e => Failed e (Some OtherFile)
      | Returned saved =>
          match r with
          | Returned _ => Saved saved
          | Raised e => Failed e (Some (XlsxFile saved))
          end
      end
  end.

(** ** [direct_json_to_excel] *)

(** The loop over [data.items()] of the [dict] branch. *)
Fixpoint write_items (env : Env) (items : list (string * JsonValue))
    (writer : Workbook) : Outcome unit * Workbook :=
  match items with
  | [] => (Returned tt, writer)
  | (key, value) :: rest =>
      let '(r, writer') :=
        match value with
        | JList l =>
            match json_normalize env l with
            | Returned df => to_excel env df (str_take 31 key) writer
            | Raised e => (Raised e, writer)
            end
        | JDict _ =>
            match json_normalize env [value] with
            | Returned df => to_excel env df (str_take 31 key) writer
            | Raised e => (Raised e, writer)
            end
        | JScalar _ =>
            to_excel env (DataFrame_of_records [[(key, value)]]) "Summary" writer
        end in
      match r with
      | Returned _ => write_items env rest writer'
      | Raised e => (Raised e, writer')
      end
  end.

(** The three branches on the shape of [data], each with its writer; in
    the [list] branch the frame is made before the file is opened. *)
Definition write_workbook (env : Env) (data : JsonValue) (file_path : string)
    : Conversion :=
  match data with
  | JList l =>
      match json_normalize env l with
      | Returned df => with_writer env file_path (to_excel env df "Data")
      | Raised e => Failed e None
      end
  | JDict items => with_writer env file_path (write_items env items)
  | JScalar _ =>
      with_writer env file_path
        (to_excel env (DataFrame_of_records [[("value", data)]]) "Data")
  end.

Definition keeps (env : Env) (c : ascii) : bool :=
  isalnum env c || bool_decide (c ∈ [" "; "-"; "_"]%char).

(** ["".join(c for c in file_name if c.isalnum() or c in (' ', '-', '_')).strip()] *)
Definition safe_filename (env : Env) (file_name : string) : string :=
  strip (str_filter (keeps env) file_name).

Definition xlsx_filename (env : Env) (file_name : string) : string :=
  safe_filename env file_name +:+ "_processed.xlsx".

(** A file with the given content appears at [file_path], or replaces the
    one that was there. *)
Definition write_file (file_path : string) (c : FileContent) (w : World) : World :=
  set_fs (<[file_path := {| content := c; mtime := clock w; protected := false |}]> (fs w)) w.

(** Every exception inside the function is re-raised as
    ["Direct conversion failed: ..."].  What a failed [with] block has left
    at [file_path] stays on disk: nothing removes it, and it is never
    registered. *)
Definition direct_json_to_excel (env : Env) (json_data : string)
    (file_name : option string) (w : World) : Outcome (string * string * string) * World :=
  match json_loads env json_data with
  | Raised e => (raise_Exception ("Direct conversion failed: " +:+ exn_str e), w)
  | Returned data =>
      let file_id := uuid4 env (uuids_drawn w) in
      let w1 := set_uuids_drawn (S (uuids_drawn w)) w in
      match file_name with
      | None =>
          (raise_Exception "Direct conversion failed: 'NoneType' object is not iterable", w1)
      | Some name =>
          let file_path := temp_path env (file_id +:+ "_" +:+ xlsx_filename env name) in
          match write_workbook env data file_path with
          | Saved book =>
              (Returned (file_id, xlsx_filename env name, file_path),
               write_file file_path (XlsxFile book) w1)
          | Failed e remains =>
              (raise_Exception ("Direct conversion failed: " +:+ exn_str e),
               match remains with
               | Some c => write_file file_path c w1
               | None => w1
               end)
          end
      end
  end.

(** ** [convert_json_with_agno] *)

(** The two [except] clauses of [convert_json_with_agno]. *)
Definition agno_except {A} (e : Exn) : Outcome (option A) :=
  match exn_class e with
  | RecursionError => Returned None
  | _ => raise_Exception ("Agno AI processing failed: " +:+ exn_str e)
  end.

(** [None] is the signal to use the direct conversion. *)
Definition convert_json_with_agno (env : Env) (json_data : string)
    (file_name description : option string) (api_key : string) (model : option string)
    (w : World) : Outcome (option string) * World :=
  let json_size := slen json_data in
  if json_size >? 100000 then (Returned None, w)
  else
    match create_agno_agent env api_key model with
    | Raised e => (agno_except e, w)
    | Returned agent =>
        let '(prompt, w1) :=
          if json_size >? 50000 then
            let json_file_path :=
              temp_path env ("temp_" +:+ uuid4 env (uuids_drawn w) +:+ ".json") in
            (PromptFromFile file_name description json_file_path,
             set_fs (<[json_file_path := {| content := TextFile json_data; mtime := clock w;
                                           protected := false |}]> (fs w))
                    (set_uuids_drawn (S (uuids_drawn w)) w))
          else (PromptInline json_data file_name description, w) in
        match agent prompt (fs w1) with
        | (Returned content, fs') => (Returned content, set_fs fs' w1)
        | (Raised e, fs') => (agno_except e, set_fs fs' w1)
        end
    end.

(** ** [process_json_data] *)

Module ProcessRequest.
Record t := {
  json_data : string;
  file_name : option string;
  description : option string;
  api_key : string;
  model : option string
}.
End ProcessRequest.

Module ProcessResponse.
Record t := {
  success : bool;
  file_id : option string;
  file_name : option string;
  download_url : option string;
  ai_analysis : option string;
  error : option string
}.
End ProcessResponse.

(** What a route handler ends with: a response body, or an [HTTPException]. *)
Inductive HandlerResult (A : Type) :=
| Respond (body : A)
| HTTPException (status_code : Z) (detail : string).
Arguments Respond {A} body.
Arguments HTTPException {A} status_code detail.

(** [json_data[:500] + "..." if len(json_data) > 500 else json_data] *)
Definition preview (json_data : string) : string :=
  if slen json_data >? 500 then str_take 500 json_data +:+ "..." else json_data.

(** [temp_files[file_id] = {...}] *)
Definition store_file_info (file_id path filename json_data : string) (w : World) : World :=
  set_temp_files
    (PyDict.set file_id
       {| FileInfo.path := path; FileInfo.filename := filename;
          FileInfo.created_at := clock w; FileInfo.original_json := preview json_data |}
       (temp_files w)) w.

Definition success_response (file_id file_name : string) (ai_analysis : option string)
    : ProcessResponse.t :=
  {| ProcessResponse.success := true;
     ProcessResponse.file_id := Some file_id;
     ProcessResponse.file_name := Some file_name;
     ProcessResponse.download_url := Some ("/download/" +:+ file_id);
     ProcessResponse.ai_analysis := ai_analysis;
     ProcessResponse.error := None |}.

Definition failure_response (e : Exn) : ProcessResponse.t :=
  {| ProcessResponse.success := false;
     ProcessResponse.file_id := None;
     ProcessResponse.file_name := None;
     ProcessResponse.download_url := None;
     ProcessResponse.ai_analysis := None;
     ProcessResponse.error := Some ("Processing failed: " +:+ exn_str e) |}.

(** The block that occurs three times in the handler: convert directly,
    store the file info, answer with the given note. *)
Definition direct_conversion (env : Env) (request : ProcessRequest.t) (note : string)
    (w : World) : Outcome ProcessResponse.t * World :=
  match direct_json_to_excel env (ProcessRequest.json_data request)
          (ProcessRequest.file_name request) w with
  | (Raised e, w1) => (Raised e, w1)
  | (Returned (file_id, xlsx_filename, file_path), w1) =>
      (Returned (success_response file_id xlsx_filename (Some note)),
       store_file_info file_id file_path xlsx_filename (ProcessRequest.json_data request) w1)
  end.

(** [glob.glob(os.path.join(TEMP_DIR, "*.xlsx"))] *)
Definition is_temp_xlsx (env : Env) (p : string) : bool :=
  match strip_prefix (TEMP_DIR env +:+ "/") p with
  | Some name =>
      ends_with ".xlsx" name
      && bool_decide (basename name = name)
      && negb (bool_decide (is_Some (strip_prefix "." name)))
  | None => false
  end.

Definition xlsx_files (env : Env) (files : gmap string File) : gset string :=
  filter (fun p => is_temp_xlsx env p = true) (dom files).

Definition getmtime (files : gmap string File) (p : string) : Z :=
  default 0 (mtime <$> files !! p).

(** [max(paths, key=os.path.getmtime)]; the order in which a set is walked,
    and with it the choice among equal times, is not fixed by Python. *)
Definition newest (files : gmap string File) (paths : list string) : option string :=
  fold_left (fun best p =>
               match best with
               | None => Some p
               | Some b => if getmtime files b <? getmtime files p then Some p else Some b
               end) paths None.

(** [os.rename(src, dst)] *)
Definition os_rename (src dst : string) (files : gmap string File) : gmap string File :=
  match files !! src with
  | Some f => <[dst := f]> (delete src files)
  | None => files
  end.

(** The handler after the producer returned a response: lines 317-375. *)
Definition collect_new_file (env : Env) (request : ProcessRequest.t)
    (files_before : gset string) (ai_response : string) (w : World)
    : Outcome ProcessResponse.t * World :=
  let files_after := xlsx_files env (fs w) in
  let new_files := files_after ∖ files_before in
  match newest (fs w) (elements new_files) with
  | Some newest_file =>
      let file_id := uuid4 env (uuids_drawn w) in
      let original_filename := basename newest_file in
      let managed_path := temp_path env (file_id +:+ "_" +:+ original_filename) in
      let w1 := set_fs (os_rename newest_file managed_path (fs w))
                       (set_uuids_drawn (S (uuids_drawn w)) w) in
      (Returned (success_response file_id original_filename (Some ai_response)),
       store_file_info file_id managed_path original_filename
         (ProcessRequest.json_data request) w1)
  | None =>
      direct_conversion env request "Direct conversion used - AI did not create output file" w
  end.

Definition process_json_data (env : Env) (request : ProcessRequest.t) (w : World)
    : HandlerResult ProcessResponse.t * World :=
  match json_loads env (ProcessRequest.json_data request) with
  | Raised e =>
      match exn_class e with
      | JSONDecodeError => (HTTPException 400 ("Invalid JSON: " +:+ exn_str e), w)
      | _ => (Respond (failure_response e), w)
      end
  | Returned _ =>
      let files_before := xlsx_files env (fs w) in
      let fallback (agno_error : Exn) (w' : World) :=
        direct_conversion env request
          ("Fallback conversion used due to: " +:+ exn_str agno_error) w' in
      let '(result, w') :=
        match convert_json_with_agno env (ProcessRequest.json_data request)
                (ProcessRequest.file_name request) (ProcessRequest.description request)
                (ProcessRequest.api_key request) (ProcessRequest.model request) w with
        | (Returned None, w1) =>
            match direct_conversion env request
                    "Direct conversion used for large JSON data" w1 with
            | (Returned response, w2) => (Returned response, w2)
            | (Raised agno_error, w2) => fallback agno_error w2
            end
        | (Returned (Some ai_response), w1) =>
            collect_new_file env request files_before ai_response w1
        | (Raised agno_error, w1) => fallback agno_error w1
        end in
      match result with
      | Returned response => (Respond response, w')
      | Raised e => (Respond (failure_response e), w')
      end
  end.

(** ** The registry routes *)

Module FileResponse.
Record t := { path : string; filename : string; media_type : string }.
End FileResponse.

(** [os.path.exists] *)
Definition os_path_exists (files : gmap string File) (p : string) : bool :=
  bool_decide (is_Some (files !! p)).

(** [os.remove]: raises on a file that is missing or protected. *)
Definition os_remove (p : string) (files : gmap string File) : Outcome (gmap string File) :=
  match files !! p with
  | None => raise_Exception ("[Errno 2] No such file or directory: " +:+ p)
  | Some f =>
      if protected f then raise_Exception ("[Errno 13] Permission denied: " +:+ p)
      else Returned (delete p files)
  end.

Definition download_file (file_id : string) (w : World)
    : HandlerResult FileResponse.t * World :=
  match PyDict.get file_id (temp_files w) with
  | None => (HTTPException 404 "File not found or expired", w)
  | Some file_info =>
      let file_path := FileInfo.path file_info in
      if negb (os_path_exists (fs w) file_path) then
        (HTTPException 404 "File not found on disk",
         set_temp_files (PyDict.del file_id (temp_files w)) w)
      else
        (Respond {| FileResponse.path := file_path;
                    FileResponse.filename := FileInfo.filename file_info;
                    FileResponse.media_type :=
                      "application/vnd.openxmlformats-officedocument.spreadsheetml.sheet" |},
         w)
  end.

Module FileEntry.
Record t := {
  file_id : string;
  filename : string;
  created_at : Z;
  download_url : string;
  preview : string
}.
End FileEntry.

(** The ['files'] list of the answer of [list_files]; its ['count'] is the
    length of that list. *)
Definition list_files (w : World) : list FileEntry.t :=
  map (fun '(file_id, file_info) =>
         {| FileEntry.file_id := file_id;
            FileEntry.filename := FileInfo.filename file_info;
            FileEntry.created_at := FileInfo.created_at file_info;
            FileEntry.download_url := "/download/" +:+ file_id;
            FileEntry.preview := str_take 100 (FileInfo.original_json file_info) +:+ "..." |})
      (temp_files w).

(** The loop of [cleanup_all_files] over the snapshot
    [list(temp_files.items())]; an exception of [os.remove] leaves it. *)
Fixpoint cleanup_loop (items : list (string * FileInfo.t)) (files_deleted : Z) (w : World)
    : Outcome Z * World :=
  match items with
  | [] => (Returned files_deleted, w)
  | (file_id, file_info) :: rest =>
      let file_path := FileInfo.path file_info in
      if os_path_exists (fs w) file_path then
        match os_remove file_path (fs w) with
        | Raised e => (Raised e, w)
        | Returned files' =>
            cleanup_loop rest (files_deleted + 1)
              (set_temp_files (PyDict.del file_id (temp_files w)) (set_fs files' w))
        end
      else
        cleanup_loop rest files_deleted
          (set_temp_files (PyDict.del file_id (temp_files w)) w)
  end.

(** [{'success': True, 'message': f'Cleaned up {files_deleted} files'}] or
    [{'success': False, 'error': str(e)}] *)
Inductive CleanupResponse :=
| CleanedUp (files_deleted : Z)
| CleanupError (error : string).

Definition cleanup_all_files (w : World) : CleanupResponse * World :=
  match cleanup_loop (temp_files w) 0 w with
  | (Returned files_deleted, w') => (CleanedUp files_deleted, w')
  | (Raised e, w') => (CleanupError (exn_str e), w')
  end.

(** [timedelta(hours=1)], in seconds *)
Definition one_hour : Z := 3600.

(** The second loop of [cleanup_expired_files]; here a failing [os.remove]
    is passed over.  The ids come from the keys of [temp_files], so the
    lookup [temp_files[file_id]] finds them; were one missing, the
    [KeyError] would end the loop. *)
Fixpoint remove_expired (expired_files : list string) (w : World) : World :=
  match expired_files with
  | [] => w
  | file_id :: rest =>
      match PyDict.get file_id (temp_files w) with
      | None => w
      | Some file_info =>
          let file_path := FileInfo.path file_info in
          let w1 :=
            if os_path_exists (fs w) file_path then
              match os_remove file_path (fs w) with
              | Returned files' => set_fs files' w
              | Raised _ => w
              end
            else w in
          remove_expired rest (set_temp_files (PyDict.del file_id (temp_files w1)) w1)
      end
  end.

Definition cleanup_expired_files (w : World) : World :=
  let current_time := clock w in
  let expired_files :=
    PyDict.keys
      (filter (fun kv => (current_time - FileInfo.created_at kv.2 >? one_hour) = true)
              (temp_files w)) in
  remove_expired expired_files w.

(** ** The earlier version of the service, [main_backup.py]

    It shares the registry routes with [main.py]; its producer call has no
    size tiers, its handler has no fallback for a failing producer, and its
    fallback for a producer that wrote no file writes a single sheet.  It
    adds the batch route. *)
Module Backup.

(** [convert_json_with_agno]: every exception is wrapped and re-raised. *)
Definition convert_json_with_agno (env : Env) (json_data : string)
    (file_name description : option string) (api_key : string) (model : option string)
    (w : World) : Outcome (option string) * World :=
  match create_agno_agent env api_key model with
  | Raised e => (raise_Exception ("Agno AI processing failed: " +:+ exn_str e), w)
  | Returned agent =>
      match agent (PromptInline json_data file_name description) (fs w) with
      | (Returned content, files) => (Returned content, set_fs files w)
      | (Raised e, files) =>
          (raise_Exception ("Agno AI processing failed: " +:+ exn_str e), set_fs files w)
      end
  end.

(** The frame of the fallback: a list is normalized, a mapping is
    normalized as a one-element list, anything else is wrapped. *)
Definition fallback_frame (env : Env) (data : JsonValue) : Outcome DataFrame :=
  match data with
  | JList l => json_normalize env l
  | JDict _ => json_normalize env [data]
  | JScalar _ => Returned (DataFrame_of_records [[("value", data)]])
  end.

(** The body of the inner [try] of the handler's fallback (lines 235-270). *)
Definition fallback (env : Env) (request : ProcessRequest.t) (w : World)
    : Outcome ProcessResponse.t * World :=
  match json_loads env (ProcessRequest.json_data request) with
  | Raised e => (Raised e, w)
  | Returned data =>
      match fallback_frame env data with
      | Raised e => (Raised e, w)
      | Returned df =>
          let file_id := uuid4 env (uuids_drawn w) in
          let w1 := set_uuids_drawn (S (uuids_drawn w)) w in
          match ProcessRequest.file_name request with
          | None => (raise_Exception "'NoneType' object is not iterable", w1)
          | Some name =>
              let file_path := temp_path env (file_id +:+ "_" +:+ xlsx_filename env name) in
              match with_writer env file_path (to_excel env df "Data") with
              | Failed e remains =>
                  (Raised e,
                   match remains with
                   | Some c => write_file file_path c w1
                   | None => w1
                   end)
              | Saved book =>
                  (Returned (success_response file_id (xlsx_filename env name)
                               (Some "Fallback processing used - basic Excel structure created")),
                   store_file_info file_id file_path (xlsx_filename env name)
                     (ProcessRequest.json_data request)
                     (write_file file_path (XlsxFile book) w1))
              end
          end
      end
  end.

(** [process_json_data].  A response of the producer that is [None] fails
    at the slice [ai_response[:200]] of the log line. *)
Definition process_json_data (env : Env) (request : ProcessRequest.t) (w : World)
    : HandlerResult ProcessResponse.t * World :=
  match json_loads env (ProcessRequest.json_data request) with
  | Raised e =>
      match exn_class e with
      | JSONDecodeError => (HTTPException 400 ("Invalid JSON: " +:+ exn_str e), w)
      | _ => (Respond (failure_response e), w)
      end
  | Returned _ =>
      let files_before := xlsx_files env (fs w) in
      match convert_json_with_agno env (ProcessRequest.json_data request)
              (ProcessRequest.file_name request) (ProcessRequest.description request)
              (ProcessRequest.api_key request) (ProcessRequest.model request) w with
      | (Raised e, w1) => (Respond (failure_response e), w1)
      | (Returned None, w1) =>
          (Respond (failure_response
                      {| exn_class := OtherException;
                         exn_str := "'NoneType' object is not subscriptable" |}), w1)
      | (Returned (Some ai_response), w1) =>
          let files_after := xlsx_files env (fs w1) in
          let new_files := files_after ∖ files_before in
          match newest (fs w1) (elements new_files) with
          | Some newest_file =>
              let file_id := uuid4 env (uuids_drawn w1) in
              let original_filename := basename newest_file in
              let managed_path := temp_path env (file_id +:+ "_" +:+ original_filename) in
              let w2 := set_fs (os_rename newest_file managed_path (fs w1))
                               (set_uuids_drawn (S (uuids_drawn w1)) w1) in
              (Respond (success_response file_id original_filename (Some ai_response)),
               store_file_info file_id managed_path original_filename
                 (ProcessRequest.json_data request) w2)
          | None =>
              match fallback env request w1 with
              | (Returned response, w2) => (Respond response, w2)
              | (Raised fallback_error, w2) =>
                  (HTTPException 500
                     ("Both AI and fallback processing failed: " +:+ exn_str fallback_error),
                   w2)
              end
          end
      end
  end.

Record BatchProcessRequest := {
  json_files : list (list (string * string));
  api_key : string;
  model : option string
}.

(** One element of ['processed_files']. *)
Record ProcessedFile := {
  file_id : option string;
  file_name : option string;
  download_url : option string
}.

Record BatchProcessResponse := {
  success : bool;
  processed_files : option (list ProcessedFile);
  processed_count : option Z;
  error : option string
}.

(** [f"{x}"] for an optional string *)
Definition format_option (x : option string) : string := default "None" x.

(** ["; ".join(errors)] *)
Fixpoint join (errors : list string) : string :=
  match errors with
  | [] => ""
  | [e] => e
  | e :: rest => e +:+ "; " +:+ join rest
  end.

(** The loop of [batch_process_json] from index [i] on.  [str_http] is
    [str(e)] for an [HTTPException], which the web framework defines. *)
Fixpoint batch_loop (env : Env) (str_http : Z -> string -> string)
    (request : BatchProcessRequest) (i : nat) (files : list (list (string * string)))
    (processed : list ProcessedFile) (errors : list string) (w : World)
    : list ProcessedFile * list string * World :=
  match files with
  | [] => (processed, errors, w)
  | file_data :: rest =>
      let process_request :=
        {| ProcessRequest.json_data := default "{}" (PyDict.get "json_data" file_data);
           ProcessRequest.file_name :=
             Some (default ("batch_file_" +:+ pretty (S i)) (PyDict.get "file_name" file_data));
           ProcessRequest.description := Some (default "" (PyDict.get "description" file_data));
           ProcessRequest.api_key := api_key request;
           ProcessRequest.model := model request |} in
      match process_json_data env process_request w with
      | (Respond result, w') =>
          if ProcessResponse.success result then
            batch_loop env str_http request (S i) rest
              (processed ++ [{| file_id := ProcessResponse.file_id result;
                                file_name := ProcessResponse.file_name result;
                                download_url := ProcessResponse.download_url result |}])
              errors w'
          else
            batch_loop env str_http request (S i) rest processed
              (errors ++ ["File " +:+ pretty (S i) +:+ ": "
                          +:+ format_option (ProcessResponse.error result)])
              w'
      | (HTTPException status_code detail, w') =>
          batch_loop env str_http request (S i) rest processed
            (errors ++ ["File " +:+ pretty (S i) +:+ ": " +:+ str_http status_code detail])
            w'
      end
  end.

Definition batch_process_json (env : Env) (str_http : Z -> string -> string)
    (request : BatchProcessRequest) (w : World) : BatchProcessResponse * World :=
  let '(processed_files, errors, w') :=
    batch_loop env str_http request 0 (json_files request) [] [] w in
  ({| success := bool_decide (0 < Z.of_nat (length processed_files));
      processed_files := Some processed_files;
      processed_count := Some (Z.of_nat (length processed_files));
      error := match errors with [] => None | _ :: _ => Some (join errors) end |},
   w').
End Backup.

(** ** Readings of the code used in the statements *)

(** The three ways [convert_json_with_agno] can go, and its two size tests
    (lines 166 and 174) read as a selector. *)
Inductive Strategy := DIRECT | DELEGATED_INLINE | DELEGATED_BY_REFERENCE.

Definition select_strategy (json_data : string) : Strategy :=
  let json_size := slen json_data in
  if json_size >? 100000 then DIRECT
  else if json_size >? 50000 then DELEGATED_BY_REFERENCE
  else DELEGATED_INLINE.

(** The sheet a top-level key of the [dict] branch is written to. *)
Definition sheet_title (kv : string * JsonValue) : string :=
  match kv.2 with
  | JScalar _ => "Summary"
  | _ => str_take 31 kv.1
  end.

Definition is_scalar (v : JsonValue) : bool :=
  match v with JScalar _ => true | _ => false end.

(** The frame a top-level key of the [dict] branch is written as. *)
Definition frame_of (env : Env) (kv : string * JsonValue) : Outcome DataFrame :=
  match kv.2 with
  | JList l => json_normalize env l
  | JDict _ => json_normalize env [kv.2]
  | JScalar _ => Returned (DataFrame_of_records [[kv]])
  end.

(** The libraries take the frame: it fits a sheet and every cell of it
    can be written. *)
Definition accepted (env : Env) (df : DataFrame) : Prop :=
  frame_size_error env df = None /\ cell_error env df = None.

(** A top-level key that can be written: its value gives a frame, the
    libraries take the frame, and the title is not refused. *)
Definition writable (env : Env) (kv : string * JsonValue) : Prop :=
  exists df,
    frame_of env kv = Returned df
    /\ accepted env df
    /\ sheet_title_error env (sheet_title kv) = None.

(** The workbook library keeps the titles as they are asked for: along
    the run [titles], in a book that has the sheets [names], every title
    that opens a new sheet is given to that sheet unchanged.  It fails
    when a title equals an earlier one, or the default title, up to case
    only. *)
Fixpoint keeps_titles (env : Env) (names titles : list string) : bool :=
  match titles with
  | [] => true
  | title :: rest =>
      if decide (title ∈ names) then keeps_titles env names rest
      else bool_decide (new_sheet_title env names title = title)
           && keeps_titles env (names ++ [title]) rest
  end.




(** The exception [convert_json_with_agno] raises for an error of the
    producer. *)
Definition wrapped (cause : Exn) : Exn :=
  {| exn_class := OtherException;
     exn_str := "Agno AI processing failed: " +:+ exn_str cause |}.

(** How an outcome [o] of the producer leaves [convert_json_with_agno] as
    [r]: an answer as it is, a recursion error as the direct-conversion
    signal, any other error wrapped. *)
Definition relayed (o r : Outcome (option string)) : Prop :=
  match o with
  | Returned content => r = Returned content
  | Raised cause =>
      (exn_class cause = RecursionError -> r = Returned None)
      /\ (exn_class cause ≠ RecursionError -> r = Raised (wrapped cause))
  end.

(** How the handler turns the outcome of its body into its answer: the
    [return] of a response, or the outer [except Exception]. *)
Definition respond (r : Outcome ProcessResponse.t * World)
    : HandlerResult ProcessResponse.t * World :=
  match r with
  | (Returned response, w) => (Respond response, w)
  | (Raised e, w) => (Respond (failure_response e), w)
  end.

(** An entry is evicted when it is older than one hour. *)
Definition expired (now : Z) (kv : string * FileInfo.t) : Prop :=
  now - FileInfo.created_at kv.2 > one_hour.

Local Instance expired_dec now kv : Decision (expired now kv).
Proof. unfold expired. apply _. Defined.

(** The disk after the sweep tried to delete the files at [paths]: a file
    is gone unless its deletion fails. *)
Definition swept (files : gmap string File) (paths : list string) (p : string)
    : option File :=
  if decide (p ∈ paths)
  then match files !! p with
       | Some f => if protected f then Some f else None
       | None => None
       end
  else files !! p.

(** The registry entry the handler stores for a converted payload. *)
Definition file_info_for (path filename json_data : string) (w : World) : FileInfo.t :=
  {| FileInfo.path := path; FileInfo.filename := filename;
     FileInfo.created_at := clock w; FileInfo.original_json := preview json_data |}.

Definition xlsx_media_type : string :=
  "application/vnd.openxmlformats-officedocument.spreadsheetml.sheet".

(** What the body of the handler leaves behind, whichever way it went: a
    response it returns is a success response for a file that is on disk and
    that it has registered under the response's id; when it raises, the
    registry is as before. *)
Definition settled (json_data : string) (w : World)
    (r : Outcome ProcessResponse.t) (w' : World) : Prop :=
  match r with
  | Returned response =>
      exists file_id name path note w1,
        response = success_response file_id name (Some note)
        /\ w' = store_file_info file_id path name json_data w1
        /\ is_Some (fs w1 !! path)
        /\ temp_files w1 = temp_files w
        /\ clock w1 = clock w
  | Raised e => temp_files w' = temp_files w /\ clock w' = clock w
  end.

(** An entry of a record whose value is not a mapping. *)
Definition no_mapping (kv : string * JsonValue) : Prop := is_dict kv.2 = false.

(** An element of ['processed_files'] that can be redeemed in the world
    [w]: it has an id, registered in [w], and the download reference of
    that id. *)
Definition redeemable (w : World) (entry : Backup.ProcessedFile) : Prop :=
  exists file_id,
    Backup.file_id entry = Some file_id
    /\ Backup.download_url entry = Some ("/download/" +:+ file_id)
    /\ file_id ∈ PyDict.keys (temp_files w).

(** The environment with another producer. *)
Definition with_producer (env : Env)
    (make : string -> option string -> Outcome Agent) : Env :=
  {| TEMP_DIR := TEMP_DIR env;
     json_loads := json_loads env;
     isalnum := isalnum env;
     uuid4 := uuid4 env;
     sheet_title_error := sheet_title_error env;
     avoid_duplicate_name := avoid_duplicate_name env;
     frame_size_error := frame_size_error env;
     cell_error := cell_error env;
     open_error := open_error env;
     normalize_irregular := normalize_irregular env;
     create_agno_agent := make |}.

(** ** A concrete environment for the examples *)

Definition dq : string := String "034"%char "".

Definition is_blank (c : ascii) : bool := Ascii.eqb c " ".

Definition decode_error {A} : Outcome A :=
  Raised {| exn_class := JSONDecodeError;
            exn_str := "Expecting value: line 1 column 1 (char 0)" |}.

(** [json.loads] on the payloads of the examples (blanks between tokens
    ignored); the examples use no other text. *)
Definition loads_demo (json_data : string) : Outcome JsonValue :=
  let text := str_filter (fun c => negb (is_blank c)) json_data in
  if decide (text = "{}") then Returned (JDict [])
  else if decide (text = "[]") then Returned (JList [])
  else if decide (text = "7") then Returned (JScalar (SInt 7))
  else if decide (text = "{" +:+ dq +:+ "a" +:+ dq +:+ ":1," +:+ dq +:+ "b" +:+ dq +:+ ":[]}")
    then Returned (JDict [("a", JScalar (SInt 1)); ("b", JList [])])
  else if decide (text = "{" +:+ dq +:+ "a" +:+ dq +:+ ":1," +:+ dq +:+ "b" +:+ dq +:+ ":2}")
    then Returned (JDict [("a", JScalar (SInt 1)); ("b", JScalar (SInt 2))])
  else if decide (text = "{" +:+ dq +:+ "a/b" +:+ dq +:+ ":[]}")
    then Returned (JDict [("a/b", JList [])])
  else if decide (text = "[{" +:+ dq +:+ "a" +:+ dq +:+ ":" +:+ dq +:+ "\u0001" +:+ dq +:+ "}]")
    then Returned (JList [JDict [("a", JScalar (SStr (String "001" "")))]])
  else decode_error.

Definition ascii_alnum (c : ascii) : bool :=
  let n := N_of_ascii c in
  ((48 <=? n) && (n <=? 57) || (65 <=? n) && (n <=? 90) || (97 <=? n) && (n <=? 122))%N.

(** The characters the workbook library refuses in a title; the examples
    use no empty title. *)
Definition title_error_demo (title : string) : option string :=
  match str_filter (fun c => bool_decide (c ∈ ["\"; "/"; "?"; "*"; "["; "]"; ":"]%char)) title with
  | String c _ => Some ("Invalid character " +:+ String c "" +:+ " found in sheet title")
  | EmptyString => None
  end.

Definition lower (c : ascii) : ascii :=
  let n := N_of_ascii c in
  if ((65 <=? n) && (n <=? 90))%N then ascii_of_N (n + 32) else c.

Fixpoint str_lower (s : string) : string :=
  match s with
  | EmptyString => EmptyString
  | String c s' => String (lower c) (str_lower s')
  end.

(** The number appended is the one after the highest in use; in the
    examples a title clashes with one other title at most, which has no
    number. *)
Definition avoid_demo (names : list string) (value : string) : string :=
  if bool_decide (str_lower value ∈ map str_lower names) then value +:+ "1" else value.

Definition frame_size_demo (df : DataFrame) : option string :=
  let num_rows := Z.of_nat (length (records df)) in
  let num_cols := Z.of_nat (length (columns df)) in
  if (num_rows >? 1048576) || (num_cols >? 16384)
  then Some ("This sheet is too large! Your sheet size is: " +:+ pretty num_rows +:+ ", "
             +:+ pretty num_cols +:+ " Max sheet size is: 1048576, 16384")
  else None.

(** The control characters that cannot be stored in a cell. *)
Definition is_illegal (c : ascii) : bool :=
  let n := N_of_ascii c in
  ((n <=? 8) || (11 <=? n) && (n <=? 12) || (14 <=? n) && (n <=? 31))%N.

Definition illegal_cell (c : Cell) : option string :=
  match c with
  | CHeader name => if str_all (fun c => negb (is_illegal c)) name then None else Some name
  | CValue (JScalar (SStr text)) =>
      if str_all (fun c => negb (is_illegal c)) text then None else Some text
  | _ => None
  end.

(** The first column, from index [j] on, with a cell that is refused: its
    index, the row of that cell and the refused text. *)
Fixpoint first_illegal (rs : list (list (string * JsonValue))) (j : nat) (cols : list string)
    : option (nat * nat * string) :=
  match cols with
  | [] => None
  | c :: cols' =>
      match list_find (fun cell => is_Some (illegal_cell cell)) (map (fun r => cell_of r c) rs) with
      | Some (i, cell) => Some (j, i, default "" (illegal_cell cell))
      | None => first_illegal rs (S j) cols'
      end
  end.

(** The header cells are written first, from left to right, then the body,
    column by column. *)
Definition cell_error_demo (df : DataFrame) : option (string * list (list Cell)) :=
  match list_find (fun cell => is_Some (illegal_cell cell)) (map CHeader (columns df)) with
  | Some (j, cell) =>
      Some (default "" (illegal_cell cell) +:+ " cannot be used in worksheets.",
            [map CHeader (take j (columns df))])
  | None =>
      match first_illegal (records df) 0 (columns df) with
      | Some (j, i, text) =>
          Some (text +:+ " cannot be used in worksheets.",
                map CHeader (columns df)
                  :: List.filter (fun cells => negb (bool_decide (length cells = 0%nat)))
                       (imap (fun row r =>
                                map (cell_of r)
                                    (take (if (row <? i)%nat then S j else j) (columns df)))
                             (records df)))
      | None => None
      end
  end.

(** A file name of more than 255 characters is refused. *)
Definition open_error_demo (file_path : string) : option string :=
  if slen (basename file_path) >? 255
  then Some ("[Errno 36] File name too long: '" +:+ file_path +:+ "'")
  else None.

Fixpoint tally (n : nat) : string :=
  match n with
  | O => ""
  | S n' => String "i" (tally n')
  end.

Definition demo_env (make_agent : Outcome Agent) : Env :=
  {| TEMP_DIR := "/tmp/agno_xlsx_demo";
     json_loads := loads_demo;
     isalnum := ascii_alnum;
     uuid4 := fun n => "uuid" +:+ tally n;
     sheet_title_error := title_error_demo;
     avoid_duplicate_name := avoid_demo;
     frame_size_error := frame_size_demo;
     cell_error := cell_error_demo;
     open_error := open_error_demo;
     normalize_irregular := fun _ => raise_Exception "'int' object has no attribute 'values'";
     create_agno_agent := fun _ _ => make_agent |}.

(** A producer that answers and writes nothing. *)
Definition agent_idle : Agent := fun _ files => (Returned (Some "Done."), files).

(** A producer that fails. *)
Definition agent_broken : Agent :=
  fun _ files => (Raised {| exn_class := OtherException; exn_str := "quota exceeded" |}, files).

(** A producer that runs out of stack. *)
Definition agent_deep : Agent :=
  fun _ files =>
    (Raised {| exn_class := RecursionError;
               exn_str := "maximum recursion depth exceeded" |}, files).

(** A producer that writes two workbooks, the second one later. *)
Definition agent_writer : Agent :=
  fun _ files =>
    (Returned (Some "Two files written."),
     <["/tmp/agno_xlsx_demo/first.xlsx" :=
         {| content := XlsxFile [("Sheet1", [[]])]; mtime := 1001; protected := false |}]>
       (<["/tmp/agno_xlsx_demo/second.xlsx" :=
            {| content := XlsxFile [("Sheet1", [[]])]; mtime := 1002; protected := false |}]>
          files)).

Definition demo_request (json_data : string) : ProcessRequest.t :=
  {| ProcessRequest.json_data := json_data;
     ProcessRequest.file_name := Some "data";
     ProcessRequest.description := Some "";
     ProcessRequest.api_key := "key";
     ProcessRequest.model := Some "gemini-2.0-flash" |}.

(** The payload [{"a/b": []}]. *)
Definition slash_payload : string := "{" +:+ dq +:+ "a/b" +:+ dq +:+ ":[]}".


(** A request whose file name has 300 characters. *)
Definition long_name_request (json_data : string) : ProcessRequest.t :=
  {| ProcessRequest.json_data := json_data;
     ProcessRequest.file_name := Some (tally 300);
     ProcessRequest.description := Some "";
     ProcessRequest.api_key := "key";
     ProcessRequest.model := Some "gemini-2.0-flash" |}.

Definition w0 : World := {| fs := ∅; temp_files := []; clock := 1000; uuids_drawn := 0 |}.

(** ["[" + " " * n + "]"] *)
Fixpoint blanks (n : nat) (tail : string) : string :=
  match n with
  | O => tail
  | S n' => String " " (blanks n' tail)
  end.
Definition padded (n : nat) : string := String "[" (blanks n "]").

(** A registry entry whose file is gone from the disk. *)
Definition info_of (path : string) : FileInfo.t :=
  {| FileInfo.path := path; FileInfo.filename := basename path;
     FileInfo.created_at := 900; FileInfo.original_json := "[]" |}.

Definition w_stale : World :=
  {| fs := ∅;
     temp_files := [("f1", info_of "/tmp/agno_xlsx_demo/f1_data_processed.xlsx")];
     clock := 1000; uuids_drawn := 1 |}.

Definition plain_file (is_protected : bool) : File :=
  {| content := XlsxFile [("Data", [[]])]; mtime := 900; protected := is_protected |}.

(** Two registered artifacts with their files on disk; the first file
    cannot be deleted. *)
Definition w_locked : World :=
  {| fs := {[ "/tmp/agno_xlsx_demo/a_data_processed.xlsx" := plain_file true;
              "/tmp/agno_xlsx_demo/b_data_processed.xlsx" := plain_file false ]};
     temp_files := [("a", info_of "/tmp/agno_xlsx_demo/a_data_processed.xlsx");
                    ("b", info_of "/tmp/agno_xlsx_demo/b_data_processed.xlsx")];
     clock := 1000; uuids_drawn := 2 |}.

Definition info_at (path : string) (created : Z) : FileInfo.t :=
  {| FileInfo.path := path; FileInfo.filename := basename path;
     FileInfo.created_at := created; FileInfo.original_json := "[]" |}.

(** Three registered artifacts at time 5000: an old one with its file, an
    old one whose file cannot be deleted, and a young one. *)
Definition w_aged : World :=
  {| fs := {[ "/tmp/agno_xlsx_demo/old_data_processed.xlsx" := plain_file false;
              "/tmp/agno_xlsx_demo/kept_data_processed.xlsx" := plain_file true;
              "/tmp/agno_xlsx_demo/new_data_processed.xlsx" := plain_file false ]};
     temp_files := [("old", info_at "/tmp/agno_xlsx_demo/old_data_processed.xlsx" 100);
                    ("kept", info_at "/tmp/agno_xlsx_demo/kept_data_processed.xlsx" 200);
                    ("new", info_at "/tmp/agno_xlsx_demo/new_data_processed.xlsx" 4000)];
     clock := 5000; uuids_drawn := 3 |}.

(** Two registered artifacts, the file of the second already gone. *)
Definition w_mixed : World :=
  {| fs := {[ "/tmp/agno_xlsx_demo/a_data_processed.xlsx" := plain_file false ]};
     temp_files := [("a", info_of "/tmp/agno_xlsx_demo/a_data_processed.xlsx");
                    ("b", info_of "/tmp/agno_xlsx_demo/b_data_processed.xlsx")];
     clock := 1000; uuids_drawn := 2 |}.

(** What [convert_json_with_agno] makes of the producer's run on the world
    [w1] it was started in. *)
Definition deliver (r : Outcome (option string) * gmap string File) (w1 : World)
    : Outcome (option string) * World :=
  match r with
  | (Returned content, files) => (Returned content, set_fs files w1)
  | (Raised e, files) => (agno_except e, set_fs files w1)
  end.

(** * Properties *)

(** ** The strategy selector *)

Lemma select_strategy_direct json_data :
  slen json_data > 100000 -> select_strategy json_data = DIRECT.
Proof.
  intros H. unfold select_strategy; cbv zeta.
  destruct (Z.gtb_spec (slen json_data) 100000); [reflexivity | lia].
Qed.

Lemma select_strategy_by_reference json_data :
  50000 < slen json_data <= 100000 -> select_strategy json_data = DELEGATED_BY_REFERENCE.
Proof.
  intros H. unfold select_strategy; cbv zeta.
  destruct (Z.gtb_spec (slen json_data) 100000); [lia |].
  destruct (Z.gtb_spec (slen json_data) 50000); [reflexivity | lia].
Qed.

Lemma select_strategy_inline json_data :
  slen json_data <= 50000 -> select_strategy json_data = DELEGATED_INLINE.
Proof.
  intros H. unfold select_strategy; cbv zeta.
  destruct (Z.gtb_spec (slen json_data) 100000); [lia |].
  destruct (Z.gtb_spec (slen json_data) 50000); [lia | reflexivity].
Qed.

(** C1.  The strategy depends on the length of the payload alone.  Above
    100,000 characters [convert_json_with_agno] returns the direct-conversion
    signal at once, without creating the producer or touching the world;
    above 50,000 (and up to 100,000) the payload is written to a scratch
    file and the producer gets the path; up to 50,000 the producer gets the
    payload itself.  Lengths 100,001 / 100,000 / 50,001 / 50,000 fall on the
    sides stated. *)
Theorem selector_by_length (env : Env) (json_data : string)
    (file_name description : option string) (api_key : string) (model : option string)
    (w : World) :
  let n := slen json_data in
  let converted :=
    convert_json_with_agno env json_data file_name description api_key model w in
  (n > 100000 ->
     select_strategy json_data = DIRECT /\ converted = (Returned None, w))
  /\ (50000 < n <= 100000 ->
        select_strategy json_data = DELEGATED_BY_REFERENCE
        /\ forall agent, create_agno_agent env api_key model = Returned agent ->
             exists json_file_path w1,
               content <$> fs w1 !! json_file_path = Some (TextFile json_data)
               /\ temp_files w1 = temp_files w
               /\ converted
                  = deliver (agent (PromptFromFile file_name description json_file_path)
                                   (fs w1)) w1)
  /\ (n <= 50000 ->
        select_strategy json_data = DELEGATED_INLINE
        /\ forall agent, create_agno_agent env api_key model = Returned agent ->
             converted
             = deliver (agent (PromptInline json_data file_name description) (fs w)) w)
  /\ (n = 100001 -> select_strategy json_data = DIRECT)
  /\ (n = 100000 -> select_strategy json_data = DELEGATED_BY_REFERENCE)
  /\ (n = 50001 -> select_strategy json_data = DELEGATED_BY_REFERENCE)
  /\ (n = 50000 -> select_strategy json_data = DELEGATED_INLINE)
  /\ (forall other, slen other = n -> select_strategy other = select_strategy json_data).
Proof.
  cbv zeta. unfold convert_json_with_agno; cbv zeta.
  repeat split.
  - by apply select_strategy_direct.
  - destruct (Z.gtb_spec (slen json_data) 100000); [reflexivity | lia].
  - apply select_strategy_by_reference; lia.
  - intros agent Hagent.
    destruct (Z.gtb_spec (slen json_data) 100000); [lia |].
    rewrite Hagent.
    destruct (Z.gtb_spec (slen json_data) 50000); [| lia].
    eexists _, _. split; [| split; [| unfold deliver; reflexivity]].
    + simpl. by rewrite lookup_insert_eq.
    + reflexivity.
  - by apply select_strategy_inline.
  - intros agent Hagent.
    destruct (Z.gtb_spec (slen json_data) 100000); [lia |].
    rewrite Hagent.
    destruct (Z.gtb_spec (slen json_data) 50000); [lia |].
    reflexivity.
  - intros ?. apply select_strategy_direct; lia.
  - intros ?. apply select_strategy_by_reference; lia.
  - intros ?. apply select_strategy_by_reference; lia.
  - intros ?. apply select_strategy_inline; lia.
  - intros other Hlen. unfold select_strategy; cbv zeta. by rewrite Hlen.
Qed.

Lemma selector_by_length_witness :
  (select_strategy (padded (Z.to_nat 99999)) = DIRECT
   /\ convert_json_with_agno (demo_env (Returned agent_idle)) (padded (Z.to_nat 99999))
        (Some "data") None "key" None w0 = (Returned None, w0))
  /\ select_strategy (padded (Z.to_nat 99998)) = DELEGATED_BY_REFERENCE
  /\ select_strategy (padded (Z.to_nat 49999)) = DELEGATED_BY_REFERENCE
  /\ select_strategy (padded (Z.to_nat 49998)) = DELEGATED_INLINE.
Proof.
  pose (env := demo_env (Returned agent_idle)).
  split; [| split; [| split]].
  - destruct (selector_by_length env (padded (Z.to_nat 99999)) (Some "data") None "key"
                None w0) as (Hdirect & _).
    apply Hdirect. vm_compute; reflexivity.
  - destruct (selector_by_length env (padded (Z.to_nat 99998)) (Some "data") None "key"
                None w0) as (_ & Href & _).
    apply Href. split; vm_compute; congruence.
  - destruct (selector_by_length env (padded (Z.to_nat 49999)) (Some "data") None "key"
                None w0) as (_ & Href & _).
    apply Href. split; vm_compute; congruence.
  - destruct (selector_by_length env (padded (Z.to_nat 49998)) (Some "data") None "key"
                None w0) as (_ & _ & Hinline & _).
    apply Hinline. vm_compute; congruence.
Defined.

(** ** Python dicts *)

Section PyDictFacts.
Context {V : Type}.
Implicit Types (d : list (string * V)) (k : string).

Lemma get_del_eq k d : PyDict.get k (PyDict.del k d) = None.
Proof.
  induction d as [| [k' v] d IH]; simpl; [done |].
  destruct (decide (k' = k)) as [-> | Hne]; [done |].
  simpl. by rewrite decide_False.
Qed.

Lemma get_del_ne k k' d : k ≠ k' -> PyDict.get k' (PyDict.del k d) = PyDict.get k' d.
Proof.
  intros Hne. induction d as [| [k0 v] d IH]; simpl; [done |].
  destruct (decide (k0 = k)) as [-> | Hk0].
  - by rewrite decide_False.
  - simpl. by rewrite IH.
Qed.

Lemma elem_of_keys k d : k ∈ PyDict.keys d <-> is_Some (PyDict.get k d).
Proof.
  unfold PyDict.keys. induction d as [| [k' v] d IH]; simpl.
  - split; [by intros ?%elem_of_nil | by intros [? ?]].
  - rewrite elem_of_cons. destruct (decide (k' = k)) as [-> | Hne].
    + split; eauto.
    + rewrite <- IH. split; [intros [Heq | Hin]; [by subst | done] | by right].
Qed.

Lemma keys_del_subseteq k d : PyDict.keys (PyDict.del k d) ⊆ PyDict.keys d.
Proof.
  intros k' Hin. apply elem_of_keys in Hin. apply elem_of_keys.
  destruct (decide (k = k')) as [-> | Hne].
  - rewrite get_del_eq in Hin. by destruct Hin.
  - by rewrite get_del_ne in Hin.
Qed.

Lemma not_elem_of_keys_del k d : k ∉ PyDict.keys (PyDict.del k d).
Proof. rewrite elem_of_keys, get_del_eq. by intros [? ?]. Qed.

Lemma del_not_elem_of k d : k ∉ PyDict.keys d -> PyDict.del k d = d.
Proof.
  unfold PyDict.keys. induction d as [| [k' v] d IH]; simpl; [done |].
  rewrite not_elem_of_cons. intros [Hne Hnot].
  destruct (decide (k' = k)) as [-> | _]; [done |]. by rewrite IH.
Qed.

Lemma keys_set k (v : V) d :
  PyDict.keys (PyDict.set k v d) = add_column (PyDict.keys d) k.
Proof.
  unfold PyDict.keys, add_column. induction d as [| [k' v'] d IH].
  - cbn. destruct (decide (k ∈ [])) as [Hin | _]; [by apply elem_of_nil in Hin | done].
  - cbn [PyDict.set]. destruct (decide (k' = k)) as [-> | Hne].
    + cbn. destruct (decide (k ∈ k :: d.*1)) as [_ | Hnot]; [done |].
      exfalso. apply Hnot. by left.
    + cbn [fmap list_fmap fst]. rewrite IH.
      destruct (decide (k ∈ d.*1)) as [Hin | Hnot];
        destruct (decide (k ∈ k' :: d.*1)) as [Hin' | Hnot']; try done.
      * exfalso. apply Hnot'. by right.
      * apply elem_of_cons in Hin' as [-> | Hin']; done.
Qed.

Lemma get_set_eq k (v : V) d : PyDict.get k (PyDict.set k v d) = Some v.
Proof.
  induction d as [| [k' v'] d IH]; simpl.
  - by rewrite decide_True.
  - destruct (decide (k' = k)) as [-> | Hne]; simpl.
    + by rewrite decide_True.
    + by rewrite decide_False.
Qed.

Lemma get_set_ne k k' (v : V) d :
  k ≠ k' -> PyDict.get k' (PyDict.set k v d) = PyDict.get k' d.
Proof.
  intros Hne. induction d as [| [k0 v0] d IH]; simpl.
  - by rewrite decide_False.
  - destruct (decide (k0 = k)) as [-> | Hk0]; simpl.
    + by rewrite !decide_False.
    + by rewrite IH.
Qed.

Lemma get_Some_elem_of k (v : V) d : PyDict.get k d = Some v -> (k, v) ∈ d.
Proof.
  induction d as [| [k' v'] d IH]; simpl; [done |].
  destruct (decide (k' = k)) as [-> | Hne].
  - intros [= ->]. by left.
  - intros Hget. right. by apply IH.
Qed.

Lemma elem_of_get k (v : V) d :
  NoDup (PyDict.keys d) -> (k, v) ∈ d -> PyDict.get k d = Some v.
Proof.
  unfold PyDict.keys. induction d as [| [k' v'] d IH]; simpl.
  - by intros _ ?%elem_of_nil.
  - intros [Hfresh Hnodup]%NoDup_cons [Heq | Hin]%elem_of_cons.
    + injection Heq as -> ->. by rewrite decide_True.
    + destruct (decide (k' = k)) as [-> | Hne]; [| by apply IH].
      exfalso. apply Hfresh. by apply (list_elem_of_fmap_2 fst) in Hin.
Qed.

Lemma set_fresh k (v : V) d : k ∉ PyDict.keys d -> PyDict.set k v d = d ++ [(k, v)].
Proof.
  unfold PyDict.keys. induction d as [| [k' v'] d IH]; [done |].
  rewrite (fmap_cons fst). cbn [fst]. intros [Hne Hnot]%not_elem_of_cons.
  cbn [PyDict.set]. rewrite decide_False by done. by rewrite IH.
Qed.


Lemma elem_of_keys_set k k' (v : V) d :
  k' ∈ PyDict.keys (PyDict.set k v d) <-> k' ∈ PyDict.keys d \/ k' = k.
Proof.
  rewrite keys_set. unfold add_column.
  destruct (decide (k ∈ PyDict.keys d)) as [Hin | Hnot].
  - split; [by left | by intros [? | ->]].
  - by rewrite elem_of_app, list_elem_of_singleton.
Qed.



(** Deleting every key of a dict, in any order and with repetitions,
    empties it. *)
Lemma del_all (ks : list string) d :
  PyDict.keys d ⊆ ks -> fold_left (fun acc k => PyDict.del k acc) ks d = [].
Proof.
  revert d. induction ks as [| k ks IH]; intros d Hsub; simpl.
  - destruct d as [| [k v] d]; [done |].
    exfalso. eapply not_elem_of_nil, Hsub. unfold PyDict.keys; simpl. by left.
  - apply IH. intros k' Hin.
    destruct (decide (k' = k)) as [-> | Hne].
    + by apply not_elem_of_keys_del in Hin.
    + apply keys_del_subseteq, Hsub, elem_of_cons in Hin.
      by destruct Hin as [Heq | Hks].
Qed.
End PyDictFacts.

(** ** The registry: fetching *)

Lemma list_files_ids (w : World) :
  map FileEntry.file_id (list_files w) = PyDict.keys (temp_files w).
Proof.
  unfold list_files, PyDict.keys. induction (temp_files w) as [| [k v] d IH]; simpl.
  - done.
  - by rewrite IH.
Qed.

Lemma download_file_unregistered (file_id : string) (w : World) :
  PyDict.get file_id (temp_files w) = None ->
  download_file file_id w = (HTTPException 404 "File not found or expired", w).
Proof. intros Hget. unfold download_file. by rewrite Hget. Qed.

(** C7.  [download_file] answers with the artifact's metadata exactly when
    the id is registered and its file is on disk, and then leaves the world
    as it was.  When the id is registered and the file is missing, it
    answers 404 and drops the entry (and nothing else), so that [list_files]
    no longer shows the id and a second fetch finds it unregistered. *)
Theorem download_file_self_healing (file_id : string) (w : World) :
  (forall response w',
     download_file file_id w = (Respond response, w') <->
     exists file_info,
       PyDict.get file_id (temp_files w) = Some file_info
       /\ os_path_exists (fs w) (FileInfo.path file_info) = true
       /\ FileResponse.path response = FileInfo.path file_info
       /\ FileResponse.filename response = FileInfo.filename file_info
       /\ FileResponse.media_type response
          = "application/vnd.openxmlformats-officedocument.spreadsheetml.sheet"
       /\ w' = w)
  /\ (forall file_info,
        PyDict.get file_id (temp_files w) = Some file_info ->
        os_path_exists (fs w) (FileInfo.path file_info) = false ->
        exists w',
          download_file file_id w = (HTTPException 404 "File not found on disk", w')
          /\ PyDict.get file_id (temp_files w') = None
          /\ (file_id ∉ map FileEntry.file_id (list_files w'))
          /\ (forall other, other ≠ file_id ->
                PyDict.get other (temp_files w') = PyDict.get other (temp_files w))
          /\ fs w' = fs w
          /\ download_file file_id w'
             = (HTTPException 404 "File not found or expired", w')).
Proof.
  split.
  - intros response w'. unfold download_file.
    destruct (PyDict.get file_id (temp_files w)) as [file_info |] eqn:Hget.
    + destruct (os_path_exists (fs w) (FileInfo.path file_info)) eqn:Hexists; simpl.
      * split.
        -- intros [= <- <-]. exists file_info. by repeat split.
        -- intros (file_info' & [= <-] & _ & Hp & Hf & Hm & ->).
           destruct response; simpl in *. by subst.
      * split; [done |].
        intros (file_info' & [= <-] & Hex & _). congruence.
    + split; [done |]. by intros (file_info' & [=] & _).
  - intros file_info Hget Hmissing.
    eexists. unfold download_file. rewrite Hget, Hmissing. simpl.
    split; [reflexivity |].
    assert (Hgone : PyDict.get file_id (PyDict.del file_id (temp_files w)) = None)
      by apply get_del_eq.
    repeat split; simpl.
    + done.
    + rewrite list_files_ids. simpl. apply not_elem_of_keys_del.
    + intros other Hne. by apply get_del_ne.
    + by rewrite Hgone.
Qed.

Lemma download_file_self_healing_witness :
  exists w',
    download_file "f1" w_stale = (HTTPException 404 "File not found on disk", w')
    /\ PyDict.get "f1" (temp_files w') = None
    /\ ("f1" ∉ map FileEntry.file_id (list_files w'))
    /\ (forall other, other ≠ "f1" ->
          PyDict.get other (temp_files w') = PyDict.get other (temp_files w_stale))
    /\ fs w' = fs w_stale
    /\ download_file "f1" w' = (HTTPException 404 "File not found or expired", w').
Proof.
  apply (proj2 (download_file_self_healing "f1" w_stale)
           (info_of "/tmp/agno_xlsx_demo/f1_data_processed.xlsx")).
  - reflexivity.
  - vm_compute; reflexivity.
Defined.

(** ** The registry: clearing *)

Lemma cleanup_all_files_empty (w : World) :
  temp_files w = [] -> cleanup_all_files w = (CleanedUp 0, w).
Proof. intros Hempty. unfold cleanup_all_files. by rewrite Hempty. Qed.

Local Ltac split_paths :=
  repeat match goal with
         | H : _ ∈ _ :: _ |- _ => apply elem_of_cons in H as [-> | H]
         | H : _ ∉ _ :: _ |- _ => apply not_elem_of_cons in H as [? H]
         end.

(** As long as no [os.remove] fails, the loop drops every entry it walks
    over, deletes exactly the files that were still there, and counts
    them: each deletion takes one file off the disk. *)
Lemma cleanup_loop_without_errors (items : list (string * FileInfo.t)) :
  forall (files_deleted : Z) (w : World),
    (forall kv f, kv ∈ items -> fs w !! FileInfo.path kv.2 = Some f -> protected f = false) ->
    exists n w',
      cleanup_loop items files_deleted w = (Returned n, w')
      /\ temp_files w'
         = fold_left (fun acc k => PyDict.del k acc) (PyDict.keys items) (temp_files w)
      /\ n + Z.of_nat (size (fs w')) = files_deleted + Z.of_nat (size (fs w))
      /\ (forall p, fs w' !! p
                    = if decide (p ∈ map (fun kv => FileInfo.path kv.2) items)
                      then None else fs w !! p).
Proof.
  induction items as [| [file_id file_info] rest IH]; intros files_deleted w Hfree.
  - exists files_deleted, w. simpl. by repeat split.
  - cbn [cleanup_loop]. unfold os_path_exists, os_remove.
    destruct (fs w !! FileInfo.path file_info) as [f |] eqn:Hlookup.
    + rewrite bool_decide_true by eauto.
      rewrite (Hfree (file_id, file_info) f) by (by left || done).
      set (w1 := set_temp_files _ _).
      destruct (IH (files_deleted + 1) w1) as (n & w' & Hloop & Hreg & Hcount & Hfs).
      { intros kv f' Hin Hsome. subst w1; simpl in Hsome.
        destruct (decide (FileInfo.path file_info = FileInfo.path kv.2)) as [Heq | Hne].
        - rewrite Heq, lookup_delete_eq in Hsome. done.
        - rewrite lookup_delete_ne in Hsome by done.
          eapply Hfree; [by right | done]. }
      exists n, w'. split; [done |]. split; [by rewrite Hreg |]. split.
      * rewrite Hcount. subst w1; simpl.
        pose proof (map_size_delete (FileInfo.path file_info) (fs w)) as Hsize.
        rewrite Hlookup in Hsize. simpl in Hsize.
        assert (size (fs w) ≠ 0%nat).
        { intros Hzero. apply map_size_empty_inv in Hzero.
          rewrite Hzero, lookup_empty in Hlookup. done. }
        lia.
      * intros p. rewrite Hfs. subst w1; cbn [fs set_fs set_temp_files map snd].
        repeat case_decide; split_paths;
          rewrite ?lookup_delete_eq, ?lookup_delete_ne by done; done.
    + rewrite bool_decide_false by (by intros [? ?]).
      set (w1 := set_temp_files _ _).
      destruct (IH files_deleted w1) as (n & w' & Hloop & Hreg & Hcount & Hfs).
      { intros kv f' Hin Hsome. eapply Hfree; [by right | done]. }
      exists n, w'. split; [done |]. split; [by rewrite Hreg |]. split; [done |].
      intros p. rewrite Hfs. subst w1; cbn [fs set_fs set_temp_files map snd].
      repeat case_decide; split_paths; done.
Qed.

(** X3.  Without a deletion error, [cleanup_all_files] empties the registry and
    reports the number of files it took off the disk; entries whose files
    were already gone are dropped without being counted. *)
Lemma cleanup_all_files_without_errors (w : World) :
  (forall kv f, kv ∈ temp_files w ->
                fs w !! FileInfo.path kv.2 = Some f -> protected f = false) ->
  exists n w',
    cleanup_all_files w = (CleanedUp n, w')
    /\ temp_files w' = []
    /\ n = Z.of_nat (size (fs w)) - Z.of_nat (size (fs w'))
    /\ (forall p, fs w' !! p
                  = if decide (p ∈ map (fun kv => FileInfo.path kv.2) (temp_files w))
                    then None else fs w !! p).
Proof.
  intros Hfree. unfold cleanup_all_files.
  destruct (cleanup_loop_without_errors (temp_files w) 0 w Hfree)
    as (n & w' & -> & Hreg & Hcount & Hfs).
  exists n, w'. split; [done |]. split; [| split; [lia | done]].
  rewrite Hreg. by apply del_all.
Qed.

(** C8, on the code: with two artifacts registered and their files on disk,
    the first file refusing deletion, [cleanup_all_files] answers with the
    error and leaves the world exactly as it was: neither entry is removed,
    the second file is not deleted, and no count is reported. *)
Theorem cleanup_all_files_stops_at_error :
  cleanup_all_files w_locked
  = (CleanupError "[Errno 13] Permission denied: /tmp/agno_xlsx_demo/a_data_processed.xlsx",
     w_locked).
Proof. vm_compute. reflexivity. Qed.

(** The sweeper's loop on the same registry, an hour later: the failing
    deletion is passed over, both entries go and the second file is
    deleted. *)
Lemma cleanup_expired_files_passes_over_error :
  let w := cleanup_expired_files
             {| fs := fs w_locked; temp_files := temp_files w_locked;
                clock := 5000; uuids_drawn := 2 |} in
  temp_files w = []
  /\ fs w !! "/tmp/agno_xlsx_demo/b_data_processed.xlsx" = None
  /\ fs w !! "/tmp/agno_xlsx_demo/a_data_processed.xlsx" = Some (plain_file true).
Proof. vm_compute. repeat split. Qed.


(** ** The filename policy *)

Lemma list_of_str_filter (p : ascii -> bool) (s : string) :
  list_ascii_of_string (str_filter p s) = List.filter p (list_ascii_of_string s).
Proof.
  induction s as [| c s IH]; simpl; [done |].
  destruct (p c); simpl; by rewrite IH.
Qed.

Lemma drop_blanks_split (l : list ascii) :
  exists n, l = replicate n " "%char ++ drop_blanks l.
Proof.
  induction l as [| c l [n IH]]; simpl.
  - by exists 0%nat.
  - destruct (Ascii.eqb_spec c " ") as [-> | Hne].
    + exists (S n). simpl. by rewrite <- IH.
    + by exists 0%nat.
Qed.

Lemma drop_blanks_head (l : list ascii) : head (drop_blanks l) ≠ Some " "%char.
Proof.
  induction l as [| c l IH]; simpl; [done |].
  destruct (Ascii.eqb_spec c " ") as [-> | Hne]; [done |].
  simpl. congruence.
Qed.

Lemma drop_blanks_nil (l : list ascii) :
  drop_blanks l = [] <-> Forall (fun c => c = " "%char) l.
Proof.
  induction l as [| c l IH]; simpl.
  - split; [constructor | done].
  - destruct (Ascii.eqb_spec c " ") as [-> | Hne].
    + rewrite IH. split; [by constructor | by inversion 1].
    + split; [done | by inversion 1].
Qed.

Lemma list_of_strip (s : string) :
  list_ascii_of_string (strip s)
  = reverse (drop_blanks (reverse (drop_blanks (list_ascii_of_string s)))).
Proof. unfold strip. apply list_ascii_of_string_of_list_ascii. Qed.

(** What [strip] does, on lists: it takes the blanks off both ends. *)
Lemma strip_split (l : list ascii) :
  let core := reverse (drop_blanks (reverse (drop_blanks l))) in
  (exists lead trail, l = replicate lead " "%char ++ core ++ replicate trail " "%char)
  /\ head core ≠ Some " "%char
  /\ last core ≠ Some " "%char
  /\ (core = [] <-> Forall (fun c => c = " "%char) l).
Proof.
  cbv zeta.
  set (inner := drop_blanks l).
  set (core := reverse (drop_blanks (reverse inner))).
  destruct (drop_blanks_split l) as [lead Hlead]. fold inner in Hlead.
  destruct (drop_blanks_split (reverse inner)) as [trail Htrail].
  assert (Hinner : inner = core ++ replicate trail " "%char).
  { subst core. apply (f_equal reverse) in Htrail.
    by rewrite reverse_involutive, reverse_app, reverse_replicate in Htrail. }
  assert (Hlast : last core ≠ Some " "%char).
  { subst core. rewrite last_reverse. apply drop_blanks_head. }
  split; [| split; [| split]].
  - exists lead, trail. by rewrite <- Hinner.
  - destruct core as [| c core'] eqn:Hcore; [done |].
    pose proof (drop_blanks_head l) as Hhead. fold inner in Hhead.
    by rewrite Hinner in Hhead.
  - done.
  - split.
    + intros Hnil. rewrite Hnil in Hinner. simpl in Hinner.
      rewrite Hlead, Hinner. apply Forall_app. split; by apply Forall_replicate.
    + intros Hall. apply drop_blanks_nil in Hall. fold inner in Hall.
      subst core. by rewrite Hall.
Qed.

Lemma string_nil_iff (s : string) : s = "" <-> list_ascii_of_string s = [].
Proof. destruct s; simpl; split; congruence. Qed.

(** C6, as the code has it.  The produced filename is the sanitized base
    name followed by ["_processed.xlsx"].  The base name consists of the
    characters of the caller's name that are alphanumeric, blank, hyphen or
    underscore, in their order, without the blanks at its two ends.  No
    default is substituted: the base is empty exactly when no character
    other than blanks is kept. *)
Theorem filename_policy (env : Env) (file_name : string) :
  let kept := List.filter (keeps env) (list_ascii_of_string file_name) in
  let base := list_ascii_of_string (safe_filename env file_name) in
  xlsx_filename env file_name = safe_filename env file_name +:+ "_processed.xlsx"
  /\ (forall c, c ∈ base ->
        c ∈ list_ascii_of_string file_name
        /\ (isalnum env c = true \/ c = " "%char \/ c = "-"%char \/ c = "_"%char))
  /\ (exists lead trail,
        kept = replicate lead " "%char ++ base ++ replicate trail " "%char)
  /\ head base ≠ Some " "%char
  /\ last base ≠ Some " "%char
  /\ (safe_filename env file_name = "" <-> Forall (fun c => c = " "%char) kept).
Proof.
  cbv zeta. rewrite string_nil_iff. unfold safe_filename.
  rewrite list_of_strip, list_of_str_filter.
  set (kept := List.filter (keeps env) (list_ascii_of_string file_name)).
  destruct (strip_split kept) as ((lead & trail & Hkept) & Hhead & Hlast & Hnil).
  set (base := reverse (drop_blanks (reverse (drop_blanks kept)))) in *.
  split; [reflexivity |]. split; [| by eauto 10].
  intros c Hc.
  assert (Hin : c ∈ kept).
  { rewrite Hkept, !elem_of_app. auto. }
  apply list_elem_of_In, filter_In in Hin as [Hin Hkeeps].
  split; [by apply list_elem_of_In |].
  unfold keeps in Hkeeps. apply orb_true_iff in Hkeeps as [Halnum | Hchar]; [by left |].
  apply bool_decide_eq_true in Hchar. right.
  apply elem_of_cons in Hchar as [-> | Hchar]; [by left |].
  apply elem_of_cons in Hchar as [-> | Hchar]; [by right; left |].
  apply elem_of_cons in Hchar as [-> | Hchar]; [by right; right |].
  by apply elem_of_nil in Hchar.
Qed.

(** C6 as stated fails: a name without any kept character gives an empty
    base, and the filename is the bare suffix. *)
Lemma filename_base_can_be_empty :
  safe_filename (demo_env (Returned agent_idle)) "???" = ""
  /\ xlsx_filename (demo_env (Returned agent_idle)) "???" = "_processed.xlsx"
  /\ xlsx_filename (demo_env (Returned agent_idle)) "" = "_processed.xlsx".
Proof. vm_compute. repeat split. Qed.

Lemma filename_policy_witness :
  "a"%char ∈ list_ascii_of_string " a?b "
  /\ (ascii_alnum "a" = true \/ "a"%char = " "%char \/ "a"%char = "-"%char
      \/ "a"%char = "_"%char).
Proof.
  apply (proj1 (proj2 (filename_policy (demo_env (Returned agent_idle)) " a?b "))).
  vm_compute. by left.
Defined.

(** ** Columns and sheet order *)

Lemma add_columns_elem_of (l init : list string) (x : string) :
  x ∈ fold_left add_column l init <-> x ∈ init \/ x ∈ l.
Proof.
  revert init. induction l as [| k l IH]; intros init; simpl.
  - rewrite elem_of_nil. tauto.
  - rewrite IH, elem_of_cons. unfold add_column.
    destruct (decide (k ∈ init)) as [Hin | Hnot].
    + split; [tauto |]. intros [? | [-> | ?]]; tauto.
    + rewrite elem_of_app, list_elem_of_singleton. tauto.
Qed.

Lemma add_columns_NoDup (l init : list string) :
  NoDup init -> NoDup (fold_left add_column l init).
Proof.
  revert init. induction l as [| k l IH]; intros init Hnodup; simpl; [done |].
  apply IH. unfold add_column.
  destruct (decide (k ∈ init)) as [Hin | Hnot]; [done |].
  apply NoDup_app. split; [done |]. split; [| apply NoDup_singleton].
  intros x Hx ->%list_elem_of_singleton. done.
Qed.

Lemma add_columns_prefix (l init : list string) :
  exists rest, fold_left add_column l init = init ++ rest.
Proof.
  revert init. induction l as [| k l IH]; intros init; simpl.
  - exists []. by rewrite app_nil_r.
  - destruct (IH (add_column init k)) as [rest ->]. unfold add_column.
    destruct (decide (k ∈ init)); [by exists rest |].
    exists (k :: rest). by rewrite <- app_assoc.
Qed.

(** The first new name after a run of others opens the next sheet. *)
Lemma add_columns_first_use (pre post : list string) (x : string) :
  x ∉ pre ->
  exists rest,
    fold_left add_column (pre ++ x :: post) []
    = fold_left add_column pre [] ++ x :: rest.
Proof.
  intros Hnot. rewrite fold_left_app. simpl.
  assert (Hfresh : x ∉ fold_left add_column pre []).
  { rewrite add_columns_elem_of, elem_of_nil. tauto. }
  unfold add_column at 2. rewrite decide_False by done.
  destruct (add_columns_prefix post (fold_left add_column pre [] ++ [x])) as [rest ->].
  exists rest. by rewrite <- app_assoc.
Qed.




Lemma cell_of_missing (r : list (string * JsonValue)) (c : string) :
  c ∉ PyDict.keys r -> cell_of r c = CBlank.
Proof.
  intros Hnot. unfold cell_of.
  destruct (PyDict.get c r) eqn:Hget; [| done].
  exfalso. apply Hnot, elem_of_keys. eauto.
Qed.

(** ** Flattening along a path *)



Lemma join_key_empty (k : string) : join_key "" k = k.
Proof. done. Qed.















Lemma json_normalize_mappings (env : Env) (data : list JsonValue)
    (rs : list (list (string * JsonValue))) :
  all_dicts data = Some rs ->
  json_normalize env data = Returned (DataFrame_of_records (map flatten_record rs)).
Proof.
  intros Hall. unfold json_normalize. destruct data as [| v data'].
  - simpl in Hall. injection Hall as <-. reflexivity.
  - by rewrite Hall.
Qed.

(** ** The writer *)

Lemma keeps_titles_single (env : Env) (names : list string) (title : string) :
  keeps_titles env names [title] = true ->
  title ∈ names \/ new_sheet_title env names title = title.
Proof.
  simpl. destruct (decide (title ∈ names)); [by left |].
  rewrite andb_true_r, bool_decide_eq_true. by right.
Qed.

Lemma keeps_titles_cons (env : Env) (names : list string) (title : string)
    (rest : list string) :
  keeps_titles env names (title :: rest) = true ->
  keeps_titles env names [title] = true
  /\ keeps_titles env (add_column names title) rest = true.
Proof.
  simpl. unfold add_column. destruct (decide (title ∈ names)); [done |].
  intros [-> ->]%andb_true_iff. done.
Qed.

(** What a call of [to_excel] that returns has done. *)
Lemma to_excel_returned (env : Env) (df : DataFrame) (name : string)
    (book book' : Workbook) (u : unit) :
  to_excel env df name book = (Returned u, book') ->
  accepted env df
  /\ ((exists old,
         PyDict.get name book = Some old
         /\ book' = PyDict.set name (overlay (frame_cells df) old) book)
      \/ (PyDict.get name book = None
          /\ sheet_title_error env name = None
          /\ book' = book ++ [(new_sheet_title env (PyDict.keys book) name,
                               frame_cells df)])).
Proof.
  unfold to_excel, accepted, cells_written.
  destruct (frame_size_error env df); [done |].
  destruct (PyDict.get name book) as [old |].
  - destruct (cell_error env df) as [[msg written] |]; [done |].
    intros [= _ <-]. split; [done |]. left. by exists old.
  - destruct (sheet_title_error env name); [done |].
    destruct (cell_error env df) as [[msg written] |]; [done |].
    intros [= _ <-]. split; [done |]. by right.
Qed.

(** A frame the libraries take is written when its sheet exists or its
    title is not refused. *)
Lemma to_excel_accepts (env : Env) (df : DataFrame) (name : string) (book : Workbook) :
  accepted env df ->
  name ∈ PyDict.keys book \/ sheet_title_error env name = None ->
  exists book', to_excel env df name book = (Returned tt, book').
Proof.
  intros [Hsize Hcells] Htitle. unfold to_excel, cells_written. rewrite Hsize, Hcells.
  destruct (PyDict.get name book) as [old |] eqn:Hget; [by eexists |].
  destruct Htitle as [Hin | ->]; [| by eexists].
  apply elem_of_keys in Hin as [old Hold]. congruence.
Qed.

Lemma overlay_nil_r (new : list (list Cell)) : overlay new [] = new.
Proof. by destruct new. Qed.

(** When the title is kept, the frame is on the sheet of that name,
    whether the sheet was there or not. *)
Lemma to_excel_kept (env : Env) (df : DataFrame) (name : string)
    (book book' : Workbook) (u : unit) :
  to_excel env df name book = (Returned u, book') ->
  keeps_titles env (PyDict.keys book) [name] = true ->
  book' = PyDict.set name (overlay (frame_cells df) (default [] (PyDict.get name book))) book
  /\ (name ∈ PyDict.keys book \/ sheet_title_error env name = None).
Proof.
  intros Hto Hkeeps.
  apply to_excel_returned in Hto as [_ [(old & Hold & ->) | (Hnone & Htitle & ->)]].
  - rewrite Hold. split; [done |]. left. apply elem_of_keys. eauto.
  - assert (Hfresh : name ∉ PyDict.keys book).
    { rewrite elem_of_keys, Hnone. by intros [? ?]. }
    apply keeps_titles_single in Hkeeps as [Hin | ->]; [done |].
    rewrite Hnone. cbn [default]. rewrite overlay_nil_r, set_fresh by done.
    split; [done | by right].
Qed.

Lemma with_writer_saved (env : Env) (file_path : string)
    (body : Workbook -> Outcome unit * Workbook) (book : Workbook) :
  with_writer env file_path body = Saved book ->
  open_error env file_path = None /\ body [] = (Returned tt, book) /\ book ≠ [].
Proof.
  unfold with_writer. destruct (open_error env file_path); [done |].
  destruct (body []) as [[[] | e] book0].
  - destruct book0 as [| sheet book0]; [done |]. by intros [= <-].
  - by destruct book0.
Qed.

Lemma with_writer_wrote (env : Env) (file_path : string)
    (body : Workbook -> Outcome unit * Workbook) (book : Workbook) :
  open_error env file_path = None ->
  body [] = (Returned tt, book) ->
  book ≠ [] ->
  with_writer env file_path body = Saved book.
Proof.
  intros Hopen Hbody Hbook. unfold with_writer. rewrite Hopen, Hbody.
  by destruct book.
Qed.

(** A block that fails has left the file behind unless it was never
    opened. *)
Lemma with_writer_failed (env : Env) (file_path : string)
    (body : Workbook -> Outcome unit * Workbook) (e : Exn) (remains : option FileContent) :
  with_writer env file_path body = Failed e remains ->
  (remains = None <-> is_Some (open_error env file_path))
  /\ (forall book, remains = Some (XlsxFile book) ->
        book ≠ [] /\ body [] = (Raised e, book)).
Proof.
  unfold with_writer. destruct (open_error env file_path) as [msg |].
  - intros [= <- <-]. split; [split; eauto |]. done.
  - destruct (body []) as [[[] | e'] book0].
    + destruct book0 as [| sheet book0]; [| done].
      intros [= <- <-]. split; [| done]. split; [done | by intros [? ?]].
    + destruct book0 as [| sheet book0]; intros [= <- <-].
      * split; [| done]. split; [done | by intros [? ?]].
      * split; [split; [done | by intros [? ?]] |]. by intros book [= <-].
Qed.

(** ** Direct structuring of a list of mappings *)




(** The conversion of the witness, cell by cell. *)
Lemma list_of_mappings_example :
  write_workbook (demo_env (Returned agent_idle))
    (JList [JDict [("a", JDict [("b", JDict [("c", JScalar (SInt 1))])]);
                   ("e", JScalar (SInt 3))];
            JDict [("d", JScalar (SInt 2)); ("e", JScalar (SInt 4))]])
    "/tmp/agno_xlsx_demo/uuid_data_processed.xlsx"
  = Saved [("Data", [[CHeader "e"; CHeader "a.b.c"; CHeader "d"];
                     [CValue (JScalar (SInt 3)); CValue (JScalar (SInt 1)); CBlank];
                     [CValue (JScalar (SInt 4)); CBlank; CValue (JScalar (SInt 2))]])].
Proof. vm_compute. reflexivity. Qed.

(** ** Direct structuring of scalars and empty containers *)

(** A single frame written under the title ["Data"]. *)
Lemma data_sheet_saved (env : Env) (df : DataFrame) (file_path : string) :
  open_error env file_path = None ->
  sheet_title_error env "Data" = None ->
  keeps_titles env [] ["Data"] = true ->
  accepted env df ->
  with_writer env file_path (to_excel env df "Data") = Saved [("Data", frame_cells df)].
Proof.
  intros Hopen Htitle Hkeeps Haccepted.
  destruct (to_excel_accepts env df "Data" []) as [book Hto]; [done | by right |].
  apply with_writer_wrote; [done | | done].
  rewrite Hto. f_equal. by apply to_excel_kept in Hto as [-> _].
Qed.

Lemma single_pair_cells (key : string) (value : JsonValue) :
  frame_cells (DataFrame_of_records [[(key, value)]]) = [[CHeader key]; [CValue value]].
Proof.
  unfold frame_cells, DataFrame_of_records, union_keys, add_column, cell_of. cbn.
  destruct (decide (key ∈ [])) as [Hin | _]; [by apply elem_of_nil in Hin |].
  cbn. by rewrite decide_True.
Qed.

Lemma scalar_single_cell_sheet (env : Env) (s : Scalar) (file_path : string) :
  open_error env file_path = None ->
  sheet_title_error env "Data" = None ->
  keeps_titles env [] ["Data"] = true ->
  accepted env (DataFrame_of_records [[("value", JScalar s)]]) ->
  write_workbook env (JScalar s) file_path
  = Saved [("Data", [[CHeader "value"]; [CValue (JScalar s)]])].
Proof.
  intros Hopen Htitle Hkeeps Haccepted. unfold write_workbook.
  rewrite data_sheet_saved by done. by rewrite single_pair_cells.
Qed.

Lemma empty_list_empty_sheet (env : Env) (file_path : string) :
  open_error env file_path = None ->
  sheet_title_error env "Data" = None ->
  keeps_titles env [] ["Data"] = true ->
  accepted env empty_frame ->
  write_workbook env (JList []) file_path = Saved [("Data", [[]])].
Proof.
  intros Hopen Htitle Hkeeps Haccepted. unfold write_workbook. cbn [json_normalize].
  by rewrite data_sheet_saved.
Qed.

(** C3, on the code: for the empty mapping the loop over the keys writes no
    sheet, whatever the environment, so the conversion fails for every
    path: when the file can be created, the save of the sheetless workbook
    fails and leaves the unfinished file behind.  [direct_json_to_excel]
    fails with it, and so does a request that ends in the direct
    conversion. *)
Theorem empty_mapping_writes_no_sheet :
  (forall env,
     write_items env [] [] = (Returned tt, [])
     /\ forall file_path,
          (exists e remains, write_workbook env (JDict []) file_path = Failed e remains)
          /\ (open_error env file_path = None ->
              write_workbook env (JDict []) file_path
              = Failed {| exn_class := OtherException;
                          exn_str := "At least one sheet must be visible" |}
                       (Some OtherFile)))
  /\ json_loads (demo_env (Returned agent_idle)) "{}" = Returned (JDict [])
  /\ direct_json_to_excel (demo_env (Returned agent_idle)) "{}" (Some "data") w0
     = (raise_Exception "Direct conversion failed: At least one sheet must be visible",
        write_file "/tmp/agno_xlsx_demo/uuid_data_processed.xlsx" OtherFile
          (set_uuids_drawn 1 w0))
  /\ fst (process_json_data (demo_env (Returned agent_idle)) (demo_request "{}") w0)
     = Respond (failure_response
                  {| exn_class := OtherException;
                     exn_str := "Direct conversion failed: At least one sheet must be visible" |}).
Proof.
  split.
  { intros env. split; [reflexivity |]. intros file_path.
    unfold write_workbook, with_writer. cbn [write_items save].
    destruct (open_error env file_path) as [msg |]; split; eauto; done. }
  split; [reflexivity |]. split; vm_compute; reflexivity.
Qed.

(** ** Direct structuring of a mapping *)

(** One turn of the loop: the frame of the key goes to the sheet
    [sheet_title] names. *)
Lemma write_items_cons (env : Env) (kv : string * JsonValue)
    (rest : list (string * JsonValue)) (book : Workbook) :
  write_items env (kv :: rest) book
  = match frame_of env kv with
    | Raised e => (Raised e, book)
    | Returned df =>
        let '(r, book1) := to_excel env df (sheet_title kv) book in
        match r with
        | Returned _ => write_items env rest book1
        | Raised e => (Raised e, book1)
        end
    end.
Proof.
  destruct kv as [key [s | l | d]]; unfold frame_of, sheet_title;
    cbn [write_items fst snd].
  - reflexivity.
  - by destruct (json_normalize env l).
  - by destruct (json_normalize env [JDict d]).
Qed.

Lemma write_items_step (env : Env) (kv : string * JsonValue)
    (rest : list (string * JsonValue)) (book book' : Workbook) (u : unit) :
  write_items env (kv :: rest) book = (Returned u, book') ->
  exists df book1,
    frame_of env kv = Returned df
    /\ to_excel env df (sheet_title kv) book = (Returned tt, book1)
    /\ write_items env rest book1 = (Returned u, book').
Proof.
  rewrite write_items_cons.
  destruct (frame_of env kv) as [df |]; [| done].
  destruct (to_excel env df (sheet_title kv) book) as [[[] | e] book1] eqn:Hto; [| done].
  intros Hrest. by exists df, book1.
Qed.

(** With the titles kept, sheets are created in the order in which their
    titles are first used. *)
Lemma write_items_keys (env : Env) (items : list (string * JsonValue)) (u : unit) :
  forall book book',
    write_items env items book = (Returned u, book') ->
    keeps_titles env (PyDict.keys book) (map sheet_title items) = true ->
    PyDict.keys book' = fold_left add_column (map sheet_title items) (PyDict.keys book).
Proof.
  induction items as [| kv rest IH]; intros book book' Hwrite Hkeeps.
  - simpl in Hwrite. by injection Hwrite as _ <-.
  - apply write_items_step in Hwrite as (df & book1 & _ & Hto & Hrest).
    cbn [map] in Hkeeps. apply keeps_titles_cons in Hkeeps as [Hfirst Hkeeps].
    apply to_excel_kept in Hto as [-> _]; [| done].
    rewrite (IH _ _ Hrest); rewrite keys_set; done.
Qed.

(** A sheet that no key of the run is written to keeps its cells. *)
Lemma write_items_get_other (env : Env) (items : list (string * JsonValue))
    (title : string) (u : unit) :
  forall book book',
    write_items env items book = (Returned u, book') ->
    keeps_titles env (PyDict.keys book) (map sheet_title items) = true ->
    title ∉ map sheet_title items ->
    PyDict.get title book' = PyDict.get title book.
Proof.
  induction items as [| kv rest IH]; intros book book' Hwrite Hkeeps Hnot.
  - simpl in Hwrite. by injection Hwrite as _ <-.
  - apply write_items_step in Hwrite as (df & book1 & _ & Hto & Hrest).
    cbn [map] in Hkeeps, Hnot. apply keeps_titles_cons in Hkeeps as [Hfirst Hkeeps].
    apply not_elem_of_cons in Hnot as [Hne Hnot].
    apply to_excel_kept in Hto as [-> _]; [| done].
    rewrite (IH _ _ Hrest); [by apply get_set_ne | by rewrite keys_set | done].
Qed.

Lemma write_items_app (env : Env) (pre post : list (string * JsonValue)) (u : unit) :
  forall book book',
    write_items env (pre ++ post) book = (Returned u, book') ->
    exists book1,
      write_items env pre book = (Returned tt, book1)
      /\ write_items env post book1 = (Returned u, book').
Proof.
  induction pre as [| kv pre IH]; intros book book' Hwrite.
  - by exists book.
  - cbn [app] in Hwrite. rewrite write_items_cons in *.
    destruct (frame_of env kv) as [df |]; [| done].
    destruct (to_excel env df (sheet_title kv) book) as [[[] | e] book0]; [| done].
    by apply IH.
Qed.

Lemma keeps_titles_app (env : Env) (pre post : list string) :
  forall names,
    keeps_titles env names (pre ++ post) = true ->
    keeps_titles env names pre = true
    /\ keeps_titles env (fold_left add_column pre names) post = true.
Proof.
  induction pre as [| title pre IH]; intros names Hkeeps; [done |].
  cbn [app] in Hkeeps. apply keeps_titles_cons in Hkeeps as [Hfirst Hkeeps].
  apply IH in Hkeeps as [Hpre Hpost]. split; [| done].
  simpl in *. destruct (decide (title ∈ names)) as [Hin | Hnot].
  - unfold add_column in Hpre. by rewrite decide_True in Hpre.
  - unfold add_column in Hpre. rewrite decide_False in Hpre by done.
    rewrite andb_true_r in Hfirst. by rewrite Hfirst, Hpre.
Qed.

Lemma scalar_title (kv : string * JsonValue) :
  is_scalar kv.2 = true -> sheet_title kv = "Summary".
Proof. destruct kv as [k v]. unfold sheet_title. simpl. by destruct v. Qed.

(** C4, as the code has it.  For a mapping with a scalar-valued key that is
    converted, the workbook library keeping the titles of the keys as they
    are asked for (it renames a sheet whose title equals an earlier one up
    to case), every scalar-valued key is written to the sheet ["Summary"],
    of which the workbook has exactly one.  Sheets stand in the order in
    which their titles are first used along the keys: the Summary sheet
    comes right after the sheets of the keys before the first scalar-valued
    key, and the sheets first used by later keys follow it.  A single
    scalar-valued key leaves its pair as the content of the Summary sheet. *)
Theorem summary_sheet_by_key_order (env : Env) (items : list (string * JsonValue))
    (file_path : string) (book : Workbook) :
  (exists kv, kv ∈ items /\ is_scalar kv.2 = true) ->
  keeps_titles env [] (map sheet_title items) = true ->
  write_workbook env (JDict items) file_path = Saved book ->
  (forall kv, kv ∈ items -> is_scalar kv.2 = true -> sheet_title kv = "Summary")
  /\ PyDict.keys book = fold_left add_column (map sheet_title items) []
  /\ NoDup (PyDict.keys book)
  /\ "Summary" ∈ PyDict.keys book
  /\ (forall pre key value post,
        items = pre ++ (key, value) :: post ->
        is_scalar value = true ->
        "Summary" ∉ map sheet_title pre ->
        (exists rest,
           PyDict.keys book
           = fold_left add_column (map sheet_title pre) [] ++ "Summary" :: rest)
        /\ ("Summary" ∉ map sheet_title post ->
            PyDict.get "Summary" book = Some [[CHeader key]; [CValue value]])).
Proof.
  intros (kv & Hkv & Hscalar) Hkeeps Hwrite.
  unfold write_workbook in Hwrite.
  apply with_writer_saved in Hwrite as (_ & Hitems & _).
  pose proof (write_items_keys env items tt [] book Hitems Hkeeps) as Hkeys.
  simpl in Hkeys.
  split; [intros kv' _; apply scalar_title |]. split; [done |].
  split; [rewrite Hkeys; apply add_columns_NoDup, NoDup_nil_2 |].
  split.
  { rewrite Hkeys, add_columns_elem_of. right.
    rewrite <- (scalar_title kv Hscalar). by apply list_elem_of_fmap_2. }
  intros pre key value post -> Hvalue Hpre. split.
  - rewrite Hkeys, map_app. cbn [map].
    rewrite (scalar_title (key, value)) by done.
    by apply add_columns_first_use.
  - intros Hpost.
    rewrite map_app in Hkeeps. apply keeps_titles_app in Hkeeps as [Hkeeps_pre Hkeeps_rest].
    apply write_items_app in Hitems as (book1 & Hwrite_pre & Hwrite_rest).
    pose proof (write_items_keys env pre tt [] book1 Hwrite_pre Hkeeps_pre) as Hkeys1.
    simpl in Hkeys1. rewrite <- Hkeys1 in Hkeeps_rest.
    apply write_items_step in Hwrite_rest as (df & book2 & Hdf & Hto & Hwrite_post).
    cbn [map] in Hkeeps_rest. apply keeps_titles_cons in Hkeeps_rest as [Hfirst Hkeeps_post].
    rewrite (scalar_title (key, value)) in Hto, Hfirst, Hkeeps_post by done.
    apply to_excel_kept in Hto as [-> _]; [| done].
    rewrite (write_items_get_other env post "Summary" tt _ _ Hwrite_post)
      by (by rewrite ?keys_set).
    rewrite get_set_eq.
    rewrite (write_items_get_other env pre "Summary" tt _ _ Hwrite_pre) by done.
    cbn [PyDict.get default]. rewrite overlay_nil_r.
    destruct value as [s | l | d]; try done.
    unfold frame_of in Hdf. cbn [snd] in Hdf. injection Hdf as <-.
    by rewrite single_pair_cells.
Qed.

Lemma summary_sheet_by_key_order_witness :
  exists rest,
    PyDict.keys [("Summary", [[CHeader "a"]; [CValue (JScalar (SInt 1))]]); ("b", [[]])]
    = fold_left add_column (map sheet_title []) [] ++ "Summary" :: rest.
Proof.
  destruct (summary_sheet_by_key_order (demo_env (Returned agent_idle))
              [("a", JScalar (SInt 1)); ("b", JList [])]
              "/tmp/agno_xlsx_demo/uuid_data_processed.xlsx"
              [("Summary", [[CHeader "a"]; [CValue (JScalar (SInt 1))]]); ("b", [[]])])
    as (_ & _ & _ & _ & Hplace).
  - exists ("a", JScalar (SInt 1)). split; [by left | reflexivity].
  - vm_compute; reflexivity.
  - vm_compute; reflexivity.
  - apply (Hplace [] "a" (JScalar (SInt 1)) [("b", JList [])]).
    + reflexivity.
    + reflexivity.
    + simpl. apply not_elem_of_nil.
Defined.

(** C4 as stated fails.  With a scalar-valued key before a list-valued one
    the Summary sheet precedes the list's sheet; with two scalar-valued
    keys the second write lands on the cells of the first, and the pair of
    the first key is not in the sheet. *)
Lemma summary_sheet_not_last_nor_shared :
  write_workbook (demo_env (Returned agent_idle))
    (JDict [("a", JScalar (SInt 1)); ("b", JList [])])
    "/tmp/agno_xlsx_demo/uuid_data_processed.xlsx"
  = Saved [("Summary", [[CHeader "a"]; [CValue (JScalar (SInt 1))]]); ("b", [[]])]
  /\ write_workbook (demo_env (Returned agent_idle))
       (JDict [("a", JScalar (SInt 1)); ("b", JScalar (SInt 2))])
       "/tmp/agno_xlsx_demo/uuid_data_processed.xlsx"
     = Saved [("Summary", [[CHeader "b"]; [CValue (JScalar (SInt 2))]])].
Proof. split; vm_compute; reflexivity. Qed.

(** Where the titles are not kept: a key named like the Summary sheet up
    to case takes the title first, the sheet of the scalar-valued key is
    renamed, and the workbook has no sheet titled ["Summary"]. *)
Lemma case_clash_renames_sheet :
  keeps_titles (demo_env (Returned agent_idle)) []
    (map sheet_title [("summary", JList []); ("a", JScalar (SInt 1))]) = false
  /\ write_workbook (demo_env (Returned agent_idle))
       (JDict [("summary", JList []); ("a", JScalar (SInt 1))])
       "/tmp/agno_xlsx_demo/uuid_data_processed.xlsx"
     = Saved [("summary", [[]]);
              ("Summary1", [[CHeader "a"]; [CValue (JScalar (SInt 1))]])].
Proof. split; vm_compute; reflexivity. Qed.

(** ** The fallback of the request handler *)

(** An error of the producer never leaves [convert_json_with_agno] as it
    is: a recursion error becomes the direct-conversion signal, any other
    one is wrapped. *)
Lemma agno_except_cases {A} (e : Exn) :
  (exn_class e = RecursionError /\ @agno_except A e = Returned None)
  \/ (exn_class e ≠ RecursionError
      /\ @agno_except A e = raise_Exception ("Agno AI processing failed: " +:+ exn_str e)).
Proof. unfold agno_except. destruct (exn_class e); [right | left | right]; done. Qed.

(** The answer of a direct conversion: the response built from what
    [direct_json_to_excel] returns, with the note; or its exception. *)
Lemma direct_conversion_returned (env : Env) (request : ProcessRequest.t) (note : string)
    (w1 w2 : World) (file_id xlsx_name file_path : string) :
  direct_json_to_excel env (ProcessRequest.json_data request)
    (ProcessRequest.file_name request) w1
  = (Returned (file_id, xlsx_name, file_path), w2) ->
  direct_conversion env request note w1
  = (Returned (success_response file_id xlsx_name (Some note)),
     store_file_info file_id file_path xlsx_name (ProcessRequest.json_data request) w2).
Proof. intros Hdirect. unfold direct_conversion. by rewrite Hdirect. Qed.

Lemma direct_conversion_raised (env : Env) (request : ProcessRequest.t) (note : string)
    (w1 w2 : World) (e : Exn) :
  direct_json_to_excel env (ProcessRequest.json_data request)
    (ProcessRequest.file_name request) w1 = (Raised e, w2) ->
  direct_conversion env request note w1 = (Raised e, w2).
Proof. intros Hdirect. unfold direct_conversion. by rewrite Hdirect. Qed.

(** C2, as the code has it.  For a payload that parses, when the delegated
    path raises, or returns a response without a new workbook file in the
    directory, the handler's answer is the one of the direct conversion of
    the same payload, with a note naming the fallback: the success response
    of that conversion when it succeeds (the same response as on the direct
    path, the note apart), and a failure response when the direct conversion
    itself raises.  On the direct-conversion signal the direct conversion
    is what answers; when it raises there, the handler falls back on it
    once more, in the world the failed attempt has left, and that second
    conversion answers as in the other cases. *)
Theorem delegation_failure_falls_back_to_direct (env : Env) (request : ProcessRequest.t)
    (w : World) (data : JsonValue) :
  json_loads env (ProcessRequest.json_data request) = Returned data ->
  let json_data := ProcessRequest.json_data request in
  let file_name := ProcessRequest.file_name request in
  let converted :=
    convert_json_with_agno env json_data file_name (ProcessRequest.description request)
      (ProcessRequest.api_key request) (ProcessRequest.model request) w in
  (forall e w1,
     converted = (Raised e, w1) ->
     process_json_data env request w
     = respond (direct_conversion env request
                  ("Fallback conversion used due to: " +:+ exn_str e) w1))
  /\ (forall ai_response w1,
        converted = (Returned (Some ai_response), w1) ->
        xlsx_files env (fs w1) ∖ xlsx_files env (fs w) = ∅ ->
        process_json_data env request w
        = respond (direct_conversion env request
                     "Direct conversion used - AI did not create output file" w1))
  /\ (forall w1 w2 file_id xlsx_name file_path,
        converted = (Returned None, w1) ->
        direct_json_to_excel env json_data file_name w1
        = (Returned (file_id, xlsx_name, file_path), w2) ->
        process_json_data env request w
        = respond (direct_conversion env request
                     "Direct conversion used for large JSON data" w1))
  /\ (forall w1 w2 e,
        converted = (Returned None, w1) ->
        direct_json_to_excel env json_data file_name w1 = (Raised e, w2) ->
        process_json_data env request w
        = respond (direct_conversion env request
                     ("Fallback conversion used due to: " +:+ exn_str e) w2))
  /\ (forall note w1 w2 file_id xlsx_name file_path,
        direct_json_to_excel env json_data file_name w1
        = (Returned (file_id, xlsx_name, file_path), w2) ->
        respond (direct_conversion env request note w1)
        = (Respond (success_response file_id xlsx_name (Some note)),
           store_file_info file_id file_path xlsx_name json_data w2)
        /\ ProcessResponse.success (success_response file_id xlsx_name (Some note)) = true)
  /\ (forall note w1 w2 e,
        direct_json_to_excel env json_data file_name w1 = (Raised e, w2) ->
        respond (direct_conversion env request note w1)
        = (Respond (failure_response e), w2)).
Proof.
  intros Hloads. cbv zeta.
  split; [| split; [| split; [| split; [| split]]]].
  - intros e w1 Hconverted. unfold process_json_data.
    rewrite Hloads. cbv zeta. rewrite Hconverted. unfold respond.
    by destruct (direct_conversion env request _ w1) as [[response | e'] w2].
  - intros ai_response w1 Hconverted Hnone. unfold process_json_data.
    rewrite Hloads. cbv zeta. rewrite Hconverted. unfold collect_new_file. cbv zeta.
    rewrite Hnone, elements_empty. cbn [newest fold_left]. unfold respond.
    by destruct (direct_conversion env request _ w1) as [[response | e'] w2].
  - intros w1 w2 file_id xlsx_name file_path Hconverted Hdirect. unfold process_json_data.
    rewrite Hloads. cbv zeta. rewrite Hconverted.
    by rewrite (direct_conversion_returned _ _ _ _ _ _ _ _ Hdirect).
  - intros w1 w2 e Hconverted Hdirect. unfold process_json_data.
    rewrite Hloads. cbv zeta. rewrite Hconverted.
    rewrite (direct_conversion_raised _ _ _ _ _ _ Hdirect). unfold respond.
    by destruct (direct_conversion env request _ w2) as [[response | e'] w3].
  - intros note w1 w2 file_id xlsx_name file_path Hdirect.
    by rewrite (direct_conversion_returned _ _ _ _ _ _ _ _ Hdirect).
  - intros note w1 w2 e Hdirect.
    by rewrite (direct_conversion_raised _ _ _ _ _ _ Hdirect).
Qed.

Lemma delegation_failure_falls_back_to_direct_witness :
  process_json_data (demo_env (Returned agent_broken)) (demo_request "[]") w0
  = respond (direct_conversion (demo_env (Returned agent_broken)) (demo_request "[]")
               "Fallback conversion used due to: Agno AI processing failed: quota exceeded"
               w0)
  /\ process_json_data (demo_env (Returned agent_idle)) (demo_request "[]") w0
     = respond (direct_conversion (demo_env (Returned agent_idle)) (demo_request "[]")
                  "Direct conversion used - AI did not create output file" w0)
  /\ exists e w2,
       direct_json_to_excel (demo_env (Returned agent_idle)) (padded (Z.to_nat 99999))
         (Some (tally 300)) w0 = (Raised e, w2)
       /\ process_json_data (demo_env (Returned agent_idle))
            (long_name_request (padded (Z.to_nat 99999))) w0
          = respond (direct_conversion (demo_env (Returned agent_idle))
                       (long_name_request (padded (Z.to_nat 99999)))
                       ("Fallback conversion used due to: " +:+ exn_str e) w2).
Proof.
  split; [| split].
  - apply (proj1 (delegation_failure_falls_back_to_direct
                    (demo_env (Returned agent_broken)) (demo_request "[]") w0 (JList [])
                    eq_refl)
             {| exn_class := OtherException;
                exn_str := "Agno AI processing failed: quota exceeded" |} w0).
    vm_compute; reflexivity.
  - apply (proj1 (proj2 (delegation_failure_falls_back_to_direct
                           (demo_env (Returned agent_idle)) (demo_request "[]") w0 (JList [])
                           eq_refl))
             "Done." w0).
    + vm_compute; reflexivity.
    + vm_compute; reflexivity.
  - eexists _, _. split; [vm_compute; reflexivity |].
    apply (proj1 (proj2 (proj2 (proj2 (delegation_failure_falls_back_to_direct
                                         (demo_env (Returned agent_idle))
                                         (long_name_request (padded (Z.to_nat 99999))) w0
                                         (JList []) ltac:(vm_compute; reflexivity)))))
             w0).
    + vm_compute; reflexivity.
    + vm_compute; reflexivity.
Defined.

(** C2 as stated fails.  The payload [{"a/b": []}] parses and the
    producer fails (or writes no file); the direct conversion then asks for
    a sheet titled [a/b], which the workbook library refuses, and the
    answer is a failure.  So it is for any payload when the file name of
    the request is longer than the file system allows: the workbook file
    cannot be created. *)
Lemma delegation_failure_can_end_in_failure :
  json_loads (demo_env (Returned agent_broken)) slash_payload
  = Returned (JDict [("a/b", JList [])])
  /\ fst (convert_json_with_agno (demo_env (Returned agent_broken)) slash_payload
            (Some "data") (Some "") "key" (Some "gemini-2.0-flash") w0)
     = raise_Exception "Agno AI processing failed: quota exceeded"
  /\ fst (process_json_data (demo_env (Returned agent_broken)) (demo_request slash_payload) w0)
     = Respond (failure_response
                  {| exn_class := OtherException;
                     exn_str := "Direct conversion failed: "
                                +:+ "Invalid character / found in sheet title" |})
  /\ fst (process_json_data (demo_env (Returned agent_idle)) (demo_request slash_payload) w0)
     = Respond (failure_response
                  {| exn_class := OtherException;
                     exn_str := "Direct conversion failed: "
                                +:+ "Invalid character / found in sheet title" |})
  /\ json_loads (demo_env (Returned agent_broken)) "[]" = Returned (JList [])
  /\ ProcessResponse.success
       <$> (match fst (process_json_data (demo_env (Returned agent_broken))
                         (long_name_request "[]") w0) with
            | Respond response => Some response
            | HTTPException _ _ => None
            end) = Some false.
Proof. repeat split; vm_compute; reflexivity. Qed.

(** * Further properties of the module *)

(** ** More on Python dicts *)

Section PyDictMore.
Context {V : Type}.
Implicit Types (d : list (string * V)) (k : string).

Lemma del_filter k d : PyDict.del k d = filter (fun kv => kv.1 ≠ k) d.
Proof.
  induction d as [| [k' v] d IH]; simpl; [done |].
  destruct (decide (k' = k)) as [-> | Hne].
  - by rewrite filter_cons_False by (simpl; auto).
  - rewrite filter_cons_True by done. by rewrite IH.
Qed.

Lemma keys_del k d :
  PyDict.keys (PyDict.del k d) = filter (fun k' => k' ≠ k) (PyDict.keys d).
Proof.
  unfold PyDict.keys. induction d as [| [k' v] d IH]; [done |].
  cbn [PyDict.del]. rewrite (fmap_cons fst). cbn [fst].
  destruct (decide (k' = k)) as [-> | Hne].
  - rewrite filter_cons_False by auto. exact IH.
  - rewrite filter_cons_True by done. rewrite (fmap_cons fst). cbn [fst]. by rewrite IH.
Qed.

Lemma NoDup_keys_del k d : NoDup (PyDict.keys d) -> NoDup (PyDict.keys (PyDict.del k d)).
Proof. intros Hnodup. rewrite keys_del. by apply NoDup_filter. Qed.

Lemma NoDup_keys_set k (v : V) d :
  NoDup (PyDict.keys d) -> NoDup (PyDict.keys (PyDict.set k v d)).
Proof.
  intros Hnodup. rewrite keys_set.
  change (add_column (PyDict.keys d) k) with (fold_left add_column [k] (PyDict.keys d)).
  by apply add_columns_NoDup.
Qed.

Lemma filter_ext_elem {A} (P Q : A -> Prop) `{!∀ x, Decision (P x)} `{!∀ x, Decision (Q x)}
    (l : list A) :
  (forall x, x ∈ l -> P x <-> Q x) -> filter P l = filter Q l.
Proof.
  induction l as [| x l IH]; intros Heq; [done |].
  rewrite !filter_cons.
  assert (Hx : P x <-> Q x) by (apply Heq; by left).
  rewrite IH by (intros y Hy; apply Heq; by right).
  destruct (decide (P x)), (decide (Q x)); tauto.
Qed.

Lemma fold_del_filter (ks : list string) d :
  fold_left (fun acc k => PyDict.del k acc) ks d = filter (fun kv => kv.1 ∉ ks) d.
Proof.
  revert d. induction ks as [| k ks IH]; intros d; simpl.
  - induction d as [| kv d IHd]; [done |].
    rewrite filter_cons_True by apply not_elem_of_nil. by rewrite <- IHd.
  - rewrite IH, del_filter, list_filter_filter.
    apply filter_ext_elem. intros kv _. rewrite not_elem_of_cons. tauto.
Qed.
End PyDictMore.

(** ** Eviction *)

Lemma expired_files_filter (w : World) :
  filter (fun kv => (clock w - FileInfo.created_at kv.2 >? one_hour) = true) (temp_files w)
  = filter (expired (clock w)) (temp_files w).
Proof.
  apply filter_ext_elem. intros kv _. unfold expired.
  destruct (Z.gtb_spec (clock w - FileInfo.created_at kv.2) one_hour); split; (done || lia).
Qed.

Lemma remove_expired_spec (entries : list (string * FileInfo.t)) :
  forall w : World,
    NoDup (PyDict.keys entries) ->
    (forall id info, (id, info) ∈ entries -> PyDict.get id (temp_files w) = Some info) ->
    let w' := remove_expired (PyDict.keys entries) w in
    temp_files w'
    = fold_left (fun acc k => PyDict.del k acc) (PyDict.keys entries) (temp_files w)
    /\ clock w' = clock w
    /\ uuids_drawn w' = uuids_drawn w
    /\ (forall p, fs w' !! p
                  = swept (fs w) (map (fun kv => FileInfo.path kv.2) entries) p).
Proof.
  induction entries as [| [id info] entries IH]; intros w Hnodup Hget; cbv zeta.
  - simpl. by repeat split.
  - unfold PyDict.keys in *. cbn [fmap list_fmap fst remove_expired].
    apply NoDup_cons in Hnodup as [Hfresh Hnodup].
    rewrite (Hget id info) by (by left).
    set (w1 := if os_path_exists (fs w) (FileInfo.path info) then _ else w).
    assert (Hw1 : temp_files w1 = temp_files w /\ clock w1 = clock w
                  /\ uuids_drawn w1 = uuids_drawn w
                  /\ forall p, fs w1 !! p = swept (fs w) [FileInfo.path info] p).
    { subst w1. unfold os_path_exists, os_remove, swept.
      destruct (fs w !! FileInfo.path info) as [f |] eqn:Hlookup.
      - rewrite bool_decide_true by eauto.
        destruct (protected f) eqn:Hprot; simpl.
        + repeat split. intros p. case_decide as Hin; [| done].
          apply list_elem_of_singleton in Hin as ->. by rewrite Hlookup, Hprot.
        + repeat split. intros p. case_decide as Hin.
          * apply list_elem_of_singleton in Hin as ->.
            by rewrite lookup_delete_eq, Hlookup, Hprot.
          * rewrite lookup_delete_ne; [done |].
            intros <-. apply Hin. by apply list_elem_of_singleton.
      - rewrite bool_decide_false by (by intros [? ?]).
        repeat split. intros p. case_decide as Hin; [| done].
        apply list_elem_of_singleton in Hin as ->. by rewrite Hlookup. }
    destruct Hw1 as (Hreg1 & Hclock1 & Huuid1 & Hfs1).
    set (w2 := set_temp_files (PyDict.del id (temp_files w1)) w1).
    destruct (IH w2) as (Hreg & Hclock & Huuid & Hfs); [done | |].
    { intros id' info' Hin. subst w2; simpl. rewrite Hreg1.
      rewrite get_del_ne; [apply Hget; by right |].
      intros <-. apply Hfresh. by apply (list_elem_of_fmap_2 fst) in Hin. }
    split; [| split; [| split]].
    + rewrite Hreg. subst w2; simpl. by rewrite Hreg1.
    + by rewrite Hclock.
    + by rewrite Huuid.
    + intros p. rewrite Hfs. subst w2; cbn [fs set_temp_files map snd].
      unfold swept in *. rewrite Hfs1.
      repeat case_decide; split_paths;
        repeat match goal with
               | H : _ ∈ [_] |- _ => apply list_elem_of_singleton in H as ->
               | H : ?x ∉ [?x] |- _ => exfalso; apply H; by apply list_elem_of_singleton
               | H : _ ∈ [] |- _ => by apply elem_of_nil in H
               end; try done;
        destruct (fs w !! _) as [f |] eqn:Hlookup; try done;
        destruct (protected f) eqn:Hprot; try done;
        rewrite ?Hlookup, ?Hprot; done.
Qed.

Section PyDictFilter.
Context {V : Type}.
Implicit Types (d : list (string * V)) (k : string).

Lemma keys_filter_subseteq (P : string * V -> Prop) `{!∀ x, Decision (P x)} d :
  PyDict.keys (filter P d) ⊆ PyDict.keys d.
Proof.
  intros k (kv & -> & Hin)%list_elem_of_fmap.
  apply list_elem_of_filter in Hin as [_ Hin]. by apply (list_elem_of_fmap_2 fst).
Qed.

Lemma NoDup_keys_filter (P : string * V -> Prop) `{!∀ x, Decision (P x)} d :
  NoDup (PyDict.keys d) -> NoDup (PyDict.keys (filter P d)).
Proof.
  unfold PyDict.keys. induction d as [| kv d IH]; [done |].
  rewrite (fmap_cons fst). intros [Hfresh Hnodup]%NoDup_cons.
  rewrite filter_cons. destruct (decide (P kv)); [| by apply IH].
  rewrite (fmap_cons fst). apply NoDup_cons. split; [| by apply IH].
  intros Hin. by apply Hfresh, (keys_filter_subseteq P d).
Qed.

Lemma get_filter (P : string * V -> Prop) `{!∀ x, Decision (P x)} k (v : V) d :
  NoDup (PyDict.keys d) ->
  PyDict.get k d = Some v ->
  PyDict.get k (filter P d) = if decide (P (k, v)) then Some v else None.
Proof.
  intros Hnodup Hget. apply get_Some_elem_of in Hget as Hin.
  destruct (decide (P (k, v))) as [HP | HnP].
  - apply elem_of_get; [by apply NoDup_keys_filter |].
    by apply list_elem_of_filter.
  - destruct (PyDict.get k (filter P d)) as [v' |] eqn:Hget'; [| done].
    apply get_Some_elem_of, list_elem_of_filter in Hget' as [HP Hin'].
    apply (elem_of_get _ _ _ Hnodup) in Hin'. congruence.
Qed.

(** Deleting the keys of the entries that satisfy [P] leaves the others. *)
Lemma fold_del_keys_filter (P : string * V -> Prop) `{!∀ x, Decision (P x)} d :
  NoDup (PyDict.keys d) ->
  fold_left (fun acc k => PyDict.del k acc) (PyDict.keys (filter P d)) d
  = filter (fun kv => ¬ P kv) d.
Proof.
  intros Hnodup. rewrite fold_del_filter. apply filter_ext_elem.
  intros [k v] Hin. cbn [fst]. split.
  - intros Hnot HP. apply Hnot.
    apply (list_elem_of_fmap_2 fst (filter P d) (k, v)). by apply list_elem_of_filter.
  - intros HnP (kv' & Hk & Hin')%list_elem_of_fmap.
    destruct kv' as [k' v']. cbn [fst] in Hk. subst k'.
    apply list_elem_of_filter in Hin' as [HP Hin'].
    apply (elem_of_get _ _ _ Hnodup) in Hin, Hin'. congruence.
Qed.
End PyDictFilter.

(** X1.  The sweep drops from the registry exactly the entries that are
    older than one hour and keeps the others as they are, in their order;
    an entry of exactly one hour is kept.  An evicted id is then answered
    like an unknown one. *)
Theorem cleanup_expired_files_registry (w : World) :
  NoDup (PyDict.keys (temp_files w)) ->
  let w' := cleanup_expired_files w in
  temp_files w'
  = filter (fun kv => clock w - FileInfo.created_at kv.2 <= one_hour) (temp_files w)
  /\ (forall id info,
        PyDict.get id (temp_files w) = Some info ->
        (clock w - FileInfo.created_at info > one_hour ->
           PyDict.get id (temp_files w') = None
           /\ download_file id w' = (HTTPException 404 "File not found or expired", w'))
        /\ (clock w - FileInfo.created_at info <= one_hour ->
              PyDict.get id (temp_files w') = Some info))
  /\ clock w' = clock w
  /\ NoDup (PyDict.keys (temp_files w')).
Proof.
  intros Hnodup. cbv zeta. unfold cleanup_expired_files. cbv zeta.
  rewrite expired_files_filter.
  destruct (remove_expired_spec (filter (expired (clock w)) (temp_files w)) w)
    as (Hreg & Hclock & _ & _).
  { by apply NoDup_keys_filter. }
  { intros id info [_ Hin]%list_elem_of_filter. by apply elem_of_get. }
  rewrite fold_del_keys_filter in Hreg by done.
  assert (Hreg' : temp_files
                    (remove_expired
                       (PyDict.keys (filter (expired (clock w)) (temp_files w))) w)
                  = filter (fun kv => clock w - FileInfo.created_at kv.2 <= one_hour)
                           (temp_files w)).
  { rewrite Hreg. apply filter_ext_elem. intros kv _. unfold expired. lia. }
  split; [done |]. split; [| split; [done |]].
  - intros id info Hget. split.
    + intros Hold.
      assert (Hgone : PyDict.get id
                        (temp_files
                           (remove_expired
                              (PyDict.keys (filter (expired (clock w)) (temp_files w))) w))
                      = None).
      { rewrite Hreg', (get_filter _ id info) by done.
        rewrite decide_False; [done |]. simpl. lia. }
      split; [done |]. by apply download_file_unregistered.
    + intros Hyoung. rewrite Hreg', (get_filter _ id info) by done.
      by rewrite decide_True.
  - rewrite Hreg'. by apply NoDup_keys_filter.
Qed.

Lemma cleanup_expired_files_registry_witness :
  temp_files (cleanup_expired_files w_aged)
  = filter (fun kv => clock w_aged - FileInfo.created_at kv.2 <= one_hour)
           (temp_files w_aged)
  /\ PyDict.get "new" (temp_files (cleanup_expired_files w_aged))
     = Some (info_at "/tmp/agno_xlsx_demo/new_data_processed.xlsx" 4000).
Proof.
  assert (Hnodup : NoDup (PyDict.keys (temp_files w_aged))).
  { refine (bool_decide_unpack (NoDup (PyDict.keys (temp_files w_aged))) _).
    vm_compute. exact I. }
  destruct (cleanup_expired_files_registry w_aged Hnodup) as (Hreg & Hget & _).
  split; [exact Hreg |].
  apply (Hget "new" (info_at "/tmp/agno_xlsx_demo/new_data_processed.xlsx" 4000)).
  - reflexivity.
  - vm_compute. congruence.
Defined.

(** X2.  On the disk the sweep deletes the files of the evicted entries,
    except those whose deletion fails: such a file stays although its entry
    is gone.  Every other file is left alone, and no file appears. *)
Theorem cleanup_expired_files_disk (w : World) :
  NoDup (PyDict.keys (temp_files w)) ->
  let w' := cleanup_expired_files w in
  let evicted :=
    map (fun kv => FileInfo.path kv.2)
        (filter (fun kv => clock w - FileInfo.created_at kv.2 > one_hour) (temp_files w)) in
  forall p,
    (forall f, fs w !! p = Some f -> p ∈ evicted -> protected f = false ->
               fs w' !! p = None)
    /\ (forall f, fs w !! p = Some f -> p ∈ evicted -> protected f = true ->
                  fs w' !! p = Some f)
    /\ (p ∉ evicted -> fs w' !! p = fs w !! p)
    /\ (fs w !! p = None -> fs w' !! p = None).
Proof.
  intros Hnodup. cbv zeta. unfold cleanup_expired_files. cbv zeta.
  rewrite expired_files_filter.
  destruct (remove_expired_spec (filter (expired (clock w)) (temp_files w)) w)
    as (_ & _ & _ & Hfs).
  { by apply NoDup_keys_filter. }
  { intros id info [_ Hin]%list_elem_of_filter. by apply elem_of_get. }
  intros p. rewrite Hfs. unfold swept, expired.
  repeat split.
  - intros f Hf Hin Hfree. rewrite decide_True by done. by rewrite Hf, Hfree.
  - intros f Hf Hin Hprot. rewrite decide_True by done. by rewrite Hf, Hprot.
  - intros Hnot. by rewrite decide_False.
  - intros Hnone. case_decide; [by rewrite Hnone | done].
Qed.

Lemma cleanup_expired_files_disk_witness :
  fs (cleanup_expired_files w_aged) !! "/tmp/agno_xlsx_demo/old_data_processed.xlsx" = None
  /\ fs (cleanup_expired_files w_aged) !! "/tmp/agno_xlsx_demo/kept_data_processed.xlsx"
     = Some (plain_file true).
Proof.
  assert (Hnodup : NoDup (PyDict.keys (temp_files w_aged))).
  { refine (bool_decide_unpack (NoDup (PyDict.keys (temp_files w_aged))) _).
    vm_compute. exact I. }
  split.
  - eapply (proj1 (cleanup_expired_files_disk w_aged Hnodup _)).
    + vm_compute; reflexivity.
    + vm_compute. by left.
    + reflexivity.
  - eapply (proj1 (proj2 (cleanup_expired_files_disk w_aged Hnodup _))).
    + vm_compute; reflexivity.
    + vm_compute. right. by left.
    + reflexivity.
Defined.

(** ** Clearing, in general *)

Lemma cleanup_all_files_without_errors_witness :
  exists n w',
    cleanup_all_files w_mixed = (CleanedUp n, w')
    /\ temp_files w' = []
    /\ n = Z.of_nat (size (fs w_mixed)) - Z.of_nat (size (fs w'))
    /\ (forall p, fs w' !! p
                  = if decide (p ∈ map (fun kv => FileInfo.path kv.2) (temp_files w_mixed))
                    then None else fs w_mixed !! p).
Proof.
  apply (cleanup_all_files_without_errors w_mixed).
  intros kv f Hin Hf.
  apply elem_of_cons in Hin as [-> | Hin].
  - vm_compute in Hf. by injection Hf as <-.
  - apply elem_of_cons in Hin as [-> | Hin]; [| by apply elem_of_nil in Hin].
    vm_compute in Hf. discriminate.
Defined.

Lemma cleanup_loop_app (pre rest : list (string * FileInfo.t)) :
  forall (files_deleted : Z) (w : World),
    cleanup_loop (pre ++ rest) files_deleted w
    = match cleanup_loop pre files_deleted w with
      | (Returned n, w') => cleanup_loop rest n w'
      | (Raised e, w') => (Raised e, w')
      end.
Proof.
  induction pre as [| [file_id file_info] pre IH]; intros files_deleted w; [done |].
  cbn [app cleanup_loop].
  destruct (os_path_exists (fs w) (FileInfo.path file_info)); [| apply IH].
  destruct (os_remove (FileInfo.path file_info) (fs w)); [apply IH | done].
Qed.

(** X4.  A deletion error ends [cleanup_all_files] where it happens: the
    entries before the failing one are gone with their files, the failing
    entry and all entries after it stay registered with their files, and
    the answer is the error, without the number of files deleted so far. *)
Theorem cleanup_all_files_error (w : World) (pre post : list (string * FileInfo.t))
    (file_id : string) (file_info : FileInfo.t) (f : File) :
  temp_files w = pre ++ (file_id, file_info) :: post ->
  NoDup (PyDict.keys (temp_files w)) ->
  (forall kv f', kv ∈ pre -> fs w !! FileInfo.path kv.2 = Some f' -> protected f' = false) ->
  fs w !! FileInfo.path file_info = Some f ->
  protected f = true ->
  exists w',
    cleanup_all_files w
    = (CleanupError ("[Errno 13] Permission denied: " +:+ FileInfo.path file_info), w')
    /\ temp_files w' = (file_id, file_info) :: post
    /\ (forall p, fs w' !! p
                  = if decide (p ∈ map (fun kv => FileInfo.path kv.2) pre)
                    then None else fs w !! p)
    /\ fs w' !! FileInfo.path file_info = Some f.
Proof.
  intros Hsplit Hnodup Hfree Hlookup Hprot.
  destruct (cleanup_loop_without_errors pre 0 w Hfree) as (n & w1 & Hloop & Hreg & _ & Hfs).
  assert (Hpath : FileInfo.path file_info ∉ map (fun kv => FileInfo.path kv.2) pre).
  { intros (kv & Heq & Hin)%list_elem_of_fmap.
    rewrite Heq in Hlookup. specialize (Hfree kv f Hin Hlookup). congruence. }
  assert (Hstill : fs w1 !! FileInfo.path file_info = Some f).
  { rewrite Hfs. by rewrite decide_False. }
  exists w1. unfold cleanup_all_files. rewrite Hsplit, cleanup_loop_app, Hloop.
  cbn [cleanup_loop]. unfold os_path_exists, os_remove.
  rewrite Hstill, bool_decide_true, Hprot by eauto. cbn.
  split; [done |]. split; [| by split].
  rewrite Hreg, Hsplit, fold_del_filter, filter_app.
  rewrite Hsplit in Hnodup. unfold PyDict.keys in Hnodup.
  rewrite fmap_app in Hnodup. apply NoDup_app in Hnodup as (_ & Hdisjoint & _).
  assert (Hpre : filter (fun kv : string * FileInfo.t => kv.1 ∉ PyDict.keys pre) pre = []).
  { clear. unfold PyDict.keys.
    assert (Hall : forall l : list (string * FileInfo.t),
               (forall kv, kv ∈ l -> kv.1 ∈ pre.*1) ->
               filter (fun kv : string * FileInfo.t => kv.1 ∉ pre.*1) l = []).
    { induction l as [| kv l IH]; intros Hin; [done |].
      rewrite filter_cons_False; [apply IH; intros; apply Hin; by right |].
      intros Hnot. apply Hnot, Hin. by left. }
    apply Hall. intros kv Hin. by apply (list_elem_of_fmap_2 fst). }
  rewrite Hpre. cbn [app].
  assert (Hrest : forall l : list (string * FileInfo.t),
             (forall kv, kv ∈ l -> kv.1 ∉ PyDict.keys pre) ->
             filter (fun kv : string * FileInfo.t => kv.1 ∉ PyDict.keys pre) l = l).
  { induction l as [| kv l IH]; intros Hout; [done |].
    rewrite filter_cons_True by (apply Hout; by left).
    rewrite IH; [done |]. intros; apply Hout; by right. }
  apply Hrest. intros kv Hin Hkey.
  apply (Hdisjoint kv.1 Hkey). by apply (list_elem_of_fmap_2 fst).
Qed.

Lemma cleanup_all_files_error_witness :
  exists w',
    cleanup_all_files w_locked
    = (CleanupError ("[Errno 13] Permission denied: "
                     +:+ "/tmp/agno_xlsx_demo/a_data_processed.xlsx"), w')
    /\ temp_files w' = temp_files w_locked.
Proof.
  destruct (cleanup_all_files_error w_locked []
              [("b", info_of "/tmp/agno_xlsx_demo/b_data_processed.xlsx")]
              "a" (info_of "/tmp/agno_xlsx_demo/a_data_processed.xlsx") (plain_file true))
    as (w' & Hanswer & Hreg & _).
  - reflexivity.
  - refine (bool_decide_unpack (NoDup (PyDict.keys (temp_files w_locked))) _).
    vm_compute. exact I.
  - intros kv f' Hin. by apply elem_of_nil in Hin.
  - vm_compute; reflexivity.
  - reflexivity.
  - exists w'. split; [exact Hanswer | exact Hreg].
Defined.

(** ** What the conversions do to the world *)

Lemma write_workbook_saved (env : Env) (data : JsonValue) (file_path : string)
    (book : Workbook) :
  write_workbook env data file_path = Saved book ->
  book ≠ [] /\ open_error env file_path = None.
Proof.
  unfold write_workbook. destruct data as [s | l | items].
  - by intros (? & _ & ?)%with_writer_saved.
  - destruct (json_normalize env l); [| done]. by intros (? & _ & ?)%with_writer_saved.
  - by intros (? & _ & ?)%with_writer_saved.
Qed.

(** A conversion that fails leaves a file behind unless the file was never
    created: the path was refused, or the frame of a list could not be
    made, which happens before the file is opened. *)
Lemma write_workbook_failed (env : Env) (data : JsonValue) (file_path : string)
    (e : Exn) (remains : option FileContent) :
  write_workbook env data file_path = Failed e remains ->
  remains = None
  <-> is_Some (open_error env file_path)
      \/ exists l, data = JList l /\ json_normalize env l = Raised e.
Proof.
  unfold write_workbook. destruct data as [s | l | items].
  - intros [-> _]%with_writer_failed. split; [by left | by intros [? | (l & [=] & _)]].
  - destruct (json_normalize env l) as [df | e'] eqn:Hnorm.
    + intros [-> _]%with_writer_failed.
      split; [by left | by intros [? | (l' & [= <-] & ?)]; [| congruence]].
    + intros [= <- <-]. split; [| done]. intros _. right. by exists l.
  - intros [-> _]%with_writer_failed. split; [by left | by intros [? | (l & [=] & _)]].
Qed.

Lemma convert_json_with_agno_inv (env : Env) (json_data : string)
    (file_name description : option string) (api_key : string) (model : option string)
    (w w' : World) (r : Outcome (option string)) :
  convert_json_with_agno env json_data file_name description api_key model w = (r, w') ->
  temp_files w' = temp_files w /\ clock w' = clock w.
Proof.
  unfold convert_json_with_agno; cbv zeta.
  destruct (slen json_data >? 100000); [by intros [= <- <-] |].
  destruct (create_agno_agent env api_key model) as [agent | cause];
    [| by intros [= <- <-]].
  destruct (slen json_data >? 50000);
    destruct (agent _ _) as [[content | cause] files]; by intros [= <- <-].
Qed.

Lemma agno_except_relayed (cause : Exn) : relayed (Raised cause) (agno_except cause).
Proof.
  unfold relayed, agno_except, wrapped, raise_Exception.
  destruct (exn_class cause); split; done.
Qed.

(** X5.  [convert_json_with_agno] never touches the registry or the clock
    and draws at most one uuid.  Above 100,000 characters it returns the
    direct-conversion signal and leaves the world alone.  Otherwise its
    outcome is the one of the producer, of its creation or of its run on
    the prompt of the size tier: an answer is returned as it is, a
    recursion error becomes the direct-conversion signal, and any other
    error is raised again as a plain exception whose message is
    ["Agno AI processing failed: "] followed by the message of that
    error. *)
Theorem convert_json_with_agno_effects (env : Env) (json_data : string)
    (file_name description : option string) (api_key : string) (model : option string)
    (w w' : World) (r : Outcome (option string)) :
  convert_json_with_agno env json_data file_name description api_key model w = (r, w') ->
  temp_files w' = temp_files w
  /\ clock w' = clock w
  /\ (uuids_drawn w <= uuids_drawn w' <= S (uuids_drawn w))%nat
  /\ (slen json_data > 100000 -> r = Returned None /\ w' = w)
  /\ (slen json_data <= 100000 ->
      (forall cause,
         create_agno_agent env api_key model = Raised cause ->
         relayed (Raised cause) r /\ w' = w)
      /\ (forall agent,
            create_agno_agent env api_key model = Returned agent ->
            exists prompt w1,
              ((50000 < slen json_data
                /\ let json_file_path :=
                     temp_path env ("temp_" +:+ uuid4 env (uuids_drawn w) +:+ ".json") in
                   prompt = PromptFromFile file_name description json_file_path
                   /\ w1 = write_file json_file_path (TextFile json_data)
                             (set_uuids_drawn (S (uuids_drawn w)) w))
               \/ (slen json_data <= 50000
                   /\ prompt = PromptInline json_data file_name description
                   /\ w1 = w))
              /\ relayed (agent prompt (fs w1)).1 r
              /\ w' = set_fs (agent prompt (fs w1)).2 w1))
  /\ (forall e, r = Raised e ->
        exn_class e = OtherException
        /\ exists cause,
             exn_class cause ≠ RecursionError /\ e = wrapped cause).
Proof.
  assert (Hwrapped : forall cause e, @agno_except string cause = Raised e ->
            exn_class e = OtherException
            /\ exists cause', exn_class cause' ≠ RecursionError /\ e = wrapped cause').
  { intros cause e. unfold agno_except.
    destruct (exn_class cause) eqn:Hclass; try done;
      intros [= <-]; (split; [done |]); exists cause; by rewrite Hclass. }
  unfold convert_json_with_agno; cbv zeta.
  destruct (Z.gtb_spec (slen json_data) 100000) as [Hlarge | Hsmall].
  { intros [= <- <-]. repeat split; (done || lia). }
  destruct (create_agno_agent env api_key model) as [agent | cause].
  2:{ intros [= <- <-]. split; [done |]. split; [done |]. split; [lia |].
      split; [lia |]. split; [| intros e; apply Hwrapped].
      intros _. split; [| done].
      intros cause' [= <-]. split; [apply agno_except_relayed | done]. }
  destruct (Z.gtb_spec (slen json_data) 50000) as [Hmedium | Hshort].
  - destruct (agent _ _) as [[content | cause] files] eqn:Hrun; intros [= <- <-]; simpl;
      (split; [done |]); (split; [done |]); (split; [lia |]); (split; [lia |]).
    + split; [| done]. intros _. split; [done |]. intros agent' [= <-].
      eexists _, _. split; [left; split; [done |]; cbv zeta; by split |].
      unfold write_file. simpl in Hrun |- *. rewrite Hrun. by split.
    + split; [| intros e; apply Hwrapped]. intros _. split; [done |]. intros agent' [= <-].
      eexists _, _. split; [left; split; [done |]; cbv zeta; by split |].
      unfold write_file. simpl in Hrun |- *. rewrite Hrun.
      split; [apply agno_except_relayed | done].
  - destruct (agent _ _) as [[content | cause] files] eqn:Hrun; intros [= <- <-]; simpl;
      (split; [done |]); (split; [done |]); (split; [lia |]); (split; [lia |]).
    + split; [| done]. intros _. split; [done |]. intros agent' [= <-].
      eexists _, _. split; [right; by repeat split |].
      rewrite Hrun. by split.
    + split; [| intros e; apply Hwrapped]. intros _. split; [done |]. intros agent' [= <-].
      eexists _, _. split; [right; by repeat split |].
      rewrite Hrun. split; [apply agno_except_relayed | done].
Qed.

Lemma convert_json_with_agno_effects_witness :
  fst (convert_json_with_agno (demo_env (Returned agent_broken)) "[]"
         (Some "data") None "key" None w_mixed)
  = Raised (wrapped {| exn_class := OtherException; exn_str := "quota exceeded" |})
  /\ fst (convert_json_with_agno (demo_env (Returned agent_deep)) "[]"
            (Some "data") None "key" None w_mixed)
     = Returned None.
Proof.
  split.
  - destruct (convert_json_with_agno_effects (demo_env (Returned agent_broken)) "[]"
                (Some "data") None "key" None w_mixed _ _ (surjective_pairing _))
      as (_ & _ & _ & _ & Hsmall & _).
    destruct (Hsmall ltac:(vm_compute; congruence)) as [_ Hagent].
    destruct (Hagent agent_broken eq_refl) as (prompt & w1 & _ & [_ Hwrap] & _).
    by apply Hwrap.
  - destruct (convert_json_with_agno_effects (demo_env (Returned agent_deep)) "[]"
                (Some "data") None "key" None w_mixed _ _ (surjective_pairing _))
      as (_ & _ & _ & _ & Hsmall & _).
    destruct (Hsmall ltac:(vm_compute; congruence)) as [_ Hagent].
    destruct (Hagent agent_deep eq_refl) as (prompt & w1 & _ & [Hsignal _] & _).
    by apply Hsignal.
Defined.

Lemma direct_json_to_excel_inv (env : Env) (json_data : string)
    (file_name : option string) (w w' : World) (r : Outcome (string * string * string)) :
  direct_json_to_excel env json_data file_name w = (r, w') ->
  temp_files w' = temp_files w
  /\ clock w' = clock w
  /\ match r with
     | Returned (_, _, file_path) => is_Some (fs w' !! file_path)
     | Raised _ => True
     end.
Proof.
  unfold direct_json_to_excel; cbv zeta.
  destruct (json_loads env json_data) as [data | cause]; [| by intros [= <- <-]].
  destruct file_name as [base |]; [| by intros [= <- <-]].
  destruct (write_workbook env data _) as [book | cause [c |]]; intros [= <- <-]; [| done..].
  simpl. rewrite lookup_insert_eq. eauto.
Qed.

(** X6.  [direct_json_to_excel] never touches the registry or the clock.
    When it returns, it has drawn one uuid for the id and written one file,
    a workbook with at least one sheet, at [TEMP_DIR/<id>_<name>], where
    [<name>] is the sanitized base name with its suffix.  When it raises,
    the message starts with ["Direct conversion failed: "], and the disk is
    as before only when the payload did not parse, the file name is
    missing, or the file was never created (its path refused, or the frame
    of a top-level list not made); otherwise what the failed conversion
    wrote is left at [TEMP_DIR/<id>_<name>], and no other file has
    changed. *)
Theorem direct_json_to_excel_effects (env : Env) (json_data : string)
    (file_name : option string) (w w' : World) (r : Outcome (string * string * string)) :
  direct_json_to_excel env json_data file_name w = (r, w') ->
  temp_files w' = temp_files w
  /\ clock w' = clock w
  /\ match r with
     | Returned (file_id, name, file_path) =>
         file_id = uuid4 env (uuids_drawn w)
         /\ uuids_drawn w' = S (uuids_drawn w)
         /\ file_path = temp_path env (file_id +:+ "_" +:+ name)
         /\ exists base data book,
              file_name = Some base
              /\ name = xlsx_filename env base
              /\ json_loads env json_data = Returned data
              /\ write_workbook env data file_path = Saved book
              /\ book ≠ []
              /\ fs w' = <[file_path := {| content := XlsxFile book; mtime := clock w;
                                           protected := false |}]> (fs w)
     | Raised e =>
         exn_class e = OtherException
         /\ (exists msg, exn_str e = "Direct conversion failed: " +:+ msg)
         /\ ((exists cause, json_loads env json_data = Raised cause /\ w' = w)
             \/ (file_name = None /\ fs w' = fs w)
             \/ exists base data cause remains,
                  file_name = Some base
                  /\ json_loads env json_data = Returned data
                  /\ let file_path :=
                       temp_path env (uuid4 env (uuids_drawn w) +:+ "_"
                                      +:+ xlsx_filename env base) in
                     write_workbook env data file_path = Failed cause remains
                     /\ exn_str e = "Direct conversion failed: " +:+ exn_str cause
                     /\ (remains = None <->
                         is_Some (open_error env file_path)
                         \/ exists l, data = JList l /\ json_normalize env l = Raised cause)
                     /\ fs w'
                        = match remains with
                          | Some c =>
                              <[file_path := {| content := c; mtime := clock w;
                                                protected := false |}]> (fs w)
                          | None => fs w
                          end)
     end.
Proof.
  unfold direct_json_to_excel; cbv zeta.
  destruct (json_loads env json_data) as [data | cause] eqn:Hloads.
  2:{ intros [= <- <-]. split; [done |]. split; [done |]. split; [done |].
      split; [by eexists |]. left. by exists cause. }
  destruct file_name as [base |].
  2:{ intros [= <- <-]. split; [done |]. split; [done |]. split; [done |].
      split; [by eexists |]. right. by left. }
  destruct (write_workbook env data _) as [book | cause remains] eqn:Hbook.
  - intros [= <- <-]. simpl. repeat split.
    exists base, data, book. repeat split; try done.
    by apply write_workbook_saved in Hbook as [? _].
  - intros [= <- <-].
    split; [by destruct remains |]. split; [by destruct remains |].
    split; [done |]. split; [by eexists |]. right. right.
    exists base, data, cause, remains. cbv zeta.
    split; [done |]. split; [done |]. split; [done |]. split; [done |].
    split; [by apply (write_workbook_failed env data _ cause) |].
    by destruct remains.
Qed.

Lemma direct_json_to_excel_effects_witness :
  temp_files (snd (direct_json_to_excel (demo_env (Returned agent_idle)) slash_payload
                     (Some "data") w_mixed))
  = temp_files w_mixed
  /\ clock (snd (direct_json_to_excel (demo_env (Returned agent_idle)) "[]"
                   (Some "data") w_mixed))
     = clock w_mixed.
Proof.
  split.
  - eapply (direct_json_to_excel_effects (demo_env (Returned agent_idle)) slash_payload
              (Some "data") w_mixed).
    apply surjective_pairing.
  - eapply (direct_json_to_excel_effects (demo_env (Returned agent_idle)) "[]"
              (Some "data") w_mixed).
    apply surjective_pairing.
Defined.

(** A conversion that fails after the file was created: for the payload
    [{"a/b": []}] the sheet is there, under its default title, when the
    title is refused, and the workbook with that sheet stays on disk. *)
Lemma failed_conversion_leaves_file :
  direct_json_to_excel (demo_env (Returned agent_idle)) slash_payload (Some "data") w0
  = (raise_Exception ("Direct conversion failed: "
                      +:+ "Invalid character / found in sheet title"),
     write_file "/tmp/agno_xlsx_demo/uuid_data_processed.xlsx" (XlsxFile [("Sheet", [])])
       (set_uuids_drawn 1 w0)).
Proof. vm_compute. reflexivity. Qed.

(** ** The answers of the request handler *)

Lemma newest_elem_of (files : gmap string File) (paths : list string) (p : string) :
  newest files paths = Some p -> p ∈ paths.
Proof.
  unfold newest.
  assert (Hgen : forall best,
            fold_left (fun best q =>
                         match best with
                         | None => Some q
                         | Some b => if getmtime files b <? getmtime files q
                                     then Some q else Some b
                         end) paths best = Some p ->
            best = Some p \/ p ∈ paths).
  { induction paths as [| q paths IH]; intros best; simpl; [by left |].
    intros Hfold. apply IH in Hfold as [Hbest | Hin]; [| right; by right].
    destruct best as [b |].
    - destruct (getmtime files b <? getmtime files q).
      + injection Hbest as ->. right. by left.
      + by left.
    - injection Hbest as ->. right. by left. }
  intros Hfold. by apply Hgen in Hfold as [? | ?].
Qed.

Lemma xlsx_files_on_disk (env : Env) (files : gmap string File) (p : string) :
  p ∈ xlsx_files env files -> is_Some (files !! p).
Proof.
  unfold xlsx_files. intros [_ Hdom]%elem_of_filter. by apply elem_of_dom.
Qed.

Lemma direct_conversion_settled (env : Env) (request : ProcessRequest.t) (note : string)
    (w w1 w2 : World) (r : Outcome ProcessResponse.t) :
  temp_files w1 = temp_files w ->
  clock w1 = clock w ->
  direct_conversion env request note w1 = (r, w2) ->
  settled (ProcessRequest.json_data request) w r w2.
Proof.
  intros Hreg Hclock. unfold direct_conversion.
  destruct (direct_json_to_excel _ _ _ w1) as [[[[file_id name] path] | e] w1'] eqn:Hdirect;
    apply direct_json_to_excel_inv in Hdirect as (Hreg' & Hclock' & Hrest);
    intros [= <- <-]; simpl.
  - exists file_id, name, path, note, w1'. repeat split.
    + done.
    + congruence.
    + congruence.
  - split; congruence.
Qed.

Lemma collect_new_file_settled (env : Env) (request : ProcessRequest.t)
    (files_before : gset string) (ai_response : string) (w w1 w2 : World)
    (r : Outcome ProcessResponse.t) :
  temp_files w1 = temp_files w ->
  clock w1 = clock w ->
  collect_new_file env request files_before ai_response w1 = (r, w2) ->
  settled (ProcessRequest.json_data request) w r w2.
Proof.
  intros Hreg Hclock. unfold collect_new_file; cbv zeta.
  destruct (newest (fs w1) _) as [newest_file |] eqn:Hnewest.
  - intros [= <- <-]. simpl.
    apply newest_elem_of, elem_of_elements, elem_of_difference in Hnewest as [Hin _].
    apply xlsx_files_on_disk in Hin as [f Hf].
    eexists _, _, _, _, _. split; [reflexivity |]. split; [reflexivity |].
    split; [| by split].
    simpl. unfold os_rename. rewrite Hf, lookup_insert_eq. eauto.
  - by apply direct_conversion_settled.
Qed.

(** The handler, once the payload has parsed: the answer is the outcome of
    a body that is [settled]. *)
Lemma process_json_data_settled (env : Env) (request : ProcessRequest.t) (w : World)
    (data : JsonValue) :
  json_loads env (ProcessRequest.json_data request) = Returned data ->
  exists r w',
    process_json_data env request w = respond (r, w')
    /\ settled (ProcessRequest.json_data request) w r w'.
Proof.
  intros Hloads. unfold process_json_data. rewrite Hloads. cbv zeta.
  destruct (convert_json_with_agno env _ _ _ _ _ w) as [[[ai_response |] | agno_error] w1]
    eqn:Hconvert;
    apply convert_json_with_agno_inv in Hconvert as (Hreg & Hclock).
  - destruct (collect_new_file env request _ ai_response w1) as [r w2] eqn:Hcollect.
    exists r, w2. split; [by destruct r |].
    by eapply (collect_new_file_settled env request _ ai_response w w1).
  - destruct (direct_conversion env request _ w1) as [[response | agno_error] w2] eqn:Hfirst.
    + exists (Returned response), w2. split; [done |].
      by eapply (direct_conversion_settled env request _ w w1).
    + eapply (direct_conversion_settled env request _ w w1) in Hfirst as [Hreg2 Hclock2];
        [| done..].
      destruct (direct_conversion env request _ w2) as [r w3] eqn:Hsecond.
      exists r, w3. split; [by destruct r |].
      by eapply (direct_conversion_settled env request _ w w2).
  - destruct (direct_conversion env request _ w1) as [r w2] eqn:Hfallback.
    exists r, w2. split; [by destruct r |].
    by eapply (direct_conversion_settled env request _ w w1).
Qed.

(** X7.  The handler raises an HTTP error in one case only: [json.loads]
    rejects the payload with a decode error; the status is 400 and the
    world is untouched.  Every other failure, of the parser or of the
    conversion, is answered with a failure response, and then nothing has
    been registered. *)
Theorem process_json_data_failures (env : Env) (request : ProcessRequest.t) (w : World) :
  (forall status_code detail w',
     process_json_data env request w = (HTTPException status_code detail, w') <->
     exists e,
       json_loads env (ProcessRequest.json_data request) = Raised e
       /\ exn_class e = JSONDecodeError
       /\ status_code = 400
       /\ detail = "Invalid JSON: " +:+ exn_str e
       /\ w' = w)
  /\ (forall response w',
        process_json_data env request w = (Respond response, w') ->
        ProcessResponse.success response = false ->
        temp_files w' = temp_files w
        /\ exists e,
             response = failure_response e
             /\ ProcessResponse.error response = Some ("Processing failed: " +:+ exn_str e)
             /\ ProcessResponse.file_id response = None
             /\ ProcessResponse.download_url response = None).
Proof.
  split.
  - intros status_code detail w'.
    destruct (json_loads env (ProcessRequest.json_data request)) as [data | e] eqn:Hloads.
    + destruct (process_json_data_settled env request w data Hloads) as (r & w2 & -> & _).
      split.
      * destruct r; simpl; done.
      * by intros (e & [=] & _).
    + unfold process_json_data. rewrite Hloads.
      destruct (exn_class e) eqn:Hclass; split.
      * intros [= <- <- <-]. exists e. by repeat split.
      * by intros (e' & [= <-] & _ & -> & -> & ->).
      * done.
      * intros (e' & [= <-] & Hclass' & _). congruence.
      * done.
      * intros (e' & [= <-] & Hclass' & _). congruence.
  - intros response w' Hprocess Hfailed.
    destruct (json_loads env (ProcessRequest.json_data request)) as [data | e] eqn:Hloads.
    + destruct (process_json_data_settled env request w data Hloads)
        as (r & w2 & Hanswer & Hsettled).
      rewrite Hanswer in Hprocess. destruct r as [response' | e]; simpl in *.
      * injection Hprocess as <- <-.
        destruct Hsettled as (file_id & name & path & note & w1 & -> & _). done.
      * injection Hprocess as <- <-. destruct Hsettled as [Hreg _].
        split; [done |]. by exists e.
    + unfold process_json_data in Hprocess. rewrite Hloads in Hprocess.
      destruct (exn_class e); try done; injection Hprocess as <- <-;
        (split; [done |]); by exists e.
Qed.

Lemma process_json_data_failures_witness :
  temp_files (snd (process_json_data (demo_env (Returned agent_broken))
                     (demo_request "{}") w_mixed))
  = temp_files w_mixed.
Proof.
  eapply (proj2 (process_json_data_failures (demo_env (Returned agent_broken))
                   (demo_request "{}") w_mixed)).
  - vm_compute. reflexivity.
  - reflexivity.
Defined.

(** X8.  A success response can be redeemed: its id is registered with the
    response's file name, the time of the request and the preview of the
    payload; the file is on disk; [download_file] on that id answers with
    that file under that name and changes nothing; and [list_files] shows
    the id with the same download reference. *)
Theorem process_then_download (env : Env) (request : ProcessRequest.t) (w w' : World)
    (response : ProcessResponse.t) :
  process_json_data env request w = (Respond response, w') ->
  ProcessResponse.success response = true ->
  exists file_id name path,
    ProcessResponse.file_id response = Some file_id
    /\ ProcessResponse.file_name response = Some name
    /\ ProcessResponse.download_url response = Some ("/download/" +:+ file_id)
    /\ is_Some (ProcessResponse.ai_analysis response)
    /\ ProcessResponse.error response = None
    /\ PyDict.get file_id (temp_files w')
       = Some (file_info_for path name (ProcessRequest.json_data request) w)
    /\ is_Some (fs w' !! path)
    /\ download_file file_id w'
       = (Respond {| FileResponse.path := path; FileResponse.filename := name;
                     FileResponse.media_type := xlsx_media_type |}, w')
    /\ (exists entry,
          entry ∈ list_files w'
          /\ FileEntry.file_id entry = file_id
          /\ FileEntry.filename entry = name
          /\ FileEntry.download_url entry = "/download/" +:+ file_id).
Proof.
  intros Hprocess Hsuccess.
  destruct (json_loads env (ProcessRequest.json_data request)) as [data | e] eqn:Hloads.
  2:{ unfold process_json_data in Hprocess. rewrite Hloads in Hprocess.
      destruct (exn_class e); try done; injection Hprocess as <- <-; done. }
  destruct (process_json_data_settled env request w data Hloads)
    as (r & w2 & Hanswer & Hsettled).
  rewrite Hanswer in Hprocess. destruct r as [response' | e]; simpl in *.
  2:{ injection Hprocess as <- <-. done. }
  injection Hprocess as <- <-.
  destruct Hsettled as (file_id & name & path & note & w1 & -> & -> & Hdisk & Hreg & Hclock).
  exists file_id, name, path.
  assert (Hget : PyDict.get file_id
                   (temp_files (store_file_info file_id path name
                                  (ProcessRequest.json_data request) w1))
                 = Some (file_info_for path name (ProcessRequest.json_data request) w)).
  { unfold store_file_info, file_info_for. simpl. by rewrite get_set_eq, Hclock. }
  split; [done |]. split; [done |]. split; [done |].
  split; [simpl; eauto |]. split; [done |]. split; [exact Hget |].
  split; [exact Hdisk |]. split.
  - unfold download_file. rewrite Hget. simpl.
    unfold os_path_exists. by rewrite bool_decide_true.
  - apply get_Some_elem_of in Hget.
    eexists. split.
    + unfold list_files. apply (list_elem_of_fmap_2 _ _ _ Hget).
    + by repeat split.
Qed.

Lemma process_then_download_witness :
  exists file_id name path,
    PyDict.get file_id
      (temp_files (snd (process_json_data (demo_env (Returned agent_broken))
                          (demo_request "[]") w_mixed)))
    = Some (file_info_for path name "[]" w_mixed)
    /\ download_file file_id
         (snd (process_json_data (demo_env (Returned agent_broken))
                 (demo_request "[]") w_mixed))
       = (Respond {| FileResponse.path := path; FileResponse.filename := name;
                     FileResponse.media_type := xlsx_media_type |},
          snd (process_json_data (demo_env (Returned agent_broken))
                 (demo_request "[]") w_mixed)).
Proof.
  destruct (process_then_download (demo_env (Returned agent_broken)) (demo_request "[]")
              w_mixed
              (snd (process_json_data (demo_env (Returned agent_broken))
                      (demo_request "[]") w_mixed))
              (success_response "uuidii" "data_processed.xlsx"
                 (Some "Fallback conversion used due to: Agno AI processing failed: quota exceeded")))
    as (file_id & name & path & _ & _ & _ & _ & _ & Hget & _ & Hdownload & _).
  - vm_compute. reflexivity.
  - reflexivity.
  - exists file_id, name, path. split; [exact Hget | exact Hdownload].
Defined.

(** X9.  A request changes the registry by at most one entry.  A success
    adds (or, on an id that was already there, replaces) the entry of the
    response's id and leaves every other entry as it was; any other outcome
    leaves the registry untouched.  The keys stay distinct. *)
Theorem process_json_data_registry (env : Env) (request : ProcessRequest.t) (w w' : World)
    (result : HandlerResult ProcessResponse.t) :
  process_json_data env request w = (result, w') ->
  clock w' = clock w
  /\ (NoDup (PyDict.keys (temp_files w)) -> NoDup (PyDict.keys (temp_files w')))
  /\ match result with
     | Respond response =>
         match ProcessResponse.file_id response with
         | Some file_id =>
             PyDict.keys (temp_files w') = add_column (PyDict.keys (temp_files w)) file_id
             /\ (forall other, other ≠ file_id ->
                   PyDict.get other (temp_files w') = PyDict.get other (temp_files w))
         | None => temp_files w' = temp_files w
         end
     | HTTPException _ _ => temp_files w' = temp_files w
     end.
Proof.
  intros Hprocess.
  destruct (json_loads env (ProcessRequest.json_data request)) as [data | e] eqn:Hloads.
  2:{ unfold process_json_data in Hprocess. rewrite Hloads in Hprocess.
      destruct (exn_class e); injection Hprocess as <- <-; done. }
  destruct (process_json_data_settled env request w data Hloads)
    as (r & w2 & Hanswer & Hsettled).
  rewrite Hanswer in Hprocess. destruct r as [response | e]; simpl in *;
    injection Hprocess as <- <-.
  - destruct Hsettled as (file_id & name & path & note & w1 & -> & -> & _ & Hreg & Hclock).
    unfold store_file_info. simpl. rewrite Hreg.
    split; [done |]. split; [apply NoDup_keys_set |].
    split; [apply keys_set |]. intros other Hne. by apply get_set_ne.
  - destruct Hsettled as [Hreg Hclock]. simpl. rewrite Hreg. by repeat split.
Qed.

Lemma process_json_data_registry_witness :
  clock (snd (process_json_data (demo_env (Returned agent_idle)) (demo_request "[]") w_mixed))
  = clock w_mixed.
Proof.
  eapply (process_json_data_registry (demo_env (Returned agent_idle)) (demo_request "[]")
            w_mixed).
  vm_compute. reflexivity.
Defined.

(** ** Previews *)

Lemma length_append (s1 s2 : string) :
  String.length (s1 +:+ s2) = (String.length s1 + String.length s2)%nat.
Proof.
  induction s1 as [| c s1 IH]; [reflexivity |].
  change (String c s1 +:+ s2) with (String c (s1 +:+ s2)). simpl. by rewrite IH.
Qed.

Lemma length_str_take (n : nat) (s : string) :
  String.length (str_take n s) = Nat.min n (String.length s).
Proof.
  unfold str_take. revert s. induction n as [| n IH]; intros [| c s]; simpl; try done.
  by rewrite IH.
Qed.

Lemma str_take_prefix (n : nat) (s : string) : exists rest, s = str_take n s +:+ rest.
Proof.
  unfold str_take. revert s. induction n as [| n IH]; intros [| c s]; simpl.
  - by exists "".
  - by exists (String c s).
  - by exists "".
  - destruct (IH s) as [rest Hrest]. exists rest.
    change (String c (substring 0 n s) +:+ rest) with (String c (substring 0 n s +:+ rest)).
    by rewrite <- Hrest.
Qed.

Lemma str_take_all (n : nat) (s : string) :
  (String.length s <= n)%nat -> str_take n s = s.
Proof.
  unfold str_take. revert s. induction n as [| n IH]; intros [| c s]; simpl; try done.
  - lia.
  - intros Hlen. rewrite IH; [done | lia].
Qed.

(** X10.  The preview stored with an artifact is the payload itself up to
    500 characters, and otherwise its first 500 characters followed by
    three dots: 503 characters, which for a payload of 501 or 502
    characters is more than the payload has. *)
Theorem preview_bounds (json_data : string) :
  (slen json_data <= 500 -> preview json_data = json_data)
  /\ (slen json_data > 500 ->
        preview json_data = str_take 500 json_data +:+ "..."
        /\ slen (preview json_data) = 503
        /\ exists rest, json_data = str_take 500 json_data +:+ rest)
  /\ slen (preview json_data) <= 503.
Proof.
  unfold preview, slen.
  destruct (Z.gtb_spec (Z.of_nat (String.length json_data)) 500) as [Hlong | Hshort].
  - assert (Hlen : String.length (str_take 500 json_data +:+ "...") = 503%nat).
    { rewrite length_append, length_str_take.
      change (String.length "...") with 3%nat. lia. }
    split; [lia |]. split; [| lia].
    intros _. split; [done |]. split; [lia |]. apply str_take_prefix.
  - split; [done |]. split; [lia | lia].
Qed.

Lemma preview_bounds_witness :
  preview (padded 499) = str_take 500 (padded 499) +:+ "..."
  /\ slen (preview (padded 499)) = 503
  /\ exists rest, padded 499 = str_take 500 (padded 499) +:+ rest.
Proof.
  apply (proj1 (proj2 (preview_bounds (padded 499)))).
  vm_compute. reflexivity.
Defined.

(** X11.  [list_files] lists the registry in its order, one entry per
    artifact, each with the download reference of its id.  The preview of
    an entry is the first 100 characters of the stored text followed by
    three dots, whether or not anything was cut: at most 103 characters. *)
Theorem list_files_entries (w : World) :
  length (list_files w) = length (temp_files w)
  /\ map FileEntry.file_id (list_files w) = PyDict.keys (temp_files w)
  /\ (forall entry,
        entry ∈ list_files w ->
        exists file_info,
          (FileEntry.file_id entry, file_info) ∈ temp_files w
          /\ FileEntry.filename entry = FileInfo.filename file_info
          /\ FileEntry.created_at entry = FileInfo.created_at file_info
          /\ FileEntry.download_url entry = "/download/" +:+ FileEntry.file_id entry
          /\ FileEntry.preview entry
             = str_take 100 (FileInfo.original_json file_info) +:+ "..."
          /\ slen (FileEntry.preview entry) <= 103
          /\ (slen (FileInfo.original_json file_info) <= 100 ->
                FileEntry.preview entry = FileInfo.original_json file_info +:+ "...")).
Proof.
  split; [unfold list_files; by rewrite length_map |].
  split; [apply list_files_ids |].
  intros entry Hin. unfold list_files in Hin.
  apply list_elem_of_fmap in Hin as ([file_id file_info] & -> & Hin).
  exists file_info. simpl. repeat split; try done.
  - unfold slen. rewrite length_append, length_str_take.
    change (String.length "...") with 3%nat. lia.
  - unfold slen. intros Hshort. rewrite str_take_all; [done | lia].
Qed.

Lemma list_files_entries_witness :
  exists file_info,
    ("f1", file_info) ∈ temp_files w_stale
    /\ slen (str_take 100 (FileInfo.original_json file_info) +:+ "...") <= 103.
Proof.
  destruct (proj2 (proj2 (list_files_entries w_stale))
              {| FileEntry.file_id := "f1";
                 FileEntry.filename := "f1_data_processed.xlsx";
                 FileEntry.created_at := 900;
                 FileEntry.download_url := "/download/f1";
                 FileEntry.preview := "[]..." |})
    as (file_info & Hin & _ & _ & _ & Hpreview & Hlen & _).
  - vm_compute. by left.
  - exists file_info. split; [exact Hin |]. simpl in Hpreview, Hlen.
    by rewrite <- Hpreview.
Defined.

(** ** Fetching, once more *)

(** X14.  [download_file] never changes the disk or the clock and never
    adds to the registry: at most the entry of the requested id goes, all
    others stay.  Its only error status is 404.  Asking again changes
    nothing more, and the second answer is a file exactly when the first
    one was. *)
Theorem download_file_effects (file_id : string) (w : World) :
  let w' := snd (download_file file_id w) in
  fs w' = fs w
  /\ clock w' = clock w
  /\ (forall other, other ≠ file_id ->
        PyDict.get other (temp_files w') = PyDict.get other (temp_files w))
  /\ PyDict.keys (temp_files w') ⊆ PyDict.keys (temp_files w)
  /\ (NoDup (PyDict.keys (temp_files w)) -> NoDup (PyDict.keys (temp_files w')))
  /\ (forall status_code detail,
        fst (download_file file_id w) = HTTPException status_code detail ->
        status_code = 404)
  /\ snd (download_file file_id w') = w'
  /\ (forall response,
        fst (download_file file_id w) = Respond response <->
        fst (download_file file_id w') = Respond response).
Proof.
  cbv zeta.
  destruct (PyDict.get file_id (temp_files w)) as [file_info |] eqn:Hget.
  - destruct (os_path_exists (fs w) (FileInfo.path file_info)) eqn:Hexists.
    + assert (Hfound : exists response, download_file file_id w = (Respond response, w)).
      { unfold download_file. rewrite Hget, Hexists. simpl. eauto. }
      destruct Hfound as [response' Hfound].
      rewrite Hfound. cbn [fst snd]. rewrite Hfound. cbn [fst snd].
      repeat split; done.
    + set (w' := set_temp_files (PyDict.del file_id (temp_files w)) w).
      assert (Hstale : download_file file_id w
                       = (HTTPException 404 "File not found on disk", w')).
      { unfold download_file. by rewrite Hget, Hexists. }
      assert (Hagain : download_file file_id w'
                       = (HTTPException 404 "File not found or expired", w')).
      { apply download_file_unregistered. apply get_del_eq. }
      rewrite Hstale. cbn [fst snd]. rewrite Hagain. cbn [fst snd].
      split; [done |]. split; [done |].
      split; [intros other Hne; by apply get_del_ne |].
      split; [apply keys_del_subseteq |].
      split; [apply NoDup_keys_del |].
      split; [by intros ? ? [= <- _] |].
      split; [done |]. intros response. split; done.
  - rewrite (download_file_unregistered file_id w Hget). cbn [fst snd].
    rewrite (download_file_unregistered file_id w Hget). cbn [fst snd].
    repeat split; try done. by intros ? ? [= <- _].
Qed.

(** ** Sheets of a mapping, in general *)

Lemma add_columns_length (l init : list string) :
  (length (fold_left add_column l init) <= length init + length l)%nat.
Proof.
  revert init. induction l as [| k l IH]; intros init; simpl; [lia |].
  etrans; [apply IH |]. unfold add_column.
  destruct (decide (k ∈ init)); [lia |]. rewrite length_app. simpl. lia.
Qed.

Lemma sheet_title_length (kv : string * JsonValue) :
  (String.length (sheet_title kv) <= 31)%nat.
Proof.
  unfold sheet_title. destruct kv.2; [simpl; lia | |];
    rewrite length_str_take; lia.
Qed.

(** With the titles kept, the loop runs to its end exactly when every key
    can be written. *)
Lemma write_items_returns_iff (env : Env) (items : list (string * JsonValue)) :
  forall book,
    keeps_titles env (PyDict.keys book) (map sheet_title items) = true ->
    (forall title, title ∈ PyDict.keys book -> sheet_title_error env title = None) ->
    (exists book', write_items env items book = (Returned tt, book'))
    <-> forall kv, kv ∈ items -> writable env kv.
Proof.
  induction items as [| kv rest IH]; intros book Hkeeps Hbook.
  - split; [by intros _ kv Hin%elem_of_nil | intros _; by exists book].
  - cbn [map] in Hkeeps. apply keeps_titles_cons in Hkeeps as [Hfirst Hkeeps]. split.
    + intros [book' Hwrite].
      apply write_items_step in Hwrite as (df & book1 & Hdf & Hto & Hrest).
      pose proof (to_excel_returned _ _ _ _ _ _ Hto) as [Haccepted _].
      apply to_excel_kept in Hto as [-> Htitle]; [| done].
      assert (Hok : sheet_title_error env (sheet_title kv) = None)
        by (destruct Htitle; auto).
      intros kv' [-> | Hin]%elem_of_cons; [by exists df |].
      eapply IH; [| | by exists book' | done].
      * by rewrite keys_set.
      * intros title [? | ->]%elem_of_keys_set; auto.
    + intros Hall. destruct (Hall kv ltac:(by left)) as (df & Hdf & Haccepted & Htitle).
      destruct (to_excel_accepts env df (sheet_title kv) book Haccepted (or_intror Htitle))
        as [book1 Hto].
      pose proof Hto as Hkept. apply to_excel_kept in Hkept as [Hbook1 _]; [| done].
      destruct (proj2 (IH book1 ltac:(by rewrite Hbook1, keys_set)
                         ltac:(rewrite Hbook1; intros title [? | ->]%elem_of_keys_set; auto)))
        as [book' Hrest].
      { intros kv' Hin. apply Hall. by right. }
      exists book'. by rewrite write_items_cons, Hdf, Hto.
Qed.

(** X12.  A mapping that is converted has at least one key.  Its workbook,
    the workbook library keeping the titles as they are asked for, has one
    sheet per distinct title, in the order of first use, where the title
    of a key is ["Summary"] for a scalar value and the first 31 characters
    of the key otherwise: keys with the same title are written to the same
    sheet, no title is longer than 31 characters, and every title was
    accepted by the workbook library. *)
Theorem mapping_sheets (env : Env) (items : list (string * JsonValue))
    (file_path : string) (book : Workbook) :
  keeps_titles env [] (map sheet_title items) = true ->
  write_workbook env (JDict items) file_path = Saved book ->
  items ≠ []
  /\ PyDict.keys book = fold_left add_column (map sheet_title items) []
  /\ NoDup (PyDict.keys book)
  /\ (0 < length book <= length items)%nat
  /\ (forall kv, kv ∈ items ->
        sheet_title kv ∈ PyDict.keys book
        /\ sheet_title_error env (sheet_title kv) = None)
  /\ (forall title, title ∈ PyDict.keys book ->
        (String.length title <= 31)%nat
        /\ exists kv, kv ∈ items /\ title = sheet_title kv).
Proof.
  intros Hkeeps Hwrite. unfold write_workbook in Hwrite.
  apply with_writer_saved in Hwrite as (_ & Hitems & Hsome).
  pose proof (write_items_keys env items tt [] book Hitems Hkeeps) as Hkeys.
  simpl in Hkeys.
  assert (Hlen : length book = length (PyDict.keys book)).
  { unfold PyDict.keys. by rewrite length_fmap. }
  split.
  { intros ->. simpl in Hitems. by injection Hitems as <-. }
  split; [done |].
  split; [rewrite Hkeys; apply add_columns_NoDup, NoDup_nil_2 |].
  split.
  { split; [destruct book; simpl; [done | lia] |].
    rewrite Hlen, Hkeys. etrans; [apply add_columns_length |].
    rewrite length_map. simpl. lia. }
  split.
  - intros kv Hin. split.
    + rewrite Hkeys, add_columns_elem_of. right. by apply list_elem_of_fmap_2.
    + assert (Hall : forall kv', kv' ∈ items -> writable env kv').
      { apply (write_items_returns_iff env items []); [done | | by exists book].
        by intros title Htitle%elem_of_nil. }
      by destruct (Hall kv Hin) as (df & _ & _ & ?).
  - intros title Hin. rewrite Hkeys, add_columns_elem_of in Hin.
    destruct Hin as [Hin | Hin]; [by apply elem_of_nil in Hin |].
    apply list_elem_of_fmap in Hin as (kv & -> & Hin).
    split; [apply sheet_title_length | by exists kv].
Qed.

Lemma mapping_sheets_witness :
  PyDict.keys [("Summary", [[CHeader "a"]; [CValue (JScalar (SInt 1))]]); ("b", [[]])]
  = fold_left add_column
      (map sheet_title [("a", JScalar (SInt 1)); ("b", JList [])]) [].
Proof.
  eapply (mapping_sheets (demo_env (Returned agent_idle))
            [("a", JScalar (SInt 1)); ("b", JList [])]
            "/tmp/agno_xlsx_demo/uuid_data_processed.xlsx").
  - vm_compute. reflexivity.
  - vm_compute. reflexivity.
Defined.

(** X13.  When the file can be created and the workbook library keeps the
    titles, a mapping is converted exactly when it has at least one key
    and every key can be written: its value gives a frame, the libraries
    take the frame (its size, and the content of every cell), and the
    title of the key is not refused.  A key that cannot be written makes
    the whole conversion fail.  A scalar, a nested mapping and a list of
    mappings (the empty list included) always give a frame. *)
Theorem mapping_converts (env : Env) (items : list (string * JsonValue))
    (file_path : string) :
  keeps_titles env [] (map sheet_title items) = true ->
  open_error env file_path = None ->
  ((exists book, write_workbook env (JDict items) file_path = Saved book)
   <-> items ≠ [] /\ forall kv, kv ∈ items -> writable env kv)
  /\ (forall kv,
        kv ∈ items -> ~ writable env kv ->
        exists e remains, write_workbook env (JDict items) file_path = Failed e remains)
  /\ (forall key s,
        frame_of env (key, JScalar s)
        = Returned (DataFrame_of_records [[(key, JScalar s)]]))
  /\ (forall key d,
        frame_of env (key, JDict d) = Returned (DataFrame_of_records [flatten_record d]))
  /\ (forall key l rs,
        all_dicts l = Some rs ->
        frame_of env (key, JList l)
        = Returned (DataFrame_of_records (map flatten_record rs))).
Proof.
  intros Hkeeps Hopen.
  assert (Hloop : (exists book, write_items env items [] = (Returned tt, book))
                  <-> forall kv, kv ∈ items -> writable env kv).
  { apply write_items_returns_iff; [done |]. by intros title Htitle%elem_of_nil. }
  assert (Hiff : (exists book, write_workbook env (JDict items) file_path = Saved book)
                 <-> items ≠ [] /\ forall kv, kv ∈ items -> writable env kv).
  { unfold write_workbook. split.
    - intros [book (_ & Hitems & Hsome)%with_writer_saved]. split.
      + intros ->. simpl in Hitems. by injection Hitems as <-.
      + apply Hloop. by exists book.
    - intros [Hsome [book Hitems]%Hloop]. exists book.
      apply with_writer_wrote; [done | done |].
      pose proof (write_items_keys env items tt [] book Hitems Hkeeps) as Hkeys.
      destruct items as [| kv items]; [done |].
      intros ->. simpl in Hkeys.
      assert (Hin : sheet_title kv ∈ fold_left add_column (map sheet_title items)
                                     (add_column [] (sheet_title kv))).
      { rewrite add_columns_elem_of. left. unfold add_column.
        rewrite decide_False by apply not_elem_of_nil. by left. }
      rewrite <- Hkeys in Hin. by apply elem_of_nil in Hin. }
  split; [done |]. split.
  { intros kv Hin Hnot.
    destruct (write_workbook env (JDict items) file_path) as [book | e remains] eqn:Hwrite;
      [| by exists e, remains].
    exfalso. apply Hnot. apply (proj1 Hiff); [by exists book | done]. }
  split; [done |]. split; [done |].
  intros key l rs Hall. unfold frame_of. cbn [snd]. by apply json_normalize_mappings.
Qed.

Lemma mapping_converts_witness :
  (exists book,
     write_workbook (demo_env (Returned agent_idle))
       (JDict [("a", JScalar (SInt 1)); ("b", JList [])])
       "/tmp/agno_xlsx_demo/uuid_data_processed.xlsx" = Saved book)
  /\ exists e remains,
       write_workbook (demo_env (Returned agent_idle))
         (JDict [("a", JScalar (SStr (String "001" "")))])
         "/tmp/agno_xlsx_demo/uuid_data_processed.xlsx" = Failed e remains.
Proof.
  split.
  - apply (proj1 (mapping_converts (demo_env (Returned agent_idle))
                    [("a", JScalar (SInt 1)); ("b", JList [])]
                    "/tmp/agno_xlsx_demo/uuid_data_processed.xlsx" eq_refl eq_refl)).
    split; [done |]. intros kv Hin.
    apply elem_of_cons in Hin as [-> | Hin];
      [eexists; split; [reflexivity |]; split; [split |]; vm_compute; reflexivity |].
    apply elem_of_cons in Hin as [-> | Hin];
      [eexists; split; [reflexivity |]; split; [split |]; vm_compute; reflexivity |].
    by apply elem_of_nil in Hin.
  - apply (proj1 (proj2 (mapping_converts (demo_env (Returned agent_idle))
                           [("a", JScalar (SStr (String "001" "")))]
                           "/tmp/agno_xlsx_demo/uuid_data_processed.xlsx" eq_refl eq_refl))
             ("a", JScalar (SStr (String "001" "")))).
    + by left.
    + intros (df & [= <-] & [_ Hcells] & _). vm_compute in Hcells. discriminate.
Defined.

(** The conversion of [{"a": "\u0001"}]: the header cell is written, the
    value is refused, and the workbook with the header stays on disk. *)
Lemma illegal_cell_fails :
  exists e,
    write_workbook (demo_env (Returned agent_idle))
      (JDict [("a", JScalar (SStr (String "001" "")))])
      "/tmp/agno_xlsx_demo/uuid_data_processed.xlsx"
    = Failed e (Some (XlsxFile [("Summary", [[CHeader "a"]])])).
Proof. eexists. vm_compute. reflexivity. Qed.

(** ** Flattened records *)

Section PyDictSet.
Context {V : Type}.
Implicit Types (d : list (string * V)) (k : string).

Lemma Forall_set (P : string * V -> Prop) k (v : V) d :
  (forall k', P (k', v)) -> Forall P d -> Forall P (PyDict.set k v d).
Proof.
  intros Hv. induction 1 as [| [k' v'] d Hkv Hd IH]; simpl.
  - by repeat constructor.
  - destruct (decide (k' = k)); constructor; auto.
Qed.

Lemma NoDup_keys_update d1 d2 :
  NoDup (PyDict.keys d1) -> NoDup (PyDict.keys (PyDict.update d1 d2)).
Proof.
  unfold PyDict.update. revert d1. induction d2 as [| [k v] d2 IH]; intros d1 Hnodup; [done |].
  simpl. by apply IH, NoDup_keys_set.
Qed.

Lemma Forall_update (P : string * V -> Prop) d1 d2 :
  (forall k k' v, P (k, v) -> P (k', v)) ->
  Forall P d1 -> Forall P d2 -> Forall P (PyDict.update d1 d2).
Proof.
  intros Hkey. unfold PyDict.update. revert d1.
  induction d2 as [| [k v] d2 IH]; intros d1 H1 H2; [done |].
  apply Forall_cons in H2 as [Hkv H2]. simpl. apply IH; [| done].
  apply Forall_set; [| done]. intros k'. by apply (Hkey k).
Qed.
End PyDictSet.

(** Flattening keeps the keys distinct and stores no mapping. *)
Fixpoint flatten_into_sound (v : JsonValue) :
  forall (k : string) (acc : list (string * JsonValue)),
    NoDup (PyDict.keys acc) -> Forall no_mapping acc ->
    NoDup (PyDict.keys (flatten_into k v acc)) /\ Forall no_mapping (flatten_into k v acc).
Proof.
  destruct v as [s | l | items]; intros k acc Hnodup Hflat.
  - simpl. split; [by apply NoDup_keys_set | by apply Forall_set].
  - simpl. split; [by apply NoDup_keys_set | by apply Forall_set].
  - cbn [flatten_into]. revert acc Hnodup Hflat.
    induction items as [| [k' v'] rest IH]; intros acc Hnodup Hflat; [done |].
    destruct (flatten_into_sound v' (join_key k k') acc Hnodup Hflat) as [Hnodup' Hflat'].
    by apply IH.
Qed.

Lemma flat_fold (items : list (string * JsonValue)) :
  forall acc,
    Forall no_mapping items ->
    NoDup (PyDict.keys acc ++ PyDict.keys items) ->
    fold_left (fun acc kv => if is_dict kv.2 then acc else PyDict.set kv.1 kv.2 acc)
              items acc = acc ++ items
    /\ fold_left (fun acc' kv => if is_dict kv.2 then flatten_into kv.1 kv.2 acc' else acc')
                 items ([] : list (string * JsonValue)) = [].
Proof.
  induction items as [| [k v] items IH]; intros acc Hflat Hnodup.
  - simpl. by rewrite app_nil_r.
  - apply Forall_cons in Hflat as [Hv Hflat]. unfold no_mapping in Hv. simpl in Hv.
    cbn [fold_left snd fst]. rewrite Hv.
    unfold PyDict.keys in Hnodup. rewrite (fmap_cons fst) in Hnodup. cbn [fst] in Hnodup.
    assert (Hfresh : k ∉ PyDict.keys acc).
    { apply NoDup_app in Hnodup as (_ & Hdisjoint & _).
      intros Hin. apply (Hdisjoint k Hin). by left. }
    rewrite set_fresh by done.
    destruct (IH (acc ++ [(k, v)]) Hflat) as [Htop Hnested].
    { unfold PyDict.keys. rewrite fmap_app, <- app_assoc. exact Hnodup. }
    split; [| exact Hnested].
    rewrite Htop. by rewrite <- app_assoc.
Qed.

Lemma top_fold_sound (items : list (string * JsonValue)) :
  forall acc,
    NoDup (PyDict.keys acc) -> Forall no_mapping acc ->
    NoDup (PyDict.keys
             (fold_left (fun acc kv => if is_dict kv.2 then acc
                                       else PyDict.set kv.1 kv.2 acc) items acc))
    /\ Forall no_mapping
         (fold_left (fun acc kv => if is_dict kv.2 then acc
                                   else PyDict.set kv.1 kv.2 acc) items acc).
Proof.
  induction items as [| [k v] rest IH]; intros acc Hnodup Hflat; [done |].
  cbn [fold_left fst snd]. destruct (is_dict v) eqn:Hv; [by apply IH |].
  apply IH; [by apply NoDup_keys_set | by apply Forall_set].
Qed.

Lemma nested_fold_sound (items : list (string * JsonValue)) :
  forall acc,
    NoDup (PyDict.keys acc) -> Forall no_mapping acc ->
    NoDup (PyDict.keys
             (fold_left (fun acc kv => if is_dict kv.2 then flatten_into kv.1 kv.2 acc
                                       else acc) items acc))
    /\ Forall no_mapping
         (fold_left (fun acc kv => if is_dict kv.2 then flatten_into kv.1 kv.2 acc
                                   else acc) items acc).
Proof.
  induction items as [| [k v] rest IH]; intros acc Hnodup Hflat; [done |].
  cbn [fold_left fst snd]. destruct (is_dict v) eqn:Hv; [| by apply IH].
  destruct (flatten_into_sound v k acc Hnodup Hflat). by apply IH.
Qed.

(** X15.  A flattened record is again a record without nested mappings:
    its keys are distinct and none of its values is a mapping (lists and
    scalars are kept as values).  A record that has no mapping among its
    values to begin with is left exactly as it is. *)
Theorem flatten_record_sound (items : list (string * JsonValue)) :
  NoDup (PyDict.keys (flatten_record items))
  /\ (forall k v, PyDict.get k (flatten_record items) = Some v -> is_dict v = false)
  /\ (NoDup (PyDict.keys items) ->
      (forall k v, (k, v) ∈ items -> is_dict v = false) ->
      flatten_record items = items).
Proof.
  destruct (top_fold_sound items [] (NoDup_nil_2) (Forall_nil_2 _)) as [Hnodup1 Hflat1].
  destruct (nested_fold_sound items [] (NoDup_nil_2) (Forall_nil_2 _)) as [_ Hflat2].
  unfold flatten_record. cbv zeta.
  split; [by apply NoDup_keys_update |]. split.
  - intros k v Hget. apply get_Some_elem_of in Hget.
    pose proof (Forall_update no_mapping _ _ ltac:(done) Hflat1 Hflat2) as Hall.
    rewrite Forall_forall in Hall. exact (Hall (k, v) Hget).
  - intros Hnodup Hflat.
    destruct (flat_fold items []) as [-> ->]; [| done | done].
    apply Forall_forall. intros [k v]. apply Hflat.
Qed.

Lemma flatten_record_sound_witness :
  flatten_record [("a", JScalar (SInt 1)); ("b", JList [JDict []])]
  = [("a", JScalar (SInt 1)); ("b", JList [JDict []])].
Proof.
  apply (proj2 (proj2 (flatten_record_sound
                         [("a", JScalar (SInt 1)); ("b", JList [JDict []])]))).
  - refine (bool_decide_unpack
              (NoDup (PyDict.keys [("a", JScalar (SInt 1)); ("b", JList [JDict []])])) _).
    vm_compute. exact I.
  - intros k v Hin.
    apply elem_of_cons in Hin as [[= _ ->] | Hin]; [reflexivity |].
    apply elem_of_cons in Hin as [[= _ ->] | Hin]; [reflexivity |].
    by apply elem_of_nil in Hin.
Defined.

(** ** The earlier version: producer call, fallback and handler *)

Lemma backup_convert_inv (env : Env) (json_data : string)
    (file_name description : option string) (api_key : string) (model : option string)
    (w w' : World) (r : Outcome (option string)) :
  Backup.convert_json_with_agno env json_data file_name description api_key model w
  = (r, w') ->
  temp_files w' = temp_files w /\ clock w' = clock w.
Proof.
  unfold Backup.convert_json_with_agno.
  destruct (create_agno_agent env api_key model) as [agent | cause];
    [| by intros [= <- <-]].
  destruct (agent _ _) as [[content | cause] files]; by intros [= <- <-].
Qed.

Lemma backup_fallback_settled (env : Env) (request : ProcessRequest.t) (w w1 w2 : World)
    (r : Outcome ProcessResponse.t) :
  temp_files w1 = temp_files w ->
  clock w1 = clock w ->
  Backup.fallback env request w1 = (r, w2) ->
  settled (ProcessRequest.json_data request) w r w2.
Proof.
  intros Hreg Hclock. unfold Backup.fallback; cbv zeta.
  destruct (json_loads env _) as [data | e]; [| by intros [= <- <-]].
  destruct (Backup.fallback_frame env data) as [df | e]; [| by intros [= <- <-]].
  destruct (ProcessRequest.file_name request) as [name |]; [| by intros [= <- <-]].
  destruct (with_writer env _ _) as [book | e [c |]]; intros [= <- <-]; [| done..].
  simpl. eexists _, _, _, _, _. split; [reflexivity |]. split; [reflexivity |].
  simpl. rewrite lookup_insert_eq. eauto.
Qed.

(** X16.  The fallback of the earlier version writes one sheet named
    ["Data"] whatever the shape of the payload (the title accepted and
    kept by the workbook library).  When it answers, the frame of the
    payload was made, the libraries took it, the file could be created and
    holds that one sheet, and the file is registered under the fresh id.
    It answers whenever these three conditions hold; for a mapping, the
    empty one included, the frame is always made: one row, the flattened
    mapping.  When it raises, nothing is registered. *)
Theorem backup_fallback_single_sheet (env : Env) (request : ProcessRequest.t) (w : World)
    (data : JsonValue) (name : string) :
  json_loads env (ProcessRequest.json_data request) = Returned data ->
  ProcessRequest.file_name request = Some name ->
  sheet_title_error env "Data" = None ->
  keeps_titles env [] ["Data"] = true ->
  (forall response w',
     Backup.fallback env request w = (Returned response, w') ->
     exists df file_path,
       file_path = temp_path env (uuid4 env (uuids_drawn w) +:+ "_" +:+ xlsx_filename env name)
       /\ Backup.fallback_frame env data = Returned df
       /\ accepted env df
       /\ open_error env file_path = None
       /\ content <$> fs w' !! file_path = Some (XlsxFile [("Data", frame_cells df)])
       /\ response
          = success_response (uuid4 env (uuids_drawn w)) (xlsx_filename env name)
              (Some "Fallback processing used - basic Excel structure created")
       /\ PyDict.get (uuid4 env (uuids_drawn w)) (temp_files w')
          = Some (file_info_for file_path (xlsx_filename env name)
                    (ProcessRequest.json_data request) w))
  /\ (forall df,
        Backup.fallback_frame env data = Returned df ->
        accepted env df ->
        open_error env
          (temp_path env (uuid4 env (uuids_drawn w) +:+ "_" +:+ xlsx_filename env name))
        = None ->
        exists response w', Backup.fallback env request w = (Returned response, w'))
  /\ (forall items,
        data = JDict items ->
        Backup.fallback_frame env data
        = Returned (DataFrame_of_records [flatten_record items]))
  /\ (forall e w',
        Backup.fallback env request w = (Raised e, w') -> temp_files w' = temp_files w).
Proof.
  intros Hloads Hname Htitle Hkeeps.
  split; [| split; [| split]].
  - intros response w'. unfold Backup.fallback; cbv zeta. rewrite Hloads, Hname.
    destruct (Backup.fallback_frame env data) as [df | e]; [| done].
    destruct (with_writer env _ _) as [book | e remains] eqn:Hwriter; [| done].
    intros [= <- <-].
    apply with_writer_saved in Hwriter as (Hopen & Hto & _).
    pose proof (to_excel_returned _ _ _ _ _ _ Hto) as [Haccepted _].
    apply to_excel_kept in Hto as [-> _]; [| done].
    eexists df, _. split; [reflexivity |]. split; [done |]. split; [done |].
    split; [done |]. split; [| split; [done |]].
    + simpl. by rewrite lookup_insert_eq.
    + unfold store_file_info, file_info_for. simpl. by rewrite get_set_eq.
  - intros df Hframe Haccepted Hopen. unfold Backup.fallback; cbv zeta.
    rewrite Hloads, Hframe, Hname. by rewrite data_sheet_saved; eauto.
  - by intros items ->.
  - intros e w' Hfallback.
    by apply (backup_fallback_settled env request w w) in Hfallback as [? _].
Qed.

Lemma backup_fallback_single_sheet_witness :
  Backup.fallback_frame (demo_env (Returned agent_idle)) (JDict [])
  = Returned (DataFrame_of_records [flatten_record []])
  /\ exists response w',
       Backup.fallback (demo_env (Returned agent_idle)) (demo_request "{}") w0
       = (Returned response, w').
Proof.
  destruct (backup_fallback_single_sheet (demo_env (Returned agent_idle))
              (demo_request "{}") w0 (JDict []) "data" eq_refl eq_refl eq_refl eq_refl)
    as (_ & Hanswers & Hframe & _).
  split; [by apply Hframe |].
  apply (Hanswers (DataFrame_of_records [flatten_record []])).
  - reflexivity.
  - split; vm_compute; reflexivity.
  - vm_compute; reflexivity.
Defined.

(** The fallback of the earlier version on a request whose file name has
    300 characters: the file cannot be created, and the handler raises
    the error 500. *)
Lemma backup_fallback_long_name :
  exists detail,
    fst (Backup.process_json_data (demo_env (Returned agent_idle))
           (long_name_request "{}") w0)
    = HTTPException 500 detail.
Proof. eexists. vm_compute. reflexivity. Qed.

(** X17.  The handler of the earlier version has no fallback for a failing
    producer: when the producer call raises, or returns no text, the answer
    is a failure response and nothing is registered.  It raises an HTTP
    error in two cases only: status 400 when the payload does not decode,
    and status 500 when the producer returned, no new workbook file
    appeared, and the fallback conversion raised. *)
Theorem backup_process_json_data_failures (env : Env) (request : ProcessRequest.t)
    (w : World) :
  let converted :=
    Backup.convert_json_with_agno env (ProcessRequest.json_data request)
      (ProcessRequest.file_name request) (ProcessRequest.description request)
      (ProcessRequest.api_key request) (ProcessRequest.model request) w in
  (forall data e w1,
     json_loads env (ProcessRequest.json_data request) = Returned data ->
     converted = (Raised e, w1) ->
     Backup.process_json_data env request w = (Respond (failure_response e), w1)
     /\ temp_files w1 = temp_files w)
  /\ (forall data w1,
        json_loads env (ProcessRequest.json_data request) = Returned data ->
        converted = (Returned None, w1) ->
        exists e,
          Backup.process_json_data env request w = (Respond (failure_response e), w1)
          /\ temp_files w1 = temp_files w)
  /\ (forall status_code detail w',
        Backup.process_json_data env request w = (HTTPException status_code detail, w') <->
        (exists e,
           json_loads env (ProcessRequest.json_data request) = Raised e
           /\ exn_class e = JSONDecodeError
           /\ status_code = 400
           /\ detail = "Invalid JSON: " +:+ exn_str e
           /\ w' = w)
        \/ (exists data ai_response w1 e,
              json_loads env (ProcessRequest.json_data request) = Returned data
              /\ converted = (Returned (Some ai_response), w1)
              /\ xlsx_files env (fs w1) ∖ xlsx_files env (fs w) = ∅
              /\ Backup.fallback env request w1 = (Raised e, w')
              /\ status_code = 500
              /\ detail = "Both AI and fallback processing failed: " +:+ exn_str e)).
Proof.
  cbv zeta. split; [| split].
  - intros data e w1 Hloads Hconverted.
    unfold Backup.process_json_data. rewrite Hloads. cbv zeta. rewrite Hconverted.
    split; [done |]. by apply backup_convert_inv in Hconverted as [? ?].
  - intros data w1 Hloads Hconverted.
    unfold Backup.process_json_data. rewrite Hloads. cbv zeta. rewrite Hconverted.
    eexists. split; [done |]. by apply backup_convert_inv in Hconverted as [? ?].
  - intros status_code detail w'. unfold Backup.process_json_data.
    destruct (json_loads env (ProcessRequest.json_data request)) as [data | e] eqn:Hloads.
    + cbv zeta.
      destruct (Backup.convert_json_with_agno env _ _ _ _ _ w)
        as [[[ai_response |] | e] w1] eqn:Hconverted.
      * destruct (newest (fs w1) _) as [newest_file |] eqn:Hnewest.
        -- split; [done |].
           intros [(e & [=] & _) | (data' & ai' & w1' & e & _ & [= <- <-] & Hnone & _)].
           rewrite Hnone, elements_empty in Hnewest. done.
        -- assert (Hnone : xlsx_files env (fs w1) ∖ xlsx_files env (fs w) = ∅).
           { apply leibniz_equiv, elements_empty_inv.
             destruct (elements _) as [| p paths] eqn:Hpaths; [done |].
             exfalso. clear -Hnewest. unfold newest in Hnewest. simpl in Hnewest.
             revert Hnewest. generalize p. induction paths as [| q paths IH]; intros b; [done |].
             simpl. destruct (getmtime (fs w1) b <? getmtime (fs w1) q); apply IH. }
           destruct (Backup.fallback env request w1) as [[response | e] w2] eqn:Hfallback.
           ++ split; [done |].
              intros [(e & [=] & _) | (data' & ai' & w1' & e & _ & [= <- <-] & _ & Hfail & _)].
              congruence.
           ++ split.
              ** intros [= <- <- <-]. right. exists data, ai_response, w1, e. by repeat split.
              ** intros [(e' & [=] & _)
                        | (data' & ai' & w1' & e' & _ & [= <- <-] & _ & Hfail & -> & ->)].
                 rewrite Hfallback in Hfail. by injection Hfail as <- <-.
      * split; [done |].
        intros [(e & [=] & _) | (data' & ai' & w1' & e & _ & [=] & _)].
      * split; [done |].
        intros [(e' & [=] & _) | (data' & ai' & w1' & e' & _ & [=] & _)].
    + destruct (exn_class e) eqn:Hclass; split.
      * intros [= <- <- <-]. left. exists e. by repeat split.
      * intros [(e' & [= <-] & _ & -> & -> & ->) | (data & ? & ? & ? & [=] & _)]. done.
      * done.
      * intros [(e' & [= <-] & Hclass' & _) | (data & ? & ? & ? & [=] & _)]. congruence.
      * done.
      * intros [(e' & [= <-] & Hclass' & _) | (data & ? & ? & ? & [=] & _)]. congruence.
Qed.

Lemma backup_process_json_data_failures_witness :
  Backup.process_json_data (demo_env (Returned agent_broken)) (demo_request "[]") w0
  = (Respond (failure_response
                {| exn_class := OtherException;
                   exn_str := "Agno AI processing failed: quota exceeded" |}), w0)
  /\ temp_files w0 = temp_files w0.
Proof.
  apply (proj1 (backup_process_json_data_failures (demo_env (Returned agent_broken))
                  (demo_request "[]") w0) (JList [])).
  - reflexivity.
  - vm_compute. reflexivity.
Defined.

(** ** The earlier version: batches *)

Lemma keys_set_subseteq {V} (k : string) (v : V) (d : list (string * V)) :
  PyDict.keys d ⊆ PyDict.keys (PyDict.set k v d) /\ k ∈ PyDict.keys (PyDict.set k v d).
Proof.
  rewrite keys_set. unfold add_column.
  destruct (decide (k ∈ PyDict.keys d)); [done |].
  split; [intros k' Hin; apply elem_of_app; by left |].
  apply elem_of_app. right. by left.
Qed.

Lemma settled_registered (json_data : string) (w w' : World) (response : ProcessResponse.t) :
  settled json_data w (Returned response) w' ->
  PyDict.keys (temp_files w) ⊆ PyDict.keys (temp_files w')
  /\ exists file_id,
       ProcessResponse.success response = true
       /\ ProcessResponse.file_id response = Some file_id
       /\ ProcessResponse.download_url response = Some ("/download/" +:+ file_id)
       /\ file_id ∈ PyDict.keys (temp_files w').
Proof.
  intros (file_id & name & path & note & w1 & -> & -> & _ & Hreg & _).
  unfold store_file_info. simpl. rewrite Hreg.
  destruct (keys_set_subseteq file_id
              {| FileInfo.path := path; FileInfo.filename := name;
                 FileInfo.created_at := clock w1;
                 FileInfo.original_json := preview json_data |} (temp_files w))
    as [Hsub Hin].
  split; [done |]. by exists file_id.
Qed.

(** The registry after a request of the earlier version: nothing is lost,
    and the id of a success response is registered. *)
Lemma backup_process_registry (env : Env) (request : ProcessRequest.t) (w w' : World)
    (result : HandlerResult ProcessResponse.t) :
  Backup.process_json_data env request w = (result, w') ->
  PyDict.keys (temp_files w) ⊆ PyDict.keys (temp_files w')
  /\ (forall response,
        result = Respond response ->
        ProcessResponse.success response = true ->
        exists file_id,
          ProcessResponse.file_id response = Some file_id
          /\ ProcessResponse.download_url response = Some ("/download/" +:+ file_id)
          /\ file_id ∈ PyDict.keys (temp_files w')).
Proof.
  unfold Backup.process_json_data.
  destruct (json_loads env (ProcessRequest.json_data request)) as [data | e].
  2:{ destruct (exn_class e); intros [= <- <-]; (split; [done |]);
        intros response [=]; by subst. }
  cbv zeta.
  destruct (Backup.convert_json_with_agno env _ _ _ _ _ w)
    as [[[ai_response |] | e] w1] eqn:Hconverted;
    apply backup_convert_inv in Hconverted as [Hreg Hclock].
  - destruct (newest (fs w1) _) as [newest_file |].
    + intros [= <- <-]. unfold store_file_info. simpl. rewrite Hreg.
      match goal with
      | |- context [PyDict.set ?k ?v (temp_files w)] =>
          destruct (keys_set_subseteq k v (temp_files w)) as [Hsub Hin]
      end.
      split; [done |]. intros response [= <-] _. eexists. by repeat split.
    + destruct (Backup.fallback env request w1) as [[response | e] w2] eqn:Hfallback;
        apply (backup_fallback_settled env request w w1) in Hfallback; try done;
        intros [= <- <-].
      * apply settled_registered in Hfallback as (Hsub & file_id & _ & Hid & Hurl & Hin).
        split; [done |]. intros response' [= <-] _. by exists file_id.
      * destruct Hfallback as [Hreg' _]. rewrite Hreg'. split; [done |]. by intros ? [=].
  - intros [= <- <-]. rewrite Hreg. split; [done |]. by intros ? [= <-] [=].
  - intros [= <- <-]. rewrite Hreg. split; [done |]. by intros ? [= <-] [=].
Qed.

(** The loop from any index on: every file adds one element to one of the
    two lists, and what it adds to the first stays redeemable. *)
Lemma batch_loop_spec (env : Env) (str_http : Z -> string -> string)
    (request : Backup.BatchProcessRequest) (files : list (list (string * string))) :
  forall (i : nat) (processed : list Backup.ProcessedFile) (errors : list string)
         (w w' : World) (processed' : list Backup.ProcessedFile) (errors' : list string),
    Backup.batch_loop env str_http request i files processed errors w
    = (processed', errors', w') ->
    PyDict.keys (temp_files w) ⊆ PyDict.keys (temp_files w')
    /\ exists new_processed new_errors,
         processed' = processed ++ new_processed
         /\ errors' = errors ++ new_errors
         /\ (length new_processed + length new_errors = length files)%nat
         /\ Forall (redeemable w') new_processed.
Proof.
  induction files as [| file_data rest IH];
    intros i processed errors w w' processed' errors' Hloop.
  - simpl in Hloop. injection Hloop as <- <- <-. split; [done |].
    exists [], []. by rewrite !app_nil_r.
  - cbn [Backup.batch_loop] in Hloop. cbv zeta in Hloop.
    destruct (Backup.process_json_data env _ w) as [[result | status_code detail] w1]
      eqn:Hprocess;
      apply backup_process_registry in Hprocess as [Hsub Hsuccess].
    + destruct (ProcessResponse.success result) eqn:Hok.
      * apply IH in Hloop as (Hsub' & new_processed & new_errors & -> & -> & Hlen & Hall).
        split; [by etrans |].
        eexists (_ :: new_processed), new_errors.
        rewrite <- app_assoc. split; [reflexivity |]. split; [done |].
        split; [simpl; lia |]. constructor; [| done].
        destruct (Hsuccess result eq_refl Hok) as (file_id & Hid & Hurl & Hin).
        exists file_id. simpl. split; [done |]. split; [done |]. by apply Hsub'.
      * apply IH in Hloop as (Hsub' & new_processed & new_errors & -> & -> & Hlen & Hall).
        split; [by etrans |].
        eexists new_processed, (_ :: new_errors).
        rewrite <- app_assoc. split; [done |]. split; [reflexivity |].
        split; [simpl; lia | done].
    + apply IH in Hloop as (Hsub' & new_processed & new_errors & -> & -> & Hlen & Hall).
      split; [by etrans |].
      eexists new_processed, (_ :: new_errors).
      rewrite <- app_assoc. split; [done |]. split; [reflexivity |].
      split; [simpl; lia | done].
Qed.

(** X18.  A batch accounts for every file: each one ends either as an
    element of [processed_files] or as one error message, in order.  The
    count is the number of processed files, the batch succeeds exactly
    when at least one file did, and the error text is absent exactly when
    no file failed; the empty batch is therefore a failure without an
    error text.  Every processed element carries an id that is registered
    when the batch ends, with the download reference of that id, and no
    entry that was registered before is lost. *)
Theorem batch_process_json_accounting (env : Env) (str_http : Z -> string -> string)
    (request : Backup.BatchProcessRequest) (w : World) :
  let response := fst (Backup.batch_process_json env str_http request w) in
  let w' := snd (Backup.batch_process_json env str_http request w) in
  exists processed errors,
    Backup.processed_files response = Some processed
    /\ Backup.processed_count response = Some (Z.of_nat (length processed))
    /\ (length processed + length errors = length (Backup.json_files request))%nat
    /\ (Backup.success response = true <-> processed ≠ [])
    /\ (Backup.error response = None <-> errors = [])
    /\ (errors ≠ [] -> Backup.error response = Some (Backup.join errors))
    /\ Forall (redeemable w') processed
    /\ PyDict.keys (temp_files w) ⊆ PyDict.keys (temp_files w')
    /\ (Backup.json_files request = [] ->
        Backup.success response = false
        /\ Backup.processed_count response = Some 0
        /\ Backup.error response = None
        /\ w' = w).
Proof.
  cbv zeta. unfold Backup.batch_process_json.
  destruct (Backup.batch_loop env str_http request 0 (Backup.json_files request) [] [] w)
    as [[processed errors] w'] eqn:Hloop.
  pose proof Hloop as Hspec.
  apply batch_loop_spec in Hspec
    as (Hsub & new_processed & new_errors & Hp & He & Hlen & Hall).
  simpl in Hp, He. subst new_processed new_errors.
  exists processed, errors. cbn [fst snd Backup.processed_files Backup.processed_count
                                Backup.success Backup.error].
  split; [done |]. split; [done |]. split; [done |].
  split.
  { rewrite bool_decide_eq_true. destruct processed; simpl; [| split; [done | lia]].
    split; [lia | done]. }
  split; [by destruct errors |].
  split; [by destruct errors |].
  split; [done |]. split; [done |].
  intros Hempty. rewrite Hempty in Hloop. simpl in Hloop.
  injection Hloop as <- <- <-. by repeat split.
Qed.

(** ** The producer's file *)

Lemma newest_max (files : gmap string File) (paths : list string) (p : string) :
  newest files paths = Some p ->
  forall q, q ∈ paths -> getmtime files q <= getmtime files p.
Proof.
  unfold newest.
  assert (Hgen : forall best,
            fold_left (fun best q =>
                         match best with
                         | None => Some q
                         | Some b => if getmtime files b <? getmtime files q
                                     then Some q else Some b
                         end) paths best = Some p ->
            (forall b, best = Some b -> getmtime files b <= getmtime files p)
            /\ forall q, q ∈ paths -> getmtime files q <= getmtime files p).
  { induction paths as [| q paths IH]; intros best; simpl.
    - intros ->. split; [by intros b [= ->] | by intros q ?%elem_of_nil].
    - intros Hfold. apply IH in Hfold as [Hbest Hrest]. split.
      + intros b ->. destruct (Z.ltb_spec (getmtime files b) (getmtime files q)).
        * specialize (Hbest q eq_refl). lia.
        * by apply Hbest.
      + intros q' [-> | Hin]%elem_of_cons; [| by apply Hrest].
        destruct best as [b |]; [| by apply Hbest].
        destruct (Z.ltb_spec (getmtime files b) (getmtime files q)).
        * by apply Hbest.
        * specialize (Hbest b eq_refl). lia. }
  intros Hfold. by apply Hgen in Hfold as [_ ?].
Qed.

Lemma newest_Some (files : gmap string File) (paths : list string) :
  paths ≠ [] -> exists p, newest files paths = Some p.
Proof.
  unfold newest. destruct paths as [| q paths]; [done |]. intros _. simpl.
  generalize q. induction paths as [| q' paths IH]; intros b; simpl; [by exists b |].
  destruct (getmtime files b <? getmtime files q'); apply IH.
Qed.

(** X19.  When the producer has answered and new workbook files are in the
    directory, the handler takes the one modified last: it moves it to
    [TEMP_DIR/<id>_<its name>], registers it under a fresh id with its own
    name, and answers with the producer's text.  The other new files stay
    where they are, unregistered, and no direct conversion takes place. *)
Theorem process_takes_newest_file (env : Env) (request : ProcessRequest.t) (w w1 : World)
    (data : JsonValue) (ai_response : string) :
  json_loads env (ProcessRequest.json_data request) = Returned data ->
  convert_json_with_agno env (ProcessRequest.json_data request)
    (ProcessRequest.file_name request) (ProcessRequest.description request)
    (ProcessRequest.api_key request) (ProcessRequest.model request) w
  = (Returned (Some ai_response), w1) ->
  xlsx_files env (fs w1) ∖ xlsx_files env (fs w) ≠ ∅ ->
  exists newest_file f w',
    newest_file ∈ xlsx_files env (fs w1) ∖ xlsx_files env (fs w)
    /\ fs w1 !! newest_file = Some f
    /\ (forall q, q ∈ xlsx_files env (fs w1) ∖ xlsx_files env (fs w) ->
                  getmtime (fs w1) q <= getmtime (fs w1) newest_file)
    /\ let file_id := uuid4 env (uuids_drawn w1) in
       let managed_path := temp_path env (file_id +:+ "_" +:+ basename newest_file) in
       process_json_data env request w
       = (Respond (success_response file_id (basename newest_file) (Some ai_response)), w')
       /\ fs w' !! managed_path = Some f
       /\ (managed_path ≠ newest_file -> fs w' !! newest_file = None)
       /\ (forall q, q ≠ newest_file -> q ≠ managed_path -> fs w' !! q = fs w1 !! q)
       /\ PyDict.get file_id (temp_files w')
          = Some (file_info_for managed_path (basename newest_file)
                    (ProcessRequest.json_data request) w)
       /\ uuids_drawn w' = S (uuids_drawn w1).
Proof.
  intros Hloads Hconverted Hnew.
  assert (Hpaths : elements (xlsx_files env (fs w1) ∖ xlsx_files env (fs w)) ≠ []).
  { intros Hnil. apply Hnew, leibniz_equiv. by apply elements_empty_inv. }
  destruct (newest_Some (fs w1) _ Hpaths) as [newest_file Hnewest].
  pose proof (newest_elem_of _ _ _ Hnewest) as Hin. apply elem_of_elements in Hin.
  assert (Hdisk : is_Some (fs w1 !! newest_file)).
  { apply elem_of_difference in Hin as [Hin _]. by apply (xlsx_files_on_disk env). }
  destruct Hdisk as [f Hf].
  pose proof (convert_json_with_agno_inv _ _ _ _ _ _ _ _ _ Hconverted) as [Hreg Hclock].
  eexists newest_file, f, _.
  split; [done |]. split; [done |].
  split.
  { intros q Hq. apply (newest_max _ _ _ Hnewest). by apply elem_of_elements. }
  cbv zeta. split.
  { unfold process_json_data. rewrite Hloads. cbv zeta. rewrite Hconverted.
    unfold collect_new_file. cbv zeta. rewrite Hnewest. reflexivity. }
  unfold store_file_info, file_info_for, os_rename. simpl. rewrite Hf.
  split; [by rewrite lookup_insert_eq |].
  split; [intros Hne; by rewrite lookup_insert_ne, lookup_delete_eq |].
  split; [intros q Hq1 Hq2; by rewrite lookup_insert_ne, lookup_delete_ne |].
  split; [by rewrite get_set_eq, Hclock | done].
Qed.

Lemma process_takes_newest_file_witness :
  exists newest_file f w',
    fs (snd (convert_json_with_agno (demo_env (Returned agent_writer)) "[]" (Some "data")
               (Some "") "key" (Some "gemini-2.0-flash") w0)) !! newest_file = Some f
    /\ process_json_data (demo_env (Returned agent_writer)) (demo_request "[]") w0
       = (Respond (success_response (uuid4 (demo_env (Returned agent_writer)) 0)
                     (basename newest_file) (Some "Two files written.")), w').
Proof.
  destruct (process_takes_newest_file (demo_env (Returned agent_writer))
              (demo_request "[]") w0
              (snd (convert_json_with_agno (demo_env (Returned agent_writer)) "[]"
                      (Some "data") (Some "") "key" (Some "gemini-2.0-flash") w0))
              (JList []) "Two files written.")
    as (newest_file & f & w' & _ & Hf & _ & Hanswer & _).
  - reflexivity.
  - vm_compute. reflexivity.
  - refine (bool_decide_unpack (_ ≠ ∅) _). vm_compute. exact I.
  - exists newest_file, f, w'. split; [exact Hf | exact Hanswer].
Defined.

(** ** Large payloads *)

Lemma write_items_with_producer (env : Env)
    (make : string -> option string -> Outcome Agent) (items : list (string * JsonValue)) :
  forall book,
    write_items (with_producer env make) items book = write_items env items book.
Proof.
  induction items as [| kv rest IH]; intros book; [done |].
  rewrite !write_items_cons.
  change (frame_of (with_producer env make) kv) with (frame_of env kv).
  destruct (frame_of env kv) as [df |]; [| done].
  change (to_excel (with_producer env make)) with (to_excel env).
  destruct (to_excel env df (sheet_title kv) book) as [[[] | e] book1]; [apply IH | done].
Qed.

Lemma write_workbook_with_producer (env : Env)
    (make : string -> option string -> Outcome Agent) (data : JsonValue)
    (file_path : string) :
  write_workbook (with_producer env make) data file_path = write_workbook env data file_path.
Proof.
  unfold write_workbook. destruct data as [s | l | items]; try reflexivity.
  unfold with_writer. cbn [open_error with_producer].
  by rewrite write_items_with_producer.
Qed.

Lemma direct_conversion_with_producer (env : Env)
    (make : string -> option string -> Outcome Agent) (request : ProcessRequest.t)
    (note : string) (w : World) :
  direct_conversion (with_producer env make) request note w
  = direct_conversion env request note w.
Proof.
  unfold direct_conversion, direct_json_to_excel. cbv zeta.
  cbn [json_loads uuid4 with_producer].
  destruct (json_loads env (ProcessRequest.json_data request)) as [data | e]; [| done].
  destruct (ProcessRequest.file_name request) as [name |]; [| done].
  rewrite write_workbook_with_producer. reflexivity.
Qed.

(** X20.  A payload of more than 100,000 characters never reaches the
    producer: the answer of the handler and the world it leaves are the
    same whatever producer is configured, even one whose creation fails. *)
Theorem large_payload_ignores_producer (env : Env)
    (make1 make2 : string -> option string -> Outcome Agent)
    (request : ProcessRequest.t) (w : World) :
  slen (ProcessRequest.json_data request) > 100000 ->
  process_json_data (with_producer env make1) request w
  = process_json_data (with_producer env make2) request w.
Proof.
  intros Hlarge.
  assert (Hdirect : forall make,
             process_json_data (with_producer env make) request w
             = match json_loads env (ProcessRequest.json_data request) with
               | Raised e =>
                   match exn_class e with
                   | JSONDecodeError => (HTTPException 400 ("Invalid JSON: " +:+ exn_str e), w)
                   | _ => (Respond (failure_response e), w)
                   end
               | Returned _ =>
                   respond
                     match direct_conversion env request
                             "Direct conversion used for large JSON data" w with
                     | (Returned response, w2) => (Returned response, w2)
                     | (Raised agno_error, w2) =>
                         direct_conversion env request
                           ("Fallback conversion used due to: " +:+ exn_str agno_error) w2
                     end
               end).
  { intros make. unfold process_json_data, convert_json_with_agno. cbv zeta.
    cbn [json_loads with_producer].
    destruct (json_loads env (ProcessRequest.json_data request)) as [data | e]; [| done].
    destruct (Z.gtb_spec (slen (ProcessRequest.json_data request)) 100000); [| lia].
    rewrite direct_conversion_with_producer.
    destruct (direct_conversion env request _ w) as [[response | agno_error] w2];
      [done |].
    rewrite direct_conversion_with_producer.
    by destruct (direct_conversion env request _ w2) as [[response | e] w3]. }
  by rewrite !Hdirect.
Qed.

Lemma large_payload_ignores_producer_witness :
  process_json_data
    (with_producer (demo_env (Returned agent_idle)) (fun _ _ => Returned agent_idle))
    (demo_request (padded (Z.to_nat 99999))) w0
  = process_json_data
      (with_producer (demo_env (Returned agent_idle))
         (fun _ _ => Raised {| exn_class := OtherException; exn_str := "no key" |}))
      (demo_request (padded (Z.to_nat 99999))) w0.
Proof.
  apply large_payload_ignores_producer. vm_compute. reflexivity.
Defined.
